(** * Recommendation engine: similarity, collaborative, content-based,
      popularity and hybrid ranking

    A shallow embedding of [app/services/*.py], of the recommendation
    routes of [app/routers/recommendations.py] and of [create_rating] of
    [app/routers/ratings.py].

    Conventions of the embedding:
    - a Python [float] is a real number (exact arithmetic); [float(n)] of an
      integer rating is [IZR n]. An equation stated of a score gives the
      formula that the code evaluates; no bound or symmetry that holds in
      exact arithmetic only is stated;
    - a Python [dict] is an insertion-ordered association list: iteration
      follows the order in which keys were first inserted, and assigning to an
      existing key keeps its position;
    - a raised exception is the [Raise] branch of the [result] monad;
    - the data store is a record of the two collections the engine reads;
    - [limit], [top_n] and the counts are natural numbers (the routes accept
      [limit] between 1 and 100 only). *)

From Stdlib Require Import List String Ascii ZArith Bool Arith Lia Reals Lra Psatz.
From Stdlib Require Import Permutation.
Import ListNotations.
Local Open Scope string_scope.
Local Open Scope list_scope.
Local Open Scope R_scope.

(* ===================================================================== *)
(** * Python prelude                                                      *)
(* ===================================================================== *)

(** ** Exceptions *)

Inductive exn : Type :=
| ZeroDivisionError
| ValueError
| TypeError
| InvalidId
| OperationFailure
| OverflowError.

Inductive result (A : Type) : Type :=
| Ok (a : A)
| Raise (e : exn).
Arguments Ok {A} a.
Arguments Raise {A} e.

Definition bind {A B : Type} (c : result A) (k : A -> result B) : result B :=
  match c with
  | Ok a => k a
  | Raise e => Raise e
  end.

Notation "x <- c ;; k" := (bind c (fun x => k))
  (at level 61, c at next level, right associativity).

Fixpoint mapM {A B : Type} (f : A -> result B) (l : list A) : result (list B) :=
  match l with
  | [] => Ok []
  | x :: l' => y <- f x ;; ys <- mapM f l' ;; Ok (y :: ys)
  end.

Fixpoint foldM {A S : Type} (f : S -> A -> result S) (l : list A) (s : S) : result S :=
  match l with
  | [] => Ok s
  | x :: l' => s' <- f s x ;; foldM f l' s'
  end.

(** ** Numbers *)

Definition Rltb (x y : R) : bool := if Rlt_dec x y then true else false.
Definition Rleb (x y : R) : bool := if Rle_dec x y then true else false.
Definition Reqb (x y : R) : bool := if Req_dec_T x y then true else false.
Arguments Rltb : simpl never.
Arguments Rleb : simpl never.
Arguments Reqb : simpl never.

(** [x / y] *)
Definition pydiv (x y : R) : result R :=
  if Reqb y 0 then Raise ZeroDivisionError else Ok (x / y).

(** [math.sqrt(x)] *)
Definition math_sqrt (x : R) : result R :=
  if Rltb x 0 then Raise ValueError else Ok (sqrt x).

(** [sum(xs)] *)
Definition py_sum (l : list R) : R := fold_left Rplus l 0.

(** [max(xs)] of a non-empty sequence whose first element is [x] *)
Definition py_max (x : R) (l : list R) : R := fold_left Rmax l x.

(** ** Strings, sets of strings and dictionaries *)

(** [k in l] *)
Definition contains (l : list string) (k : string) : bool :=
  existsb (String.eqb k) l.

(** [set(l)]: every element once *)
Fixpoint to_set (l : list string) : list string :=
  match l with
  | [] => []
  | x :: l' => x :: filter (fun y => negb (String.eqb y x)) (to_set l')
  end.

(** [s1 & s2] *)
Definition set_inter (s1 s2 : list string) : list string :=
  filter (contains s2) s1.

(** [s1 | s2] *)
Definition set_union (s1 s2 : list string) : list string :=
  s1 ++ filter (fun k => negb (contains s1 k)) s2.

Definition dict (V : Type) : Type := list (string * V).

Definition keys {V : Type} (d : dict V) : list string := map fst d.
Definition values {V : Type} (d : dict V) : list V := map snd d.

(** [d.get(k)] *)
Fixpoint dict_get {V : Type} (d : dict V) (k : string) : option V :=
  match d with
  | [] => None
  | (k', v) :: d' => if String.eqb k k' then Some v else dict_get d' k
  end.

(** [d[k] = v] *)
Fixpoint dict_set {V : Type} (d : dict V) (k : string) (v : V) : dict V :=
  match d with
  | [] => [(k, v)]
  | (k', v') :: d' =>
      if String.eqb k k' then (k', v) :: d' else (k', v') :: dict_set d' k v
  end.

(** [d.get(k, dflt)]; also [d[k]] of a [defaultdict] or [Counter] whose
    default is [dflt], and [d[k]] where [k] is known to be a key. *)
Definition get_or {V : Type} (d : dict V) (k : string) (dflt : V) : V :=
  match dict_get d k with
  | Some v => v
  | None => dflt
  end.

(** ** [list.sort(key=..., reverse=True)]: a stable descending sort *)

Fixpoint insert_desc {A : Type} (key : A -> R) (x : A) (l : list A) : list A :=
  match l with
  | [] => [x]
  | y :: l' =>
      if Rltb (key x) (key y) then y :: insert_desc key x l' else x :: y :: l'
  end.

Definition sort_desc {A : Type} (key : A -> R) (l : list A) : list A :=
  fold_right (insert_desc key) [] l.

(* ===================================================================== *)
(** * bson.ObjectId and the data store                                    *)
(* ===================================================================== *)

(** An [ObjectId] is twelve bytes; it is kept here as the lowercase
    hexadecimal text that [str] prints. *)
Inductive ObjectId : Type := Oid (hex : string).

Definition is_hex_digit (c : ascii) : bool :=
  let n := nat_of_ascii c in
  ((48 <=? n) && (n <=? 57) || (97 <=? n) && (n <=? 102)
   || (65 <=? n) && (n <=? 70))%nat.

Definition lower (c : ascii) : ascii :=
  let n := nat_of_ascii c in
  if ((65 <=? n) && (n <=? 90))%nat then ascii_of_nat (n + 32) else c.

Fixpoint string_map (f : ascii -> ascii) (s : string) : string :=
  match s with
  | EmptyString => EmptyString
  | String c s' => String (f c) (string_map f s')
  end.

(** [ObjectId.is_valid(s)] for a [str]: 24 hexadecimal digits of either case *)
Definition is_valid (s : string) : bool :=
  (String.length s =? 24)%nat && forallb is_hex_digit (list_ascii_of_string s).

(** [ObjectId(s)] *)
Definition ObjectId_of (s : string) : result ObjectId :=
  if is_valid s then Ok (Oid (string_map lower s)) else Raise InvalidId.

(** [str(oid)] *)
Definition str (o : ObjectId) : string := let 'Oid h := o in h.

Definition oid_eqb (a b : ObjectId) : bool := String.eqb (str a) (str b).

(** The metadata dictionary of an item. The fields the engine reads carry
    the types [models/item.py] declares for them ([MovieMetadata],
    [ProductMetadata], [BookMetadata]), as [create_item] stores them;
    [other] holds every other key. A metadata field that [update_item] has
    overwritten with a value of another type ([ItemUpdate.metadata] is an
    untyped [dict]) is outside this record: on such an item
    [extract_item_features] can raise [TypeError]. What is stated below of
    feature extraction is stated of items of the declared types. *)
Record metadata_doc : Type := {
  director : option string;
  cast : option (list string);
  brand : option string;
  author : option string;
  publisher : option string;
  other : dict string
}.

(** A document of the [items] collection, as [create_item] writes it:
    [category] is a top-level field and only products have it. *)
Record item : Type := {
  _id : ObjectId;
  item_type : string;
  title : option string;
  name : option string;
  category : option string;
  genres : list string;
  tags : list string;
  metadata : metadata_doc
}.

(** A document of the [ratings] collection, as [create_rating] writes it:
    [item_id] is the text the client sent, [rating] an integer. *)
Record rating_doc : Type := {
  user_id : string;
  item_id : string;
  rating : Z;
  created_at : Z
}.

Record database : Type := {
  items : list item;
  ratings : list rating_doc
}.

(** [db.items.find_one({"_id": oid})] *)
Definition find_one_item (db : database) (oid : ObjectId) : option item :=
  find (fun it => oid_eqb (_id it) oid) (items db).

(** [db.ratings.find({"user_id": user_id})] *)
Definition find_ratings_of (db : database) (uid : string) : list rating_doc :=
  filter (fun r => String.eqb (user_id r) uid) (ratings db).

(** A recommendation record: the item document with the keys the engine
    adds to it. *)
Record recommendation : Type := {
  doc : item;
  id : string;
  recommendation_score : R;
  recommendation_type : string;
  similarity_score : option R;
  normalized_score : option R;
  collaborative_score : option R;
  content_score : option R;
  avg_rating : option R;
  rating_count : option nat;
  popularity_score : option R;
  trending_score : option R
}.

Definition annotate (it : item) (score : R) (kind : string) : recommendation :=
  {| doc := it; id := str (_id it);
     recommendation_score := score; recommendation_type := kind;
     similarity_score := None; normalized_score := None;
     collaborative_score := None; content_score := None;
     avg_rating := None; rating_count := None;
     popularity_score := None; trending_score := None |}.

(* ===================================================================== *)
(** * services/collaborative_filtering.py                                 *)
(* ===================================================================== *)

Definition get_user_ratings_dict (db : database) (uid : string) : dict R :=
  fold_left (fun d r => dict_set d (item_id r) (IZR (rating r)))
            (find_ratings_of db uid) [].

Definition get_all_users_ratings (db : database) : dict (dict R) :=
  fold_left
    (fun user_ratings r =>
       dict_set user_ratings (user_id r)
                (dict_set (get_or user_ratings (user_id r) []) (item_id r)
                          (IZR (rating r))))
    (ratings db) [].

(** [set(ratings1.keys()) & set(ratings2.keys())] *)
Definition common_keys (ratings1 ratings2 : dict R) : list string :=
  set_inter (to_set (keys ratings1)) (to_set (keys ratings2)).

Definition cosine_similarity (ratings1 ratings2 : dict R) : result R :=
  let common_items := common_keys ratings1 ratings2 in
  if (List.length common_items =? 0)%nat then Ok 0 else
  let dot_product :=
    py_sum (map (fun i => get_or ratings1 i 0 * get_or ratings2 i 0) common_items) in
  magnitude1 <- math_sqrt (py_sum (map (fun i => get_or ratings1 i 0 ^ 2) common_items)) ;;
  magnitude2 <- math_sqrt (py_sum (map (fun i => get_or ratings2 i 0 ^ 2) common_items)) ;;
  if Reqb magnitude1 0 || Reqb magnitude2 0 then Ok 0 else
  pydiv dot_product (magnitude1 * magnitude2).

Definition pearson_correlation (ratings1 ratings2 : dict R) : result R :=
  let common_items := common_keys ratings1 ratings2 in
  if (List.length common_items <? 2)%nat then Ok 0 else
  mean1 <- pydiv (py_sum (map (fun i => get_or ratings1 i 0) common_items))
                 (INR (List.length common_items)) ;;
  mean2 <- pydiv (py_sum (map (fun i => get_or ratings2 i 0) common_items))
                 (INR (List.length common_items)) ;;
  let numerator :=
    py_sum (map (fun i => (get_or ratings1 i 0 - mean1) * (get_or ratings2 i 0 - mean2))
                common_items) in
  let sum_sq_diff1 := py_sum (map (fun i => (get_or ratings1 i 0 - mean1) ^ 2) common_items) in
  let sum_sq_diff2 := py_sum (map (fun i => (get_or ratings2 i 0 - mean2) ^ 2) common_items) in
  denominator <- math_sqrt (sum_sq_diff1 * sum_sq_diff2) ;;
  if Reqb denominator 0 then Ok 0 else
  pydiv numerator denominator.

Definition find_similar_users (db : database) (uid : string)
           (min_common_items top_n : nat) : result (list (string * R)) :=
  let user_ratings := get_user_ratings_dict db uid in
  if (List.length user_ratings =? 0)%nat then Ok [] else
  let all_users_ratings := get_all_users_ratings db in
  similarities <-
    foldM (fun similarities '(other_user_id, other_ratings) =>
             if String.eqb other_user_id uid then Ok similarities else
             let common_items := common_keys user_ratings other_ratings in
             if (List.length common_items <? min_common_items)%nat then Ok similarities else
             similarity <- pearson_correlation user_ratings other_ratings ;;
             if Rltb 0 similarity
             then Ok (similarities ++ [(other_user_id, similarity)])
             else Ok similarities)
          all_users_ratings [] ;;
  Ok (firstn top_n (sort_desc snd similarities)).

(** The per-item accumulator [{"score": ..., "count": ...}]. *)
Definition accumulate (item_scores : dict (R * nat)) (similarity : R)
           (user_rated_items : list string) (kv : string * R) : dict (R * nat) :=
  let '(i, r) := kv in
  if negb (contains user_rated_items i) then
    let '(score, count) := get_or item_scores i (0, 0%nat) in
    dict_set item_scores i (score + similarity * r, (count + 1)%nat)
  else item_scores.

(** The loop over [similar_users] that fills [item_scores]. *)
Definition collaborative_item_scores (db : database) (user_rated_items : list string)
           (min_similarity : R) (similar_users : list (string * R)) : dict (R * nat) :=
  fold_left
    (fun item_scores '(similar_user_id, similarity) =>
       if Rltb similarity min_similarity then item_scores else
       fold_left (fun acc kv => accumulate acc similarity user_rated_items kv)
                 (get_user_ratings_dict db similar_user_id) item_scores)
    similar_users [].

(** The list [recommendations] of [(item_id, score, similarity_count)],
    before it is sorted. *)
Definition collaborative_candidates (item_scores : dict (R * nat))
  : result (list (string * R * nat)) :=
  foldM (fun recommendations '(i, (score, count)) =>
           if (0 <? count)%nat then
             avg_score <- pydiv score (INR count) ;;
             Ok (recommendations ++ [(i, avg_score, count)])
           else Ok recommendations)
        item_scores [].

Definition generate_collaborative_recommendations (db : database) (uid : string)
           (limit : nat) (min_similarity : R) : result (list recommendation) :=
  let user_ratings := get_user_ratings_dict db uid in
  let user_rated_items := to_set (keys user_ratings) in
  similar_users <- find_similar_users db uid 3 50 ;;
  if (List.length similar_users =? 0)%nat then Ok [] else
  let item_scores :=
    collaborative_item_scores db user_rated_items min_similarity similar_users in
  recommendations <- collaborative_candidates item_scores ;;
  let recommendations := sort_desc (fun rec => snd (fst rec)) recommendations in
  foldM (fun result '(i, score, _) =>
           oid <- ObjectId_of i ;;
           match find_one_item db oid with
           | Some it => Ok (result ++ [annotate it score "collaborative"])
           | None => Ok result
           end)
        (firstn limit recommendations) [].

(* ===================================================================== *)
(** * services/content_based.py                                           *)
(* ===================================================================== *)

(** The truth value of an optional string: [None] and [""] are false. *)
Definition truthy (o : option string) : option string :=
  match o with
  | Some s => if String.eqb s "" then None else Some s
  | None => None
  end.

Definition extract_item_features (it : item) : dict R :=
  let features := [] in
  let features :=
    fold_left (fun f genre => dict_set f ("genre:" ++ genre)%string 1) (genres it) features in
  let features :=
    fold_left (fun f tag => dict_set f ("tag:" ++ tag)%string 1) (tags it) features in
  let features := dict_set features ("type:" ++ item_type it)%string 1 in
  let metadata := metadata it in
  let features :=
    if String.eqb (item_type it) "movie" then
      let features :=
        match truthy (director metadata) with
        | Some d => dict_set features ("director:" ++ d)%string 1
        | None => features
        end in
      match cast metadata with
      | Some (a :: l) =>
          fold_left (fun f actor => dict_set f ("actor:" ++ actor)%string (1 / 2))
                    (firstn 5 (a :: l)) features
      | _ => features
      end
    else features in
  let features :=
    if String.eqb (item_type it) "product" then
      let features :=
        match truthy (brand metadata) with
        | Some b => dict_set features ("brand:" ++ b)%string 1
        | None => features
        end in
      match truthy (category it) with
      | Some c => dict_set features ("category:" ++ c)%string 1
      | None => features
      end
    else features in
  let features :=
    if String.eqb (item_type it) "book" then
      let features :=
        match truthy (author metadata) with
        | Some a => dict_set features ("author:" ++ a)%string 1
        | None => features
        end in
      match truthy (publisher metadata) with
      | Some p => dict_set features ("publisher:" ++ p)%string (1 / 2)
      | None => features
      end
    else features in
  features.

Definition cosine_similarity_features (features1 features2 : dict R) : result R :=
  let all_features := set_union (to_set (keys features1)) (to_set (keys features2)) in
  if (List.length all_features =? 0)%nat then Ok 0 else
  let dot_product :=
    py_sum (map (fun f => get_or features1 f 0 * get_or features2 f 0) all_features) in
  magnitude1 <- math_sqrt (py_sum (map (fun f => get_or features1 f 0 ^ 2) all_features)) ;;
  magnitude2 <- math_sqrt (py_sum (map (fun f => get_or features2 f 0 ^ 2) all_features)) ;;
  if Reqb magnitude1 0 || Reqb magnitude2 0 then Ok 0 else
  pydiv dot_product (magnitude1 * magnitude2).

Definition jaccard_similarity (set1 set2 : list string) : result R :=
  let intersection := List.length (set_inter set1 set2) in
  let union := List.length (set_union set1 set2) in
  if (union =? 0)%nat then Ok 0 else
  pydiv (INR intersection) (INR union).

Definition get_user_preferred_features (db : database) (uid : string) (min_rating : R)
  : result (dict R) :=
  let ratings := find_ratings_of db uid in
  if (List.length ratings =? 0)%nat then Ok [] else
  item_ids <- mapM (fun r => ObjectId_of (item_id r))
                   (filter (fun r => Rleb min_rating (IZR (rating r))) ratings) ;;
  if (List.length item_ids =? 0)%nat then Ok [] else
  let items := filter (fun it => existsb (oid_eqb (_id it)) item_ids) (items db) in
  feature_weights <-
    foldM (fun feature_weights r =>
             if Rltb (IZR (rating r)) min_rating then Ok feature_weights else
             oid <- ObjectId_of (item_id r) ;;
             match find (fun i => oid_eqb (_id i) oid) items with
             | Some it =>
                 let item_features := extract_item_features it in
                 rating_weight <- pydiv (IZR (rating r)) 5 ;;
                 Ok (fold_left
                       (fun fw '(feature, value) =>
                          dict_set fw feature (get_or fw feature 0 + value * rating_weight))
                       item_features feature_weights)
             | None => Ok feature_weights
             end)
          ratings [] ;;
  match values feature_weights with
  | [] => Ok []
  | w :: ws =>
      let max_weight := py_max w ws in
      if Rltb 0 max_weight then
        mapM (fun '(feature, weight) => q <- pydiv weight max_weight ;; Ok (feature, q))
             feature_weights
      else Ok feature_weights
  end.

Definition with_similarity_score (rec : recommendation) (s : R) : recommendation :=
  {| doc := doc rec; id := id rec;
     recommendation_score := recommendation_score rec;
     recommendation_type := recommendation_type rec;
     similarity_score := Some s; normalized_score := normalized_score rec;
     collaborative_score := collaborative_score rec; content_score := content_score rec;
     avg_rating := avg_rating rec; rating_count := rating_count rec;
     popularity_score := popularity_score rec; trending_score := trending_score rec |}.

Definition find_similar_items (db : database) (iid : string) (limit : nat)
           (min_similarity : R) : result (list recommendation) :=
  if negb (is_valid iid) then Ok [] else
  oid <- ObjectId_of iid ;;
  match find_one_item db oid with
  | None => Ok []
  | Some it =>
      let item_features := extract_item_features it in
      let item_type_ := item_type it in
      let all_items :=
        filter (fun o => String.eqb (item_type o) item_type_ && negb (oid_eqb (_id o) oid))
               (items db) in
      similarities <-
        foldM (fun similarities other_item =>
                 let other_features := extract_item_features other_item in
                 similarity <- cosine_similarity_features item_features other_features ;;
                 if Rleb min_similarity similarity
                 then Ok (similarities ++ [(other_item, similarity)])
                 else Ok similarities)
              all_items [] ;;
      Ok (map (fun '(item_dict, similarity) =>
                 with_similarity_score (annotate item_dict similarity "content_based")
                                       similarity)
              (firstn limit (sort_desc snd similarities)))
  end.

Definition generate_content_based_recommendations (db : database) (uid : string)
           (limit : nat) (min_similarity : R) : result (list recommendation) :=
  user_features <- get_user_preferred_features db uid 3 ;;
  if (List.length user_features =? 0)%nat then Ok [] else
  user_rated_item_ids <- mapM (fun r => ObjectId_of (item_id r)) (find_ratings_of db uid) ;;
  let all_items := items db in
  similarities <-
    foldM (fun similarities it =>
             if existsb (oid_eqb (_id it)) user_rated_item_ids then Ok similarities else
             let item_features := extract_item_features it in
             similarity <- cosine_similarity_features user_features item_features ;;
             if Rleb min_similarity similarity
             then Ok (similarities ++ [(annotate it similarity "content_based", similarity)])
             else Ok similarities)
          all_items [] ;;
  Ok (map fst (firstn limit (sort_desc snd similarities))).

(* ===================================================================== *)
(** * services/popular_recommendations.py                                 *)
(* ===================================================================== *)

Inductive ItemType : Type := MOVIE | PRODUCT | BOOK.

Definition ItemType_value (t : ItemType) : string :=
  match t with
  | MOVIE => "movie"
  | PRODUCT => "product"
  | BOOK => "book"
  end.

(** The values an aggregation stage compares. A comparison of two values
    of different BSON types is false. *)
Inductive bson : Type :=
| BObjectId (o : ObjectId)
| BString (s : string).

Definition bson_eqb (a b : bson) : bool :=
  match a, b with
  | BObjectId x, BObjectId y => oid_eqb x y
  | BString x, BString y => String.eqb x y
  | _, _ => false
  end.

(** The first [$match] stage. *)
Definition match_filter (item_type_ : option ItemType) (category_ genre : option string)
           (it : item) : bool :=
  match item_type_ with
  | Some t => String.eqb (item_type it) (ItemType_value t)
  | None => true
  end
  && match truthy category_ with
     | Some c => match category it with Some c' => String.eqb c' c | None => false end
     | None => true
     end
  && match truthy genre with
     | Some g => contains (genres it) g
     | None => true
     end.

(** [$avg] of an array of numbers; [null] on the empty array. *)
Definition mongo_avg (l : list R) : option R :=
  match l with
  | [] => None
  | _ => Some (py_sum l / INR (List.length l))
  end.

(** [$sort] descending on a field that may be [null]: nulls come last. *)
Definition mongo_sort_desc {A : Type} (key : A -> option R) (l : list A) : list A :=
  sort_desc (fun x => match key x with Some v => v | None => 0 end)
            (filter (fun x => match key x with Some _ => true | None => false end) l)
  ++ filter (fun x => match key x with Some _ => false | None => true end) l.

(** [round(x, ndigits)], ties to even. *)
Definition py_round (x : R) (ndigits : nat) : R :=
  let y := x * 10 ^ ndigits in
  let f := (up y - 1)%Z in
  let d := y - IZR f in
  let n := if Rltb d (1 / 2) then f
           else if Rltb (1 / 2) d then (f + 1)%Z
           else if Z.even f then f else (f + 1)%Z in
  IZR n / 10 ^ ndigits.

(** The [$project] stage keeps the listed fields; [category] is not one. *)
Definition project_item (it : item) : item :=
  {| _id := _id it; item_type := item_type it; title := title it; name := name it;
     category := None; genres := genres it; tags := tags it; metadata := metadata it |}.

(** [$lookup] from [ratings] with [localField: "_id"] and
    [foreignField: "item_id"]. *)
Definition lookup_ratings (db : database) (it : item) : list rating_doc :=
  filter (fun r => bson_eqb (BObjectId (_id it)) (BString (item_id r))) (ratings db).

Definition get_popular_items (db : database) (item_type_ : option ItemType)
           (category_ genre : option string) (limit min_ratings : nat)
  : result (list recommendation) :=
  if (limit =? 0)%nat then Raise OperationFailure else
  let rows := filter (match_filter item_type_ category_ genre) (items db) in
  let rows := map (fun it => (it, lookup_ratings db it)) rows in
  let rows := filter (fun '(it, rs) => (min_ratings <=? List.length rs)%nat) rows in
  let rows :=
    map (fun '(it, rs) =>
           (it, mongo_avg (map (fun r => IZR (rating r)) rs), List.length rs)) rows in
  let rows :=
    map (fun '(it, avg, count) =>
           (it, avg, count,
            option_map (fun a => a * (1 + (1 / 10) * INR count)) avg)) rows in
  let rows := mongo_sort_desc snd rows in
  let rows := firstn limit rows in
  mapM (fun '(it, avg, count, score) =>
          match avg with
          | None => Raise TypeError
          | Some a =>
              Ok {| doc := project_item it; id := str (_id it);
                    recommendation_score :=
                      match score with Some s => s | None => 0 end;
                    recommendation_type := "popular";
                    similarity_score := None; normalized_score := None;
                    collaborative_score := None; content_score := None;
                    avg_rating := Some (py_round a 2); rating_count := Some count;
                    popularity_score := score; trending_score := None |}
          end)
       rows.

(** [$lookup] from [ratings] with [let item_id = {$toString: "$_id"}] and a
    pipeline matching [item_id] and [created_at >= cutoff_date]. *)
Definition lookup_recent_ratings (db : database) (cutoff_date : Z) (it : item)
  : list rating_doc :=
  filter (fun r => bson_eqb (BString (item_id r)) (BString (str (_id it)))
                   && (cutoff_date <=? created_at r)%Z)
         (ratings db).

(** [datetime.min] and [datetime.max], in seconds from the epoch. *)
Definition datetime_min : Z := -62135596800.
Definition datetime_max : Z := 253402300799.

(** [now - timedelta(days=days)]: [timedelta] raises [OverflowError] for more
    than 999999999 days, and so does the subtraction when the date leaves
    the years 1 to 9999. *)
Definition minus_timedelta (now days : Z) : result Z :=
  if (999999999 <? Z.abs days)%Z then Raise OverflowError else
  let date := (now - days * 86400)%Z in
  if ((date <? datetime_min) || (datetime_max <? date))%Z then Raise OverflowError
  else Ok date.

(** [utcnow] is the reading of the clock, in seconds from the epoch. *)
Definition get_trending_items (db : database) (utcnow : Z) (item_type_ : option ItemType)
           (days : Z) (limit : nat) : result (list recommendation) :=
  cutoff_date <- minus_timedelta utcnow days ;;
  if (limit =? 0)%nat then Raise OperationFailure else
  let rows := filter (match_filter item_type_ None None) (items db) in
  let rows := map (fun it => (it, lookup_recent_ratings db cutoff_date it)) rows in
  let rows := filter (fun '(it, rs) => (0 <? List.length rs)%nat) rows in
  let rows :=
    map (fun '(it, rs) =>
           (it, option_map (fun a => INR (List.length rs) * a)
                           (mongo_avg (map (fun r => IZR (rating r)) rs)))) rows in
  let rows := mongo_sort_desc snd rows in
  let rows := firstn limit rows in
  Ok (map (fun '(it, score) =>
             {| doc := project_item it; id := str (_id it);
                recommendation_score := match score with Some s => s | None => 0 end;
                recommendation_type := "trending";
                similarity_score := None; normalized_score := None;
                collaborative_score := None; content_score := None;
                avg_rating := None; rating_count := None;
                popularity_score := None; trending_score := score |})
          rows).

(* ===================================================================== *)
(** * services/recommendation_service.py                                  *)
(* ===================================================================== *)

Definition with_normalized_score (rec : recommendation) (s : R) : recommendation :=
  {| doc := doc rec; id := id rec;
     recommendation_score := recommendation_score rec;
     recommendation_type := recommendation_type rec;
     similarity_score := similarity_score rec; normalized_score := Some s;
     collaborative_score := collaborative_score rec; content_score := content_score rec;
     avg_rating := avg_rating rec; rating_count := rating_count rec;
     popularity_score := popularity_score rec; trending_score := trending_score rec |}.

Definition normalize_scores (recommendations : list recommendation)
  : result (list recommendation) :=
  match recommendations with
  | [] => Ok []
  | r :: rs =>
      let max_score := py_max (recommendation_score r) (map recommendation_score rs) in
      if Reqb max_score 0 then Ok recommendations else
      mapM (fun rec =>
              q <- pydiv (recommendation_score rec) max_score ;;
              Ok (with_normalized_score rec q))
           recommendations
  end.

(** An entry of the [item_scores] accumulator of the blender. *)
Record hybrid_entry : Type := {
  entry_item : option recommendation;
  entry_collaborative_score : R;
  entry_content_score : R;
  entry_hybrid_score : R;
  entry_count : nat
}.

Definition default_entry : hybrid_entry :=
  {| entry_item := None; entry_collaborative_score := 0; entry_content_score := 0;
     entry_hybrid_score := 0; entry_count := 0 |}.

Definition normalized_or_zero (rec : recommendation) : R :=
  match normalized_score rec with Some s => s | None => 0 end.

Definition merge_collaborative (item_scores : dict hybrid_entry) (rec : recommendation)
  : dict hybrid_entry :=
  if String.eqb (id rec) "" then item_scores else
  let e := get_or item_scores (id rec) default_entry in
  dict_set item_scores (id rec)
           {| entry_item := Some rec;
              entry_collaborative_score := normalized_or_zero rec;
              entry_content_score := entry_content_score e;
              entry_hybrid_score := entry_hybrid_score e;
              entry_count := (entry_count e + 1)%nat |}.

Definition merge_content (item_scores : dict hybrid_entry) (rec : recommendation)
  : dict hybrid_entry :=
  if String.eqb (id rec) "" then item_scores else
  let e := get_or item_scores (id rec) default_entry in
  dict_set item_scores (id rec)
           {| entry_item := match entry_item e with Some r => Some r | None => Some rec end;
              entry_collaborative_score := entry_collaborative_score e;
              entry_content_score := normalized_or_zero rec;
              entry_hybrid_score := entry_hybrid_score e;
              entry_count := (entry_count e + 1)%nat |}.

Definition blend (collaborative_weight content_weight : R) (data : hybrid_entry)
  : option recommendation :=
  match entry_item data with
  | None => None
  | Some it =>
      let hybrid_score :=
        collaborative_weight * entry_collaborative_score data
        + content_weight * entry_content_score data in
      let hybrid_score :=
        if (1 <? entry_count data)%nat then hybrid_score * (12 / 10) else hybrid_score in
      Some {| doc := doc it; id := id it;
              recommendation_score := hybrid_score;
              recommendation_type := "hybrid";
              similarity_score := similarity_score it;
              normalized_score := normalized_score it;
              collaborative_score := Some (entry_collaborative_score data);
              content_score := Some (entry_content_score data);
              avg_rating := avg_rating it; rating_count := rating_count it;
              popularity_score := popularity_score it;
              trending_score := trending_score it |}
  end.

Definition generate_hybrid_recommendations (db : database) (uid : string) (limit : nat)
           (collaborative_weight content_weight min_similarity : R)
  : result (list recommendation) :=
  collaborative_recs <-
    generate_collaborative_recommendations db uid (limit * 2) min_similarity ;;
  content_recs <-
    generate_content_based_recommendations db uid (limit * 2) min_similarity ;;
  collaborative_recs <- normalize_scores collaborative_recs ;;
  content_recs <- normalize_scores content_recs ;;
  let item_scores := fold_left merge_collaborative collaborative_recs [] in
  let item_scores := fold_left merge_content content_recs item_scores in
  let recommendations :=
    fold_left (fun recommendations '(_, data) =>
                 match blend collaborative_weight content_weight data with
                 | Some it => recommendations ++ [it]
                 | None => recommendations
                 end)
              item_scores [] in
  let recommendations := sort_desc recommendation_score recommendations in
  Ok (firstn limit recommendations).

Definition get_personalized_recommendations (db : database) (uid : string) (limit : nat)
           (method : string) : result (list recommendation) :=
  if String.eqb method "collaborative" then
    generate_collaborative_recommendations db uid limit (3 / 10)
  else if String.eqb method "content" then
    generate_content_based_recommendations db uid limit (3 / 10)
  else
    generate_hybrid_recommendations db uid limit (6 / 10) (4 / 10) (3 / 10).

(* ===================================================================== *)
(** * routers/recommendations.py                                          *)
(* ===================================================================== *)

Inductive response : Type :=
| HTTP_200 (body : list recommendation)
| HTTP_400_BAD_REQUEST
| HTTP_422_UNPROCESSABLE
| HTTP_500_INTERNAL_SERVER_ERROR.

(** What FastAPI does with the list that a handler returns
    ([response_model=List[dict]]): it encodes the list as JSON, after the
    handler and outside its [try]. [main.py] registers no encoder for
    [bson.ObjectId], and every record still holds the [ObjectId] of its
    item under ["_id"]: encoding a record raises, and the handler for
    [Exception] of [main.py] answers 500. The empty list is encoded. *)
Definition serialize_response (recommendations : list recommendation) : response :=
  match recommendations with
  | [] => HTTP_200 []
  | _ :: _ => HTTP_500_INTERNAL_SERVER_ERROR
  end.

(** [try: ...; return recommendations] with
    [except Exception: raise HTTPException(500)], followed by the encoding
    of what was returned. *)
Definition try_except (c : result (list recommendation)) : response :=
  match c with
  | Ok recommendations => serialize_response recommendations
  | Raise _ => HTTP_500_INTERNAL_SERVER_ERROR
  end.

(** [Query(10, ge=1, le=100)] *)
Definition limit_ok (limit : nat) : bool := ((1 <=? limit) && (limit <=? 100))%nat.

(** [Query(..., ge=0.0, le=1.0)] *)
Definition unit_interval_ok (x : R) : bool := Rleb 0 x && Rleb x 1.

Definition get_personalized_recommendations_endpoint (db : database) (current_user : string)
           (method : string) (limit : nat) : response :=
  if negb (String.eqb method "hybrid" || String.eqb method "collaborative"
           || String.eqb method "content") then HTTP_422_UNPROCESSABLE else
  if negb (limit_ok limit) then HTTP_422_UNPROCESSABLE else
  try_except (
    recommendations <- get_personalized_recommendations db current_user limit method ;;
    if (List.length recommendations =? 0)%nat
    then get_popular_items db None None None limit 1
    else Ok recommendations).

Definition get_hybrid_recommendations (db : database) (current_user : string)
           (limit : nat) (collaborative_weight content_weight : R) : response :=
  if negb (limit_ok limit) then HTTP_422_UNPROCESSABLE else
  if negb (unit_interval_ok collaborative_weight && unit_interval_ok content_weight)
  then HTTP_422_UNPROCESSABLE else
  if Rltb (1 / 100) (Rabs (collaborative_weight + content_weight - 1))
  then HTTP_400_BAD_REQUEST else
  try_except (
    recommendations <-
      generate_hybrid_recommendations db current_user limit collaborative_weight
                                      content_weight (3 / 10) ;;
    if (List.length recommendations =? 0)%nat
    then get_popular_items db None None None limit 1
    else Ok recommendations).

Definition get_popular_recommendations (db : database) (item_type_ : option ItemType)
           (category_ genre : option string) (limit min_ratings : nat) : response :=
  if negb (limit_ok limit) then HTTP_422_UNPROCESSABLE else
  if (min_ratings <? 1)%nat then HTTP_422_UNPROCESSABLE else
  try_except (get_popular_items db item_type_ category_ genre limit min_ratings).

Definition get_collaborative_recommendations (db : database) (current_user : string)
           (limit : nat) (min_similarity : R) : response :=
  if negb (limit_ok limit) then HTTP_422_UNPROCESSABLE else
  if negb (unit_interval_ok min_similarity) then HTTP_422_UNPROCESSABLE else
  try_except (
    recommendations <-
      generate_collaborative_recommendations db current_user limit min_similarity ;;
    if (List.length recommendations =? 0)%nat
    then get_popular_items db None None None limit 1
    else Ok recommendations).

Definition get_content_based_recommendations (db : database) (current_user : string)
           (limit : nat) (min_similarity : R) : response :=
  if negb (limit_ok limit) then HTTP_422_UNPROCESSABLE else
  if negb (unit_interval_ok min_similarity) then HTTP_422_UNPROCESSABLE else
  try_except (
    recommendations <-
      generate_content_based_recommendations db current_user limit min_similarity ;;
    if (List.length recommendations =? 0)%nat
    then get_popular_items db None None None limit 1
    else Ok recommendations).

(** [Query(7, ge=1, le=30)] *)
Definition days_ok (days : Z) : bool := ((1 <=? days) && (days <=? 30))%Z.

Definition get_trending_recommendations (db : database) (utcnow : Z)
           (item_type_ : option ItemType) (days : Z) (limit : nat) : response :=
  if negb (days_ok days) then HTTP_422_UNPROCESSABLE else
  if negb (limit_ok limit) then HTTP_422_UNPROCESSABLE else
  try_except (get_trending_items db utcnow item_type_ days limit).

(* ===================================================================== *)
(** * routers/ratings.py                                                  *)
(* ===================================================================== *)

(** What [create_rating] answers: the stored document with status 201, or
    an error status. Of the document only the fields that the engine reads
    are kept. *)
Inductive rating_response : Type :=
| HTTP_201_CREATED (stored : rating_doc)
| HTTP_400_INVALID_ITEM_ID
| HTTP_404_NOT_FOUND
| HTTP_422_INVALID_RATING
| HTTP_500_UNHANDLED.

(** The filter [{"user_id": ..., "item_id": ...}]. *)
Definition same_user_and_item (uid iid : string) (r : rating_doc) : bool :=
  String.eqb (user_id r) uid && String.eqb (item_id r) iid.

(** [$set: {"rating": ...}] *)
Definition set_rating (value : Z) (r : rating_doc) : rating_doc :=
  {| user_id := user_id r; item_id := item_id r; rating := value;
     created_at := created_at r |}.

(** [update_one] on the [_id] of the document that [find_one] returned for
    the filter [f]: the first document that passes [f] is changed. *)
Fixpoint update_one (f : rating_doc -> bool) (g : rating_doc -> rating_doc)
         (l : list rating_doc) : list rating_doc :=
  match l with
  | [] => []
  | r :: l' => if f r then g r :: l' else r :: update_one f g l'
  end.

(** [RatingBase.rating: int = Field(..., ge=1, le=5)] *)
Definition rating_value_ok (value : Z) : bool := ((1 <=? value) && (value <=? 5))%Z.

Definition create_rating (db : database) (utcnow : Z) (current_user : string)
           (item_id_ : string) (rating_ : Z) : database * rating_response :=
  if negb (rating_value_ok rating_) then (db, HTTP_422_INVALID_RATING) else
  if negb (is_valid item_id_) then (db, HTTP_400_INVALID_ITEM_ID) else
  match ObjectId_of item_id_ with
  | Raise _ => (db, HTTP_500_UNHANDLED)
  | Ok oid =>
      match find_one_item db oid with
      | None => (db, HTTP_404_NOT_FOUND)
      | Some _ =>
          match find (same_user_and_item current_user item_id_) (ratings db) with
          | Some existing_rating =>
              ({| items := items db;
                  ratings := update_one (same_user_and_item current_user item_id_)
                                        (set_rating rating_) (ratings db) |},
               HTTP_201_CREATED (set_rating rating_ existing_rating))
          | None =>
              let rating_dict :=
                {| user_id := current_user; item_id := item_id_; rating := rating_;
                   created_at := utcnow |} in
              ({| items := items db; ratings := ratings db ++ [rating_dict] |},
               HTTP_201_CREATED rating_dict)
          end
      end
  end.

(* ===================================================================== *)
(** * Vocabulary of the properties                                        *)
(* ===================================================================== *)

(** Euclidean norm of [v] over the keys [ks]. *)
Definition norm_over (ks : list string) (v : dict R) : R :=
  sqrt (py_sum (map (fun k => get_or v k 0 ^ 2) ks)).

(** Mean of [v] over the keys [ks]. *)
Definition mean_over (ks : list string) (v : dict R) : R :=
  py_sum (map (fun k => get_or v k 0) ks) / INR (List.length ks).

(** Sum of the squared deviations of [v] from its mean over [ks]. *)
Definition sq_dev_over (ks : list string) (v : dict R) : R :=
  py_sum (map (fun k => (get_or v k 0 - mean_over ks v) ^ 2) ks).

(** Sum of the products of the deviations of [v1] and [v2]. *)
Definition co_dev_over (ks : list string) (v1 v2 : dict R) : R :=
  py_sum (map (fun k => (get_or v1 k 0 - mean_over ks v1) * (get_or v2 k 0 - mean_over ks v2))
              ks).

(** [set(features1.keys()) | set(features2.keys())] *)
Definition all_keys (v1 v2 : dict R) : list string :=
  set_union (to_set (keys v1)) (to_set (keys v2)).

(** The ratings whose [item_id] is the text of the item's identifier. *)
Definition ratings_referring_to (db : database) (it : item) : list rating_doc :=
  filter (fun r => String.eqb (item_id r) (str (_id it))) (ratings db).

(** What one neighbour, of similarity [s] and rating map [d], adds to the
    accumulator of item [i]. *)
Definition contribution (user_rated_items : list string) (s : R) (d : dict R) (i : string)
  : option R :=
  if contains user_rated_items i then None else
  match dict_get d i with
  | Some r => Some (s * r)
  | None => None
  end.

(** The contributions to item [i], in the order of the neighbours. *)
Definition contributions_to (db : database) (user_rated_items : list string)
           (min_similarity : R) (similar_users : list (string * R)) (i : string) : list R :=
  flat_map (fun '(v, s) =>
              if Rltb s min_similarity then [] else
              match contribution user_rated_items s (get_user_ratings_dict db v) i with
              | Some c => [c]
              | None => []
              end)
           similar_users.

(** The accumulator entry that a list of contributions amounts to. *)
Definition summary (cs : list R) : option (R * nat) :=
  match cs with
  | [] => None
  | _ => Some (py_sum cs, List.length cs)
  end.


(** The candidate, if any, that one accumulator entry gives: its score is
    the accumulated sum divided by the count. *)
Definition candidate_of (entry : string * (R * nat)) : list (string * R * nat) :=
  let '(i, (score, count)) := entry in
  if (0 <? count)%nat then [(i, score / INR count, count)] else [].

(** A list whose keys never increase from one element to the next. *)
Inductive descending {A : Type} (key : A -> R) : list A -> Prop :=
| descending_nil : descending key []
| descending_one (x : A) : descending key [x]
| descending_cons (x y : A) (l : list A) :
    key y <= key x -> descending key (y :: l) -> descending key (x :: y :: l).

(** A rating as [create_rating] accepts it, sent with the identifier in the
    form that [str] prints: its value is between 1 and 5, and its [item_id]
    is the text of the identifier of a stored item. *)
Definition rating_ok (db : database) (r : rating_doc) : bool :=
  (1 <=? rating r)%Z && (rating r <=? 5)%Z
  && match ObjectId_of (item_id r) with
     | Ok oid =>
         match find_one_item db oid with
         | Some it => String.eqb (str (_id it)) (item_id r)
         | None => false
         end
     | Raise _ => false
     end.

(** Every rating of the store is well formed. *)
Definition consistent (db : database) : bool := forallb (rating_ok db) (ratings db).

(** The record, if any, that the last loop of the collaborative recommender
    appends for one candidate. *)
Definition resolve_one (db : database) (x : string * R * nat) : list recommendation :=
  match ObjectId_of (fst (fst x)) with
  | Ok oid =>
      match find_one_item db oid with
      | Some it => [annotate it (snd (fst x)) "collaborative"]
      | None => []
      end
  | Raise _ => []
  end.

(** The candidate's identifier is the text of the identifier of a stored
    item. *)
Definition resolves (db : database) (x : string * R * nat) : Prop :=
  exists it, ObjectId_of (fst (fst x)) = Ok (_id it) /\
             find_one_item db (_id it) = Some it /\
             str (_id it) = fst (fst x).

(** The accumulator entry of a record that only the collaborative list has. *)
Definition collaborative_entry (rec : recommendation) : string * hybrid_entry :=
  (id rec,
   {| entry_item := Some rec;
      entry_collaborative_score := normalized_or_zero rec;
      entry_content_score := 0;
      entry_hybrid_score := 0;
      entry_count := 1 |}).

(** Every weight of the vector is 1 or 0.5. *)
Definition unit_or_half (d : dict R) : Prop :=
  forall k w, In (k, w) d -> w = 1 \/ w = 1 / 2.

(** The invariant of the profile accumulator: a dictionary of positive
    weights. *)
Definition positive_weights (d : dict R) : Prop :=
  NoDup (keys d) /\ forall f w, In (f, w) d -> 0 < w.

(** The invariant of [item_scores]: one entry per identifier, and the
    record of an entry carries the identifier it is filed under. *)
Definition filed (Q : recommendation -> Prop) (item_scores : dict hybrid_entry) : Prop :=
  NoDup (keys item_scores) /\
  forall k e, In (k, e) item_scores ->
    k <> "" /\ exists rec, entry_item e = Some rec /\ id rec = k /\ Q rec.

(** Every rating names its item by a text that [ObjectId] accepts. *)
Definition valid_item_ids (db : database) : bool :=
  forallb (fun r => is_valid (item_id r)) (ratings db).

(** No two ratings of the store have the same user and the same item text. *)
Definition one_rating_per_pair (db : database) : Prop :=
  NoDup (map (fun r => (user_id r, item_id r)) (ratings db)).

(** The value that the last rating of [l] for the item text [i] gives. *)
Definition last_rating (l : list rating_doc) (i : string) : option R :=
  fold_left (fun acc r => if String.eqb (item_id r) i then Some (IZR (rating r)) else acc)
            l None.

(** Every rating of the store has a value from 1 to 5. *)
Definition ratings_in_range (db : database) : bool :=
  forallb (fun r => rating_value_ok (rating r)) (ratings db).






(* ===================================================================== *)
(** * Stores of the examples                                              *)
(* ===================================================================== *)

(** An empty metadata map. *)
Definition no_metadata : metadata_doc :=
  {| director := None; cast := None; brand := None; author := None; publisher := None;
     other := [] |}.

(** A movie without genres, tags or metadata. *)
Definition movie (oid : string) (t : string) : item :=
  {| _id := Oid oid; item_type := "movie"; title := Some t; name := None;
     category := None; genres := []; tags := []; metadata := no_metadata |}.

(** A book without genres, tags or metadata. *)
Definition book (oid : string) (t : string) : item :=
  {| _id := Oid oid; item_type := "book"; title := Some t; name := None;
     category := None; genres := []; tags := []; metadata := no_metadata |}.

(** A product without genres or tags. *)
Definition product (oid nm : string) (cat : option string) (md : metadata_doc) : item :=
  {| _id := Oid oid; item_type := "product"; title := None; name := Some nm;
     category := cat; genres := []; tags := []; metadata := md |}.

(** A rating document. *)
Definition rate (u i : string) (r : Z) : rating_doc :=
  {| user_id := u; item_id := i; rating := r; created_at := 0 |}.

(** Identifiers of items, as [str] prints them. *)
Definition item1 : string := "650000000000000000000001".
Definition item2 : string := "650000000000000000000002".
Definition item3 : string := "650000000000000000000003".

(** One identifier in its lower-case and in its upper-case spelling. *)
Definition item_x : string := "65000000000000000000000a".
Definition ITEM_X : string := "65000000000000000000000A".

Definition item_bk : string := "65000000000000000000000b".
Definition item_mv : string := "65000000000000000000000c".

(** User A has rated item1 = 5 and item2 = 4; user B has rated item1 = 5,
    item2 = 4 and item3 = 5; there is no other rating. *)
Definition scenario_AB : database :=
  {| items := [movie item1 "one"; movie item2 "two"; movie item3 "three"];
     ratings := [rate "A" item1 5; rate "A" item2 4;
                 rate "B" item1 5; rate "B" item2 4; rate "B" item3 5] |}.

(** One movie, rated 5, 4 and 3 by three users. *)
Definition one_rated_item : database :=
  {| items := [movie item1 "one"];
     ratings := [rate "A" item1 5; rate "B" item1 4; rate "C" item1 3] |}.

(** A catalog of one movie that user B has rated; user A has rated nothing. *)
Definition new_user_store : database :=
  {| items := [movie item1 "one"]; ratings := [rate "B" item1 5] |}.

(** Users U and V agree on three movies. Both have rated a fourth movie: U
    through the lower-case spelling of its identifier, V through the
    upper-case one; [create_rating] accepts both and stores the text it was
    sent. *)
Definition mixed_case_store : database :=
  {| items := [movie item1 "one"; movie item2 "two"; movie item3 "three"; movie item_x "x"];
     ratings := [rate "U" item1 5; rate "U" item2 4; rate "U" item3 3; rate "U" item_x 2;
                 rate "V" item1 5; rate "V" item2 4; rate "V" item3 3; rate "V" ITEM_X 5] |}.

(** Users U and V agree on three movies; V has also rated a book and a
    fourth movie, both 5. The fourth movie resembles what U likes, the book
    does not. *)
Definition boost_store : database :=
  {| items := [movie item1 "one"; movie item2 "two"; movie item3 "three";
               book item_bk "a book"; movie item_mv "a movie"];
     ratings := [rate "U" item1 5; rate "U" item2 4; rate "U" item3 3;
                 rate "V" item1 5; rate "V" item2 4; rate "V" item3 3;
                 rate "V" item_bk 5; rate "V" item_mv 5] |}.

(** The same without the fourth movie. *)
Definition collaborative_only_store : database :=
  {| items := [movie item1 "one"; movie item2 "two"; movie item3 "three";
               book item_bk "a book"];
     ratings := [rate "U" item1 5; rate "U" item2 4; rate "U" item3 3;
                 rate "V" item1 5; rate "V" item2 4; rate "V" item3 3;
                 rate "V" item_bk 5] |}.

(** What the blender returns for "U" in [boost_store], with weights 1 and 0. *)
Definition boost_store_blend : list recommendation :=
  [{| doc := movie item_mv "a movie"; id := item_mv;
      recommendation_score := (1 * (5 / 5) + 0 * (1 / 1)) * (12 / 10);
      recommendation_type := "hybrid";
      similarity_score := None; normalized_score := Some (5 / 5);
      collaborative_score := Some (5 / 5); content_score := Some (1 / 1);
      avg_rating := None; rating_count := None;
      popularity_score := None; trending_score := None |};
   {| doc := book item_bk "a book"; id := item_bk;
      recommendation_score := 1 * (5 / 5) + 0 * 0;
      recommendation_type := "hybrid";
      similarity_score := None; normalized_score := Some (5 / 5);
      collaborative_score := Some (5 / 5); content_score := Some 0;
      avg_rating := None; rating_count := None;
      popularity_score := None; trending_score := None |}].



Definition item_bk2 : string := "65000000000000000000000d".

(** The neighbour V of U has rated two books, the second one higher; no item
    that U has not rated resembles what U likes. *)
Definition two_books_store : database :=
  {| items := [movie item1 "one"; movie item2 "two"; movie item3 "three";
               book item_bk2 "another book"; book item_bk "a book"];
     ratings := [rate "U" item1 5; rate "U" item2 4; rate "U" item3 3;
                 rate "V" item1 5; rate "V" item2 4; rate "V" item3 3;
                 rate "V" item_bk2 4; rate "V" item_bk 5] |}.

(** [collaborative_only_store] with a fourth movie that nobody has rated:
    the content-based recommender returns it, the collaborative one does
    not. *)
Definition content_only_store : database :=
  {| items := [movie item1 "one"; movie item2 "two"; movie item3 "three";
               book item_bk "a book"; movie item_mv "a movie"];
     ratings := [rate "U" item1 5; rate "U" item2 4; rate "U" item3 3;
                 rate "V" item1 5; rate "V" item2 4; rate "V" item3 3;
                 rate "V" item_bk 5] |}.

(** V has rated a movie, 5, that has since been deleted ([delete_item]
    leaves the ratings of the item in place), and a book, 4. *)
Definition deleted_item_store : database :=
  {| items := [movie item1 "one"; movie item2 "two"; movie item3 "three";
               book item_bk "a book"];
     ratings := [rate "U" item1 5; rate "U" item2 4; rate "U" item3 3;
                 rate "V" item1 5; rate "V" item2 4; rate "V" item3 3;
                 rate "V" item_mv 5; rate "V" item_bk 4] |}.

(* ===================================================================== *)
(** * Properties                                                          *)
(* ===================================================================== *)

Arguments pearson_correlation : simpl never.
Arguments cosine_similarity_features : simpl never.
Arguments sqrt : simpl never.


(** ** Numbers, sums and the error monad *)

Lemma Rltb_true (x y : R) : x < y -> Rltb x y = true.
Proof. intros H; unfold Rltb; destruct (Rlt_dec x y); [reflexivity | contradiction]. Qed.

Lemma Rltb_false (x y : R) : y <= x -> Rltb x y = false.
Proof. intros H; unfold Rltb; destruct (Rlt_dec x y); [lra | reflexivity]. Qed.

Lemma Rleb_true (x y : R) : x <= y -> Rleb x y = true.
Proof. intros H; unfold Rleb; destruct (Rle_dec x y); [reflexivity | contradiction]. Qed.

Lemma Rleb_false (x y : R) : y < x -> Rleb x y = false.
Proof. intros H; unfold Rleb; destruct (Rle_dec x y); [lra | reflexivity]. Qed.

Lemma Reqb_true (x y : R) : x = y -> Reqb x y = true.
Proof. intros H; unfold Reqb; destruct (Req_dec_T x y); [reflexivity | contradiction]. Qed.

Lemma Reqb_false (x y : R) : x <> y -> Reqb x y = false.
Proof. intros H; unfold Reqb; destruct (Req_dec_T x y); [contradiction | reflexivity]. Qed.

Lemma Rltb_spec (x y : R) : Rltb x y = true <-> x < y.
Proof. unfold Rltb; destruct (Rlt_dec x y); split; intros; try easy. Qed.

Lemma Rleb_spec (x y : R) : Rleb x y = true <-> x <= y.
Proof. unfold Rleb; destruct (Rle_dec x y); split; intros; try easy. Qed.

Lemma Reqb_spec (x y : R) : Reqb x y = true <-> x = y.
Proof. unfold Reqb; destruct (Req_dec_T x y); split; intros; try easy. Qed.

Lemma pydiv_ok (x y : R) : y <> 0 -> pydiv x y = Ok (x / y).
Proof. intros H; unfold pydiv; now rewrite Reqb_false. Qed.

Lemma math_sqrt_ok (x : R) : 0 <= x -> math_sqrt x = Ok (sqrt x).
Proof. intros H; unfold math_sqrt; now rewrite Rltb_false. Qed.

Lemma fold_left_Rplus_acc (l : list R) (a : R) :
  fold_left Rplus l a = a + fold_left Rplus l 0.
Proof.
  revert a; induction l as [|x l IH]; intros a; simpl.
  - lra.
  - rewrite IH, (IH (0 + x)); lra.
Qed.

Lemma py_sum_nil : py_sum [] = 0.
Proof. reflexivity. Qed.

Lemma py_sum_cons (x : R) (l : list R) : py_sum (x :: l) = x + py_sum l.
Proof. unfold py_sum; simpl; rewrite fold_left_Rplus_acc; lra. Qed.

Lemma py_sum_app (l1 l2 : list R) : py_sum (l1 ++ l2) = py_sum l1 + py_sum l2.
Proof.
  induction l1 as [|x l1 IH]; simpl.
  - rewrite py_sum_nil; lra.
  - rewrite !py_sum_cons, IH; lra.
Qed.

Lemma py_sum_nonneg (l : list R) : (forall x, In x l -> 0 <= x) -> 0 <= py_sum l.
Proof.
  induction l as [|x l IH]; intros H.
  - rewrite py_sum_nil; lra.
  - rewrite py_sum_cons.
    assert (0 <= x) by (apply H; now left).
    assert (0 <= py_sum l) by (apply IH; intros; apply H; now right).
    lra.
Qed.

Lemma py_sum_zero (l : list R) :
  (forall x, In x l -> 0 <= x) -> py_sum l = 0 -> forall x, In x l -> x = 0.
Proof.
  induction l as [|y l IH]; intros Hpos Hsum x Hin; [contradiction|].
  rewrite py_sum_cons in Hsum.
  assert (0 <= y) by (apply Hpos; now left).
  assert (0 <= py_sum l) by (apply py_sum_nonneg; intros; apply Hpos; now right).
  destruct Hin as [->|Hin]; [lra|].
  apply IH; auto; [intros; apply Hpos; now right | lra].
Qed.

Lemma squares_nonneg {A : Type} (f : A -> R) (l : list A) :
  forall x, In x (map (fun k => f k ^ 2) l) -> 0 <= x.
Proof.
  intros x Hx; apply in_map_iff in Hx; destruct Hx as (k & <- & _).
  simpl; nra.
Qed.

Lemma py_sum_squares_nonneg {A : Type} (f : A -> R) (l : list A) :
  0 <= py_sum (map (fun k => f k ^ 2) l).
Proof. apply py_sum_nonneg, squares_nonneg. Qed.

(** ** The quantities of the similarity formulas *)

Lemma norm_over_nonneg ks v : 0 <= norm_over ks v.
Proof. apply sqrt_pos. Qed.

Lemma sq_dev_over_nonneg ks v : 0 <= sq_dev_over ks v.
Proof. apply py_sum_squares_nonneg. Qed.

(** The three similarity functions in closed form. *)

Lemma cosine_on_keys (ks : list string) (v1 v2 : dict R) :
  (if (List.length ks =? 0)%nat then Ok 0 else
   let dot_product := py_sum (map (fun i => get_or v1 i 0 * get_or v2 i 0) ks) in
   magnitude1 <- math_sqrt (py_sum (map (fun i => get_or v1 i 0 ^ 2) ks)) ;;
   magnitude2 <- math_sqrt (py_sum (map (fun i => get_or v2 i 0 ^ 2) ks)) ;;
   if Reqb magnitude1 0 || Reqb magnitude2 0 then Ok 0 else
   pydiv dot_product (magnitude1 * magnitude2))
  = Ok (if (List.length ks =? 0)%nat then 0
        else if Reqb (norm_over ks v1 * norm_over ks v2) 0 then 0
        else py_sum (map (fun i => get_or v1 i 0 * get_or v2 i 0) ks)
             / (norm_over ks v1 * norm_over ks v2)).
Proof.
  destruct (List.length ks =? 0)%nat; [reflexivity|].
  cbv zeta.
  rewrite !math_sqrt_ok by apply py_sum_squares_nonneg.
  cbn [bind]. fold (norm_over ks v1) (norm_over ks v2).
  destruct (Req_dec_T (norm_over ks v1) 0) as [E1|N1].
  - rewrite (Reqb_true _ _ E1); cbn [orb].
    rewrite Reqb_true by (rewrite E1; lra). reflexivity.
  - rewrite (Reqb_false _ _ N1); cbn [orb].
    destruct (Req_dec_T (norm_over ks v2) 0) as [E2|N2].
    + rewrite (Reqb_true _ _ E2).
      rewrite Reqb_true by (rewrite E2; lra). reflexivity.
    + rewrite (Reqb_false _ _ N2).
      assert (norm_over ks v1 * norm_over ks v2 <> 0) by (apply Rmult_integral_contrapositive; auto).
      rewrite Reqb_false by assumption.
      now apply pydiv_ok.
Qed.

Lemma cosine_similarity_eq (v1 v2 : dict R) :
  cosine_similarity v1 v2
  = Ok (let ks := common_keys v1 v2 in
        if (List.length ks =? 0)%nat then 0
        else if Reqb (norm_over ks v1 * norm_over ks v2) 0 then 0
        else py_sum (map (fun i => get_or v1 i 0 * get_or v2 i 0) ks)
             / (norm_over ks v1 * norm_over ks v2)).
Proof. unfold cosine_similarity; cbv zeta; apply cosine_on_keys. Qed.

Lemma cosine_similarity_features_eq (v1 v2 : dict R) :
  cosine_similarity_features v1 v2
  = Ok (let ks := all_keys v1 v2 in
        if (List.length ks =? 0)%nat then 0
        else if Reqb (norm_over ks v1 * norm_over ks v2) 0 then 0
        else py_sum (map (fun i => get_or v1 i 0 * get_or v2 i 0) ks)
             / (norm_over ks v1 * norm_over ks v2)).
Proof. unfold cosine_similarity_features; cbv zeta; apply cosine_on_keys. Qed.

Lemma INR_length_nonzero {A : Type} (l : list A) :
  (List.length l <? 2)%nat = false -> INR (List.length l) <> 0.
Proof.
  intros H; apply Nat.ltb_ge in H.
  apply not_0_INR; lia.
Qed.

Lemma pearson_correlation_eq (v1 v2 : dict R) :
  pearson_correlation v1 v2
  = Ok (let ks := common_keys v1 v2 in
        if (List.length ks <? 2)%nat then 0
        else if Reqb (sqrt (sq_dev_over ks v1 * sq_dev_over ks v2)) 0 then 0
        else co_dev_over ks v1 v2 / sqrt (sq_dev_over ks v1 * sq_dev_over ks v2)).
Proof.
  unfold pearson_correlation; cbv zeta.
  destruct (List.length (common_keys v1 v2) <? 2)%nat eqn:Hlen; [reflexivity|].
  rewrite !pydiv_ok by (now apply INR_length_nonzero).
  cbn [bind].
  fold (mean_over (common_keys v1 v2) v1) (mean_over (common_keys v1 v2) v2).
  fold (sq_dev_over (common_keys v1 v2) v1) (sq_dev_over (common_keys v1 v2) v2).
  fold (co_dev_over (common_keys v1 v2) v1 v2).
  rewrite math_sqrt_ok
    by (apply Rmult_le_pos; apply sq_dev_over_nonneg).
  cbn [bind].
  destruct (Req_dec_T (sqrt (sq_dev_over (common_keys v1 v2) v1 * sq_dev_over (common_keys v1 v2) v2)) 0)
    as [E|N].
  - now rewrite (Reqb_true _ _ E).
  - rewrite (Reqb_false _ _ N). now apply pydiv_ok.
Qed.

(** C8. Cosine similarity over ratings, Pearson correlation and cosine
    similarity over feature vectors return a number on every pair of inputs
    (no exception, so no division by zero), and that number is 0 whenever
    the denominator of the formula is zero: no key to compare, fewer than
    two common keys, a zero norm, or a zero variance. *)
Theorem similarity_never_divides_by_zero :
  forall v1 v2 : dict R,
    (exists s, cosine_similarity v1 v2 = Ok s) /\
    (exists s, pearson_correlation v1 v2 = Ok s) /\
    (exists s, cosine_similarity_features v1 v2 = Ok s) /\
    (common_keys v1 v2 = [] -> cosine_similarity v1 v2 = Ok 0) /\
    (norm_over (common_keys v1 v2) v1 * norm_over (common_keys v1 v2) v2 = 0 ->
     cosine_similarity v1 v2 = Ok 0) /\
    ((List.length (common_keys v1 v2) < 2)%nat -> pearson_correlation v1 v2 = Ok 0) /\
    (sqrt (sq_dev_over (common_keys v1 v2) v1 * sq_dev_over (common_keys v1 v2) v2) = 0 ->
     pearson_correlation v1 v2 = Ok 0) /\
    (all_keys v1 v2 = [] -> cosine_similarity_features v1 v2 = Ok 0) /\
    (norm_over (all_keys v1 v2) v1 * norm_over (all_keys v1 v2) v2 = 0 ->
     cosine_similarity_features v1 v2 = Ok 0).
Proof.
  intros v1 v2.
  rewrite cosine_similarity_eq, pearson_correlation_eq, cosine_similarity_features_eq.
  cbv zeta.
  repeat split; try (eexists; reflexivity).
  - intros ->; reflexivity.
  - intros H; rewrite (Reqb_true _ _ H); now destruct (_ =? _)%nat.
  - intros H; apply Nat.ltb_lt in H; now rewrite H.
  - intros H; rewrite (Reqb_true _ _ H); now destruct (_ <? _)%nat.
  - intros ->; reflexivity.
  - intros H; rewrite (Reqb_true _ _ H); now destruct (_ =? _)%nat.
Qed.

(** ** Evaluation of the model on concrete numbers *)

Ltac sqrt_is c :=
  match goal with
  | |- context [sqrt ?x] =>
      replace (sqrt x) with c by (symmetry; apply sqrt_lem_1; lra)
  end.

Ltac rdecide :=
  repeat match goal with
    | |- context [Reqb ?a ?b] =>
        first [rewrite (Reqb_true a b) by lra | rewrite (Reqb_false a b) by lra]
    | |- context [Rltb ?a ?b] =>
        first [rewrite (Rltb_true a b) by lra | rewrite (Rltb_false a b) by lra]
    | |- context [Rleb ?a ?b] =>
        first [rewrite (Rleb_true a b) by lra | rewrite (Rleb_false a b) by lra]
    end.

(** ** Pearson correlation of maps that agree on their common keys *)

Section PearsonAgreeing.

Variables r1 r2 : dict R.
Let ks := common_keys r1 r2.
Hypothesis agree : forall k, In k ks -> get_or r1 k 0 = get_or r2 k 0.

Lemma agree_mean : mean_over ks r2 = mean_over ks r1.
Proof.
  unfold mean_over; f_equal; f_equal.
  apply map_ext_in; intros k Hk; symmetry; now apply agree.
Qed.

Lemma agree_sq_dev : sq_dev_over ks r2 = sq_dev_over ks r1.
Proof.
  unfold sq_dev_over; rewrite agree_mean; f_equal.
  apply map_ext_in; intros k Hk; now rewrite agree.
Qed.

Lemma agree_co_dev : co_dev_over ks r1 r2 = sq_dev_over ks r1.
Proof.
  unfold co_dev_over, sq_dev_over; rewrite agree_mean; f_equal.
  apply map_ext_in; intros k Hk; rewrite <- agree by assumption; simpl; ring.
Qed.

End PearsonAgreeing.

Lemma sq_dev_zero_all_mean (ks : list string) (v : dict R) :
  sq_dev_over ks v = 0 -> forall k, In k ks -> get_or v k 0 = mean_over ks v.
Proof.
  intros H k Hk.
  assert (Hz : (get_or v k 0 - mean_over ks v) ^ 2 = 0).
  { apply (py_sum_zero _ (squares_nonneg (fun k => get_or v k 0 - mean_over ks v) ks) H).
    apply in_map_iff; now exists k. }
  simpl in Hz; nra.
Qed.

Lemma py_sum_constant {A : Type} (f : A -> R) (c : R) (l : list A) :
  (forall x, In x l -> f x = c) -> py_sum (map f l) = INR (List.length l) * c.
Proof.
  induction l as [|x l IH]; intros H.
  - simpl; rewrite py_sum_nil; lra.
  - cbn [map List.length]; rewrite py_sum_cons, S_INR.
    rewrite IH by (intros; apply H; now right).
    rewrite (H x) by now left.
    lra.
Qed.

Lemma constant_sq_dev_zero (ks : list string) (v : dict R) :
  ks <> [] ->
  (forall i j, In i ks -> In j ks -> get_or v i 0 = get_or v j 0) ->
  sq_dev_over ks v = 0.
Proof.
  intros Hne Hconst.
  destruct ks as [|k0 ks']; [congruence|].
  set (ks := k0 :: ks') in *.
  assert (Hmean : mean_over ks v = get_or v k0 0).
  { unfold mean_over.
    rewrite (py_sum_constant _ (get_or v k0 0)).
    - field. apply not_0_INR; subst ks; simpl; lia.
    - intros x Hx; apply Hconst; [assumption | now left]. }
  unfold sq_dev_over.
  rewrite (py_sum_constant _ 0); [lra|].
  intros x Hx; rewrite Hmean, (Hconst x k0 Hx) by now left.
  simpl; ring.
Qed.

(** C4 (as amended). If two rating maps assign identical values to each of
    their common keys and have at least two common keys, their Pearson
    correlation is 1 when the common values are not all equal, and 0 when
    they are all equal (the zero-variance guard). *)
Theorem pearson_identical_on_common_keys :
  forall r1 r2 : dict R,
    (forall k, In k (common_keys r1 r2) -> get_or r1 k 0 = get_or r2 k 0) ->
    (2 <= List.length (common_keys r1 r2))%nat ->
    ((exists i j, In i (common_keys r1 r2) /\ In j (common_keys r1 r2) /\
                  get_or r1 i 0 <> get_or r1 j 0) ->
     pearson_correlation r1 r2 = Ok 1) /\
    ((forall i j, In i (common_keys r1 r2) -> In j (common_keys r1 r2) ->
                  get_or r1 i 0 = get_or r1 j 0) ->
     pearson_correlation r1 r2 = Ok 0).
Proof.
  intros r1 r2 Hagree Hlen.
  rewrite pearson_correlation_eq; cbv zeta.
  apply Nat.ltb_ge in Hlen; rewrite Hlen.
  rewrite (agree_sq_dev r1 r2 Hagree), (agree_co_dev r1 r2 Hagree).
  pose proof (sq_dev_over_nonneg (common_keys r1 r2) r1) as Hpos.
  rewrite sqrt_square by assumption.
  split.
  - intros (i & j & Hi & Hj & Hij).
    assert (Hnz : sq_dev_over (common_keys r1 r2) r1 <> 0).
    { intros Hz; apply Hij.
      now rewrite (sq_dev_zero_all_mean _ _ Hz i Hi), (sq_dev_zero_all_mean _ _ Hz j Hj). }
    rewrite Reqb_false by assumption.
    f_equal; now field.
  - intros Hconst.
    rewrite Reqb_true; [reflexivity|].
    apply constant_sq_dev_zero; [|assumption].
    apply Nat.ltb_ge in Hlen.
    destruct (common_keys r1 r2); [simpl in Hlen; lia | discriminate].
Qed.

Lemma pearson_identical_on_common_keys_witness :
  pearson_correlation [("a", 5); ("b", 4)] [("a", 5); ("b", 4); ("c", 1)] = Ok 1.
Proof.
  apply (pearson_identical_on_common_keys [("a", 5); ("b", 4)] [("a", 5); ("b", 4); ("c", 1)]).
  - intros k [<-|[<-|[]]]; reflexivity.
  - simpl; lia.
  - exists "a", "b"; cbn; repeat split; auto; lra.
Defined.

(** C4 (as stated) fails: two maps that give 5 to both of their two common
    keys agree on them, and their correlation is 0, not 1. *)
Lemma pearson_identical_constant_counterexample :
  ~ (forall r1 r2 : dict R,
        (forall k, In k (common_keys r1 r2) -> get_or r1 k 0 = get_or r2 k 0) ->
        (2 <= List.length (common_keys r1 r2))%nat ->
        pearson_correlation r1 r2 = Ok 1).
Proof.
  intros H.
  specialize (H [("a", 5); ("b", 5)] [("a", 5); ("b", 5)]).
  assert (E : pearson_correlation [("a", 5); ("b", 5)] [("a", 5); ("b", 5)] = Ok 0).
  { rewrite pearson_correlation_eq.
    cbn; unfold sq_dev_over, co_dev_over, mean_over; cbn.
    sqrt_is 0; rdecide; reflexivity. }
  rewrite E in H.
  assert (Ok 0 = Ok 1) as Habs by (apply H; [reflexivity | simpl; lia]).
  injection Habs; lra.
Qed.

(** ** The scenario of users A and B *)

Lemma scenario_AB_pearson :
  pearson_correlation (get_user_ratings_dict scenario_AB "A")
                      (get_user_ratings_dict scenario_AB "B") = Ok 1.
Proof.
  rewrite pearson_correlation_eq; cbn.
  unfold sq_dev_over, co_dev_over, mean_over; cbn.
  sqrt_is (1 / 2); rdecide; f_equal; lra.
Qed.

Lemma scenario_AB_no_neighbour (top_n : nat) :
  find_similar_users scenario_AB "A" 3 top_n = Ok [].
Proof. unfold find_similar_users; cbn; now destruct top_n. Qed.

(** C3 (as amended). In the scenario the Pearson correlation of A's and B's
    rating maps is 1; with its default parameters (at least three common
    items) [find_similar_users] returns no neighbour for A, because A and B
    share two items only, and [generate_collaborative_recommendations]
    returns the empty list; asked for at least two common items,
    [find_similar_users] returns B with similarity 1. *)
Theorem scenario_AB_collaborative :
  pearson_correlation (get_user_ratings_dict scenario_AB "A")
                      (get_user_ratings_dict scenario_AB "B") = Ok 1 /\
  find_similar_users scenario_AB "A" 3 10 = Ok [] /\
  generate_collaborative_recommendations scenario_AB "A" 10 (3 / 10) = Ok [] /\
  find_similar_users scenario_AB "A" 2 10 = Ok [("B", 1)].
Proof.
  split; [exact scenario_AB_pearson|].
  split; [apply scenario_AB_no_neighbour|].
  split.
  - unfold generate_collaborative_recommendations.
    rewrite scenario_AB_no_neighbour; reflexivity.
  - unfold find_similar_users; cbn.
    rewrite pearson_correlation_eq; cbn.
    unfold sq_dev_over, co_dev_over, mean_over; cbn.
    sqrt_is (1 / 2); rdecide; cbn.
    do 3 f_equal; lra.
Qed.

(** C3 (as stated) fails in the scenario: [find_similar_users "A"] with its
    default parameters does not return B, and the collaborative
    recommender does not return item3. *)
Lemma scenario_AB_counterexample :
  ~ (pearson_correlation (get_user_ratings_dict scenario_AB "A")
                         (get_user_ratings_dict scenario_AB "B") = Ok 1 /\
     (exists l, find_similar_users scenario_AB "A" 3 10 = Ok l /\ In "B" (map fst l)) /\
     (exists l rec, generate_collaborative_recommendations scenario_AB "A" 10 (3 / 10) = Ok l /\
                    In rec l /\ id rec = item3 /\ recommendation_score rec = 5)).
Proof.
  intros (_ & (l & Hl & Hin) & _).
  rewrite scenario_AB_no_neighbour in Hl.
  injection Hl as <-; exact Hin.
Qed.

(** ** The popularity ranker and the fallback of the routes *)

Lemma lookup_ratings_nil (db : database) (it : item) : lookup_ratings db it = [].
Proof.
  unfold lookup_ratings.
  induction (ratings db) as [|r l IH]; [reflexivity | exact IH].
Qed.

Lemma filter_all_false {A : Type} (f : A -> bool) (l : list A) :
  (forall x, In x l -> f x = false) -> filter f l = [].
Proof.
  induction l as [|x l IH]; intros H; [reflexivity|].
  simpl; rewrite (H x) by now left.
  apply IH; intros; apply H; now right.
Qed.

Lemma get_popular_items_no_join (db : database) (t : option ItemType)
      (c g : option string) (limit k : nat) :
  (1 <= limit)%nat -> (1 <= k)%nat -> get_popular_items db t c g limit k = Ok [].
Proof.
  intros Hlimit Hk; unfold get_popular_items.
  destruct limit as [|n]; [lia|]; cbn [Nat.eqb].
  rewrite (filter_all_false _ (map _ _)); [reflexivity|].
  intros [it rs] Hin.
  apply in_map_iff in Hin; destruct Hin as (it' & E & _).
  injection E as <- <-; rewrite lookup_ratings_nil.
  apply Nat.leb_gt; simpl; lia.
Qed.

(** C2 (the code departs from it). Whatever the store, the filters and the
    positive [limit], [get_popular_items] with [min_ratings >= 1] returns
    the empty list, also when an item of the catalog has [min_ratings] or
    more ratings that refer to it: the [$lookup] compares the item's
    [ObjectId] with the text kept in [item_id], which never match, so no
    item is ever joined with its ratings. *)
Theorem get_popular_items_drops_rated_items :
  forall (db : database) (t : option ItemType) (c g : option string)
         (limit k : nat) (it : item),
    (1 <= limit)%nat -> (1 <= k)%nat ->
    In it (items db) ->
    (k <= List.length (ratings_referring_to db it))%nat ->
    get_popular_items db t c g limit k = Ok [].
Proof.
  intros db t c g limit k it Hlimit Hk _ _.
  now apply get_popular_items_no_join.
Qed.

Lemma get_popular_items_drops_rated_items_witness :
  get_popular_items one_rated_item None None None 10 3 = Ok [].
Proof.
  apply (get_popular_items_drops_rated_items one_rated_item None None None 10 3
                                             (movie item1 "one")).
  - lia.
  - lia.
  - simpl; auto.
  - vm_compute; lia.
Defined.

(** The trending ranker converts the identifier to text before it compares,
    and does join the same item with its three ratings. *)
Lemma lookup_recent_ratings_joins :
  List.length (lookup_recent_ratings one_rated_item 0 (movie item1 "one")) = 3%nat.
Proof. reflexivity. Qed.

(** C1 (the code departs from it). In a store whose only item has a rating,
    every recommender returns the empty list for a user without ratings,
    each route substitutes [get_popular_items] with [min_ratings = 1], and
    the user still receives the empty list. *)
Theorem fallback_returns_empty_in_rated_catalog :
  List.length (ratings_referring_to new_user_store (movie item1 "one")) = 1%nat /\
  generate_collaborative_recommendations new_user_store "A" 10 (3 / 10) = Ok [] /\
  generate_content_based_recommendations new_user_store "A" 10 (3 / 10) = Ok [] /\
  generate_hybrid_recommendations new_user_store "A" 10 (6 / 10) (4 / 10) (3 / 10) = Ok [] /\
  get_personalized_recommendations_endpoint new_user_store "A" "hybrid" 10 = HTTP_200 [] /\
  get_personalized_recommendations_endpoint new_user_store "A" "collaborative" 10 = HTTP_200 [] /\
  get_personalized_recommendations_endpoint new_user_store "A" "content" 10 = HTTP_200 [] /\
  get_collaborative_recommendations new_user_store "A" 10 (3 / 10) = HTTP_200 [] /\
  get_content_based_recommendations new_user_store "A" 10 (3 / 10) = HTTP_200 [] /\
  get_hybrid_recommendations new_user_store "A" 10 (6 / 10) (4 / 10) = HTTP_200 [].
Proof.
  assert (Hc : generate_collaborative_recommendations new_user_store "A" 10 (3 / 10) = Ok [])
    by reflexivity.
  assert (Hb : generate_content_based_recommendations new_user_store "A" 10 (3 / 10) = Ok [])
    by reflexivity.
  assert (Hh : forall cw tw,
             generate_hybrid_recommendations new_user_store "A" 10 cw tw (3 / 10) = Ok [])
    by reflexivity.
  repeat split; try assumption; try apply Hh; try reflexivity.
  - unfold get_collaborative_recommendations, unit_interval_ok.
    rdecide; cbn [limit_ok Nat.leb andb negb]; now rewrite Hc.
  - unfold get_content_based_recommendations, unit_interval_ok.
    rdecide; cbn [limit_ok Nat.leb andb negb]; now rewrite Hb.
  - unfold get_hybrid_recommendations, unit_interval_ok.
    replace (6 / 10 + 4 / 10 - 1) with 0 by lra; rewrite Rabs_R0.
    rdecide; cbn [limit_ok Nat.leb andb negb]; now rewrite Hh.
Qed.

(** ** Dictionaries *)

Lemma dict_get_set_same {V : Type} (d : dict V) (k : string) (v : V) :
  dict_get (dict_set d k v) k = Some v.
Proof.
  induction d as [|[k' v'] d IH]; simpl.
  - now rewrite String.eqb_refl.
  - destruct (String.eqb k k') eqn:E; simpl; rewrite E; auto.
Qed.

Lemma dict_get_set_other {V : Type} (d : dict V) (k k' : string) (v : V) :
  k <> k' -> dict_get (dict_set d k' v) k = dict_get d k.
Proof.
  intros Hne.
  induction d as [|[k0 v0] d IH]; simpl.
  - apply String.eqb_neq in Hne; now rewrite Hne.
  - destruct (String.eqb k' k0) eqn:E; simpl.
    + apply String.eqb_eq in E; subst k0.
      apply String.eqb_neq in Hne; now rewrite Hne.
    + destruct (String.eqb k k0); auto.
Qed.

Lemma dict_get_fold_set_other {V : Type} (f : string -> string) (v : V)
      (l : list string) (d : dict V) (k : string) :
  (forall x, k <> f x) ->
  dict_get (fold_left (fun acc x => dict_set acc (f x) v) l d) k = dict_get d k.
Proof.
  intros Hne; revert d.
  induction l as [|x l IH]; intros d; simpl; [reflexivity|].
  rewrite IH; apply dict_get_set_other, Hne.
Qed.

(** ** The feature extractor on products *)

Lemma truthy_Some (o : option string) (s : string) :
  truthy o = Some s <-> o = Some s /\ s <> "".
Proof.
  unfold truthy; destruct o as [x|]; [|split; [discriminate | intros [? _]; discriminate]].
  destruct (String.eqb x "") eqn:E.
  - apply String.eqb_eq in E; subst x; split; [discriminate|].
    intros [H1 H2]; injection H1 as <-; congruence.
  - apply String.eqb_neq in E; split.
    + intros H; injection H as <-; auto.
    + intros [H _]; injection H as <-; reflexivity.
Qed.

(** C6 (as amended). For a product, the feature vector holds
    [category:<c>] with weight 1 exactly when the item's top-level
    [category] field is [c] and [c] is not the empty text; the metadata map
    is not consulted for it. *)
Theorem product_category_feature :
  forall (it : item) (c : string),
    item_type it = "product" ->
    (dict_get (extract_item_features it) ("category:" ++ c)%string = Some 1
     <-> category it = Some c /\ c <> "").
Proof.
  intros it c Htype.
  unfold extract_item_features; cbv zeta; rewrite Htype; cbn [String.eqb Ascii.eqb Bool.eqb].
  match goal with
  | |- context [dict_set ?d ("type:" ++ "product")%string 1] =>
      set (base := dict_set d ("type:" ++ "product")%string 1)
  end.
  assert (Hbase : dict_get base ("category:" ++ c)%string = None).
  { subst base; rewrite dict_get_set_other by (simpl; discriminate).
    rewrite (dict_get_fold_set_other (fun x => "tag:" ++ x)%string)
      by (intros x; simpl; discriminate).
    rewrite (dict_get_fold_set_other (fun x => "genre:" ++ x)%string)
      by (intros x; simpl; discriminate).
    reflexivity. }
  set (branded := match truthy (brand (metadata it)) with
                  | Some b => dict_set base ("brand:" ++ b)%string 1
                  | None => base
                  end).
  assert (Hbranded : dict_get branded ("category:" ++ c)%string = None).
  { subst branded; destruct (truthy (brand (metadata it))); [|assumption].
    rewrite dict_get_set_other by (simpl; discriminate); assumption. }
  rewrite <- truthy_Some.
  destruct (truthy (category it)) as [c'|].
  - destruct (string_dec c' c) as [->|Hne].
    + rewrite dict_get_set_same; tauto.
    + rewrite dict_get_set_other, Hbranded.
      * split; [discriminate | intros H; injection H; contradiction].
      * simpl; intros H; injection H; auto.
  - rewrite Hbranded; split; discriminate.
Qed.

Lemma product_category_feature_witness :
  dict_get (extract_item_features (product item1 "kite" (Some "toys") no_metadata))
           "category:toys" = Some 1.
Proof.
  apply (product_category_feature (product item1 "kite" (Some "toys") no_metadata) "toys").
  - reflexivity.
  - split; [reflexivity | discriminate].
Defined.

(** C6 (as stated) fails: a product created with the top-level category
    "toys" and no category in its metadata map has the feature
    [category:toys]. *)
Lemma product_category_metadata_counterexample :
  ~ (forall (it : item) (c : string),
        item_type it = "product" ->
        (dict_get (extract_item_features it) ("category:" ++ c)%string = Some 1
         <-> dict_get (other (metadata it)) "category" = Some c)).
Proof.
  intros H.
  specialize (H (product item1 "kite" (Some "toys") no_metadata) "toys" eq_refl).
  destruct H as [H _].
  discriminate (H eq_refl).
Qed.

(** ** Loops in the error monad, sorting and slicing *)

Lemma foldM_invariant {A S : Type} (P : S -> Prop) (f : S -> A -> result S)
      (l : list A) (s : S) :
  P s ->
  (forall s x s', In x l -> P s -> f s x = Ok s' -> P s') ->
  forall s', foldM f l s = Ok s' -> P s'.
Proof.
  revert s; induction l as [|x l IH]; intros s Hs Hstep s' Hrun; simpl in Hrun.
  - now injection Hrun as <-.
  - destruct (f s x) as [s1|e] eqn:E; [|discriminate].
    cbn [bind] in Hrun.
    apply (IH s1); auto.
    + apply (Hstep s x); auto; now left.
    + intros; apply (Hstep s0 x0); auto; now right.
Qed.

Lemma foldM_total {A S : Type} (f : S -> A -> result S) (l : list A) (s : S) :
  (forall s x, In x l -> exists s', f s x = Ok s') ->
  exists s', foldM f l s = Ok s'.
Proof.
  revert s; induction l as [|x l IH]; intros s Hstep; simpl.
  - now exists s.
  - destruct (Hstep s x) as (s1 & ->); [now left|].
    cbn [bind]; apply IH; intros; apply Hstep; now right.
Qed.

Lemma In_insert_desc {A : Type} (key : A -> R) (x y : A) (l : list A) :
  In y (insert_desc key x l) <-> y = x \/ In y l.
Proof.
  induction l as [|z l IH]; simpl.
  - intuition.
  - destruct (Rltb (key x) (key z)); simpl; rewrite ?IH; intuition.
Qed.

Lemma In_sort_desc {A : Type} (key : A -> R) (y : A) (l : list A) :
  In y (sort_desc key l) <-> In y l.
Proof.
  induction l as [|x l IH]; simpl; [tauto|].
  rewrite In_insert_desc, IH; intuition.
Qed.

Lemma In_firstn {A : Type} (n : nat) (x : A) (l : list A) :
  In x (firstn n l) -> In x l.
Proof.
  revert l; induction n as [|n IH]; intros [|y l]; simpl; try tauto.
  intros [H|H]; auto.
Qed.

(** ** Item-to-item similarity *)

Lemma oid_eqb_eq (a b : ObjectId) : oid_eqb a b = true <-> a = b.
Proof.
  unfold oid_eqb; destruct a as [x], b as [y]; simpl.
  rewrite String.eqb_eq; split; [now intros -> | now intros [= ->]].
Qed.

Lemma find_one_item_Some (db : database) (oid : ObjectId) (it : item) :
  find_one_item db oid = Some it -> In it (items db) /\ _id it = oid.
Proof.
  intros H; apply find_some in H; destruct H as [Hin He].
  now apply oid_eqb_eq in He.
Qed.

(** C10. [find_similar_items] returns the empty list, without raising, when
    the identifier is not a valid one and when it refers to no stored item;
    when it refers to a stored item, it returns a list and every record of
    the list has the type of that item and another identifier. *)
Theorem find_similar_items_contract :
  forall (db : database) (iid : string) (limit : nat) (min_similarity : R),
    (is_valid iid = false -> find_similar_items db iid limit min_similarity = Ok []) /\
    (forall oid, ObjectId_of iid = Ok oid -> find_one_item db oid = None ->
                 find_similar_items db iid limit min_similarity = Ok []) /\
    (forall oid q, ObjectId_of iid = Ok oid -> find_one_item db oid = Some q ->
       exists out,
         find_similar_items db iid limit min_similarity = Ok out /\
         forall rec, In rec out ->
                     item_type (doc rec) = item_type q /\ id rec <> str (_id q)).
Proof.
  intros db iid limit min_similarity.
  unfold find_similar_items, ObjectId_of.
  destruct (is_valid iid) eqn:Hvalid; cbn [negb bind].
  2: { repeat split; auto; intros; discriminate. }
  split; [discriminate|]; split.
  - intros oid [= <-] ->; reflexivity.
  - intros oid q [= <-] Hq; rewrite Hq.
    set (oid := Oid (string_map lower iid)) in *.
    set (all_items := filter _ (items db)).
    set (step := fun (similarities : list (item * R)) (other_item : item) => _).
    destruct (foldM_total step all_items []) as (sims & Hsims).
    { intros s x _; subst step; cbv beta.
      rewrite cosine_similarity_features_eq; cbn [bind].
      destruct (Rleb _ _); eexists; reflexivity. }
    rewrite Hsims; cbn [bind]; eexists; split; [reflexivity|].
    assert (Hsub : forall p, In p sims -> In (fst p) all_items).
    { apply (foldM_invariant (fun s => forall p, In p s -> In (fst p) all_items)
                             step all_items []); [intros p [] | | exact Hsims].
      intros s x s' Hx Hs; subst step; cbv beta.
      rewrite cosine_similarity_features_eq; cbn [bind].
      destruct (Rleb _ _); intros [= <-]; [|assumption].
      intros p Hp; apply in_app_iff in Hp; destruct Hp as [Hp|[<-|[]]]; auto. }
    intros rec Hrec.
    apply in_map_iff in Hrec; destruct Hrec as ([o s] & <- & Ho).
    apply In_firstn, In_sort_desc, Hsub in Ho; cbn [fst] in Ho.
    subst all_items; apply filter_In in Ho; destruct Ho as [_ Ho].
    apply andb_prop in Ho; destruct Ho as [Ht Hid].
    apply String.eqb_eq in Ht.
    apply find_one_item_Some in Hq; destruct Hq as [_ Hq].
    cbn; split; [assumption|].
    rewrite Hq; intros Heq.
    apply negb_true_iff in Hid.
    unfold oid_eqb in Hid; apply String.eqb_neq in Hid; contradiction.
Qed.

(** ** Items already rated by the requesting user *)

Lemma mapM_In {A B : Type} (f : A -> result B) (l : list A) (ys : list B) :
  mapM f l = Ok ys -> forall x, In x l -> exists y, f x = Ok y /\ In y ys.
Proof.
  revert ys; induction l as [|a l IH]; intros ys H x Hx; [contradiction|].
  simpl in H.
  destruct (f a) as [b|] eqn:Ea; [|discriminate]; cbn [bind] in H.
  destruct (mapM f l) as [bs|] eqn:El; [|discriminate]; cbn [bind] in H.
  injection H as <-.
  destruct Hx as [<-|Hx].
  - exists b; split; [assumption | now left].
  - destruct (IH bs eq_refl x Hx) as (y & Hy & Hin).
    exists y; split; [assumption | now right].
Qed.

(** The content-based recommender compares [ObjectId]s: no record it
    returns is an item that a rating of the user refers to. *)
Lemma content_based_excludes_rated (db : database) (uid : string) (limit : nat)
      (min_similarity : R) (out : list recommendation) :
  generate_content_based_recommendations db uid limit min_similarity = Ok out ->
  forall rec r, In rec out -> In r (find_ratings_of db uid) ->
                ObjectId_of (item_id r) <> Ok (_id (doc rec)).
Proof.
  unfold generate_content_based_recommendations.
  destruct (get_user_preferred_features db uid 3) as [uf|]; [|discriminate].
  cbn [bind].
  destruct (List.length uf =? 0)%nat; [intros [= <-] rec r []|].
  destruct (mapM _ (find_ratings_of db uid)) as [ids|] eqn:Hids; [|discriminate].
  cbn [bind].
  match goal with
  | |- context [foldM ?f (items db) []] => set (step := f)
  end.
  destruct (foldM step (items db) []) as [sims|] eqn:Hsims; [|discriminate].
  cbn [bind]; intros [= <-] rec r Hrec Hr Heq.
  assert (Hinv : forall p, In p sims -> existsb (oid_eqb (_id (doc (fst p)))) ids = false).
  { apply (foldM_invariant
             (fun s => forall p, In p s -> existsb (oid_eqb (_id (doc (fst p)))) ids = false)
             step (items db) []); [intros p [] | | exact Hsims].
    intros s x s' _ Hs; subst step; cbv beta.
    destruct (existsb (oid_eqb (_id x)) ids) eqn:Hx; [now intros [= <-]|].
    rewrite cosine_similarity_features_eq; cbn [bind].
    destruct (Rleb _ _); intros [= <-]; [|assumption].
    intros p Hp; apply in_app_iff in Hp; destruct Hp as [Hp|[<-|[]]]; auto. }
  apply in_map_iff in Hrec; destruct Hrec as (p & <- & Hp).
  apply In_firstn, In_sort_desc, Hinv in Hp.
  destruct (mapM_In _ _ _ Hids r Hr) as (y & Hy & Hin).
  rewrite Heq in Hy; injection Hy as <-.
  assert (existsb (oid_eqb (_id (doc (fst p)))) ids = true).
  { apply existsb_exists; eexists; split; [exact Hin | now apply oid_eqb_eq]. }
  congruence.
Qed.

Lemma mixed_case_neighbours :
  find_similar_users mixed_case_store "U" 3 50 = Ok [("V", 1)].
Proof.
  unfold find_similar_users; cbn.
  rewrite pearson_correlation_eq; cbn.
  unfold sq_dev_over, co_dev_over, mean_over; cbn.
  sqrt_is 2; rdecide; cbn.
  do 3 f_equal; lra.
Qed.

Lemma mixed_case_scores :
  collaborative_item_scores mixed_case_store
    (to_set (keys (get_user_ratings_dict mixed_case_store "U"))) (3 / 10) [("V", 1)]
  = [(ITEM_X, (0 + 1 * 5, 1%nat))].
Proof. unfold collaborative_item_scores; cbn; rdecide; reflexivity. Qed.

Lemma mixed_case_collaborative :
  generate_collaborative_recommendations mixed_case_store "U" 10 (3 / 10)
  = Ok [annotate (movie item_x "x") 5 "collaborative"].
Proof.
  unfold generate_collaborative_recommendations.
  rewrite mixed_case_neighbours; cbn [bind List.length Nat.eqb].
  rewrite mixed_case_scores.
  unfold collaborative_candidates; cbn [foldM Nat.ltb Nat.leb].
  rewrite pydiv_ok by (simpl; lra).
  cbn [bind app].
  unfold sort_desc; cbn [fold_right]; cbn [insert_desc]; cbn [firstn]; cbn [foldM].
  replace (ObjectId_of ITEM_X) with (Ok (Oid item_x)) by (vm_compute; reflexivity).
  cbn [bind].
  replace (find_one_item mixed_case_store (Oid item_x)) with (Some (movie item_x "x"))
    by (vm_compute; reflexivity).
  cbn [bind app].
  do 2 f_equal; unfold annotate; f_equal; change (INR 1) with 1; lra.
Qed.

(** C9 (the code departs from it). The collaborative recommender compares
    the texts of the identifiers: in [mixed_case_store] it recommends to U
    the movie whose identifier is the [item_id] of U's fourth rating,
    because V has rated it under another spelling of that identifier. *)
Theorem collaborative_recommends_rated_item :
  generate_collaborative_recommendations mixed_case_store "U" 10 (3 / 10)
  = Ok [annotate (movie item_x "x") 5 "collaborative"] /\
  In (rate "U" item_x 2) (find_ratings_of mixed_case_store "U") /\
  item_id (rate "U" item_x 2) = id (annotate (movie item_x "x") 5 "collaborative") /\
  ObjectId_of (item_id (rate "U" item_x 2)) = Ok (_id (movie item_x "x")) /\
  find_one_item mixed_case_store (_id (movie item_x "x")) = Some (movie item_x "x").
Proof.
  split; [exact mixed_case_collaborative|].
  split; [simpl; auto|].
  split; [reflexivity|].
  split; vm_compute; reflexivity.
Qed.

(** ** Keys of a dictionary *)

Lemma contains_In (l : list string) (k : string) : contains l k = true <-> In k l.
Proof.
  unfold contains; rewrite existsb_exists; split.
  - intros (x & Hx & E); apply String.eqb_eq in E; now subst.
  - intros H; exists k; split; [assumption | apply String.eqb_refl].
Qed.

Lemma contains_false (l : list string) (k : string) : contains l k = false <-> ~ In k l.
Proof.
  rewrite <- contains_In; destruct (contains l k); split; congruence.
Qed.

Lemma In_to_set (l : list string) (k : string) : In k (to_set l) <-> In k l.
Proof.
  induction l as [|x l IH]; simpl; [tauto|].
  rewrite filter_In, IH, negb_true_iff, String.eqb_neq.
  destruct (string_dec x k) as [->|Hne]; [tauto|].
  split; [tauto|]. intros [H|H]; [tauto|]. right; split; auto.
Qed.

Lemma NoDup_to_set (l : list string) : NoDup (to_set l).
Proof.
  induction l as [|x l IH]; simpl; constructor.
  - rewrite filter_In, negb_true_iff, String.eqb_neq; tauto.
  - now apply NoDup_filter.
Qed.

Lemma dict_get_notin {V : Type} (d : dict V) (k : string) :
  ~ In k (keys d) -> dict_get d k = None.
Proof.
  induction d as [|[k' v] d IH]; simpl; [reflexivity|].
  intros H; destruct (String.eqb k k') eqn:E.
  - apply String.eqb_eq in E; subst; tauto.
  - apply IH; tauto.
Qed.

Lemma dict_get_Some_In {V : Type} (d : dict V) (k : string) (v : V) :
  dict_get d k = Some v -> In (k, v) d.
Proof.
  induction d as [|[k' v'] d IH]; simpl; [discriminate|].
  destruct (String.eqb k k') eqn:E.
  - apply String.eqb_eq in E; subst; intros [= ->]; now left.
  - intros H; right; auto.
Qed.

Lemma dict_get_In {V : Type} (d : dict V) (k : string) (v : V) :
  NoDup (keys d) -> In (k, v) d -> dict_get d k = Some v.
Proof.
  induction d as [|[k' v'] d IH]; simpl; [contradiction|].
  intros Hnd [E|Hin].
  - injection E as -> ->; now rewrite String.eqb_refl.
  - inversion Hnd as [|? ? Hk Hd]; subst.
    destruct (String.eqb k k') eqn:E.
    + apply String.eqb_eq in E; subst k'.
      exfalso; apply Hk; unfold keys; apply in_map_iff; now exists (k, v).
    + auto.
Qed.

Lemma In_keys_dict_set {V : Type} (d : dict V) (k k' : string) (v : V) :
  In k (keys (dict_set d k' v)) <-> k = k' \/ In k (keys d).
Proof.
  induction d as [|[k0 v0] d IH]; simpl.
  - intuition.
  - destruct (String.eqb k' k0) eqn:E; simpl.
    + apply String.eqb_eq in E; subst; intuition.
    + rewrite IH; intuition.
Qed.

Lemma NoDup_keys_dict_set {V : Type} (d : dict V) (k : string) (v : V) :
  NoDup (keys d) -> NoDup (keys (dict_set d k v)).
Proof.
  induction d as [|[k0 v0] d IH]; simpl; intros H.
  - constructor; [tauto | constructor].
  - inversion H as [|? ? Hk Hd]; subst.
    destruct (String.eqb k k0) eqn:E; simpl.
    + now constructor.
    + constructor; [|auto].
      rewrite In_keys_dict_set; apply String.eqb_neq in E; intuition.
Qed.

Lemma NoDup_keys_fold_set {A V : Type} (kf : A -> string) (vf : A -> V)
      (l : list A) (d : dict V) :
  NoDup (keys d) -> NoDup (keys (fold_left (fun d x => dict_set d (kf x) (vf x)) l d)).
Proof.
  revert d; induction l as [|x l IH]; intros d H; simpl; [assumption|].
  apply IH, NoDup_keys_dict_set, H.
Qed.

Lemma NoDup_keys_user_ratings (db : database) (uid : string) :
  NoDup (keys (get_user_ratings_dict db uid)).
Proof.
  unfold get_user_ratings_dict.
  apply (NoDup_keys_fold_set item_id (fun r => IZR (rating r))); constructor.
Qed.

(** ** The accumulator of the collaborative recommender *)

Lemma summary_snoc (cs : list R) (c : R) :
  summary (cs ++ [c]) = Some (py_sum cs + c, (List.length cs + 1)%nat).
Proof.
  unfold summary.
  destruct (cs ++ [c]) eqn:E; [now destruct cs|].
  rewrite <- E; f_equal; f_equal.
  - unfold py_sum; now rewrite fold_left_app.
  - now rewrite length_app.
Qed.

Lemma get_or_summary (acc : dict (R * nat)) (i : string) (cs : list R) :
  dict_get acc i = summary cs -> get_or acc i (0, 0%nat) = (py_sum cs, List.length cs).
Proof.
  unfold get_or; intros ->; now destruct cs.
Qed.

Lemma accumulate_keys (acc : dict (R * nat)) (s : R) (rated : list string)
      (kv : string * R) :
  NoDup (keys acc) -> NoDup (keys (accumulate acc s rated kv)).
Proof.
  intros H; unfold accumulate; destruct kv as [k r].
  destruct (contains rated k); cbn [negb]; [assumption|].
  destruct (get_or acc k (0, 0%nat)); now apply NoDup_keys_dict_set.
Qed.

Lemma inner_loop_keys (s : R) (rated : list string) (d : dict R) (acc : dict (R * nat)) :
  NoDup (keys acc) ->
  NoDup (keys (fold_left (fun acc kv => accumulate acc s rated kv) d acc)).
Proof.
  revert acc; induction d as [|kv d IH]; intros acc H; simpl; [assumption|].
  now apply IH, accumulate_keys.
Qed.

Lemma inner_loop_get (s : R) (rated : list string) (d : dict R) :
  NoDup (keys d) ->
  forall (acc : dict (R * nat)) (i : string),
    dict_get (fold_left (fun acc kv => accumulate acc s rated kv) d acc) i
    = match contribution rated s d i with
      | Some c => let '(score, count) := get_or acc i (0, 0%nat) in
                  Some (score + c, (count + 1)%nat)
      | None => dict_get acc i
      end.
Proof.
  induction d as [|[k r] d IH]; intros Hnd acc i.
  - simpl; unfold contribution; simpl; now destruct (contains rated i).
  - inversion Hnd as [|? ? Hk Hd]; subst.
    cbn [fold_left]; rewrite (IH Hd).
    unfold contribution; cbn [dict_get].
    destruct (String.eqb i k) eqn:E.
    + apply String.eqb_eq in E; subst i.
      rewrite (dict_get_notin d k Hk).
      unfold accumulate.
      destruct (contains rated k); cbn [negb]; [reflexivity|].
      destruct (get_or acc k (0, 0%nat)) as [score count].
      now rewrite dict_get_set_same.
    + apply String.eqb_neq in E.
      assert (Hget : dict_get (accumulate acc s rated (k, r)) i = dict_get acc i).
      { unfold accumulate; destruct (contains rated k); cbn [negb]; [reflexivity|].
        destruct (get_or acc k (0, 0%nat)); now apply dict_get_set_other. }
      unfold get_or; rewrite Hget; reflexivity.
Qed.

Lemma outer_loop (db : database) (rated : list string) (min_similarity : R)
      (rest done : list (string * R)) (acc : dict (R * nat)) :
  NoDup (keys acc) ->
  (forall i, dict_get acc i = summary (contributions_to db rated min_similarity done i)) ->
  let final :=
    fold_left
      (fun item_scores '(similar_user_id, similarity) =>
         if Rltb similarity min_similarity then item_scores else
         fold_left (fun acc kv => accumulate acc similarity rated kv)
                   (get_user_ratings_dict db similar_user_id) item_scores)
      rest acc in
  NoDup (keys final) /\
  forall i, dict_get final i
            = summary (contributions_to db rated min_similarity (done ++ rest) i).
Proof.
  revert done acc; induction rest as [|[v s] rest IH]; intros done acc Hnd Hacc.
  - cbn; rewrite app_nil_r; auto.
  - cbn [fold_left].
    replace (done ++ (v, s) :: rest) with ((done ++ [(v, s)]) ++ rest)
      by (now rewrite <- app_assoc).
    apply IH.
    + destruct (Rltb s min_similarity); [assumption | now apply inner_loop_keys].
    + intros i; unfold contributions_to at 1.
      rewrite flat_map_app; cbn [flat_map]; rewrite app_nil_r.
      fold (contributions_to db rated min_similarity done i).
      destruct (Rltb s min_similarity); [now rewrite app_nil_r|].
      rewrite (inner_loop_get s rated _ (NoDup_keys_user_ratings db v)).
      destruct (contribution rated s (get_user_ratings_dict db v) i) as [c|].
      * rewrite (get_or_summary _ _ _ (Hacc i)); now rewrite summary_snoc.
      * now rewrite app_nil_r.
Qed.

Lemma collaborative_item_scores_spec (db : database) (rated : list string)
      (min_similarity : R) (similar_users : list (string * R)) :
  let acc := collaborative_item_scores db rated min_similarity similar_users in
  NoDup (keys acc) /\
  forall i, dict_get acc i = summary (contributions_to db rated min_similarity similar_users i).
Proof.
  apply (outer_loop db rated min_similarity similar_users [] []); [constructor|].
  reflexivity.
Qed.


Lemma contributions_to_rated (db : database) (rated : list string) (ms : R)
      (sims : list (string * R)) (i : string) :
  contains rated i = true -> contributions_to db rated ms sims i = [].
Proof.
  intros H; unfold contributions_to, contribution; rewrite H.
  induction sims as [|[v s] sims IH]; [reflexivity|].
  cbn [flat_map]; rewrite IH; now destruct (Rltb s ms).
Qed.

Lemma collaborative_candidates_eq (item_scores : dict (R * nat)) :
  collaborative_candidates item_scores = Ok (flat_map candidate_of item_scores).
Proof.
  unfold collaborative_candidates.
  assert (G : forall l acc,
             foldM (fun recommendations '(i, (score, count)) =>
                      if (0 <? count)%nat then
                        avg_score <- pydiv score (INR count) ;;
                        Ok (recommendations ++ [(i, avg_score, count)])
                      else Ok recommendations) l acc
             = Ok (acc ++ flat_map candidate_of l)).
  { induction l as [|[i [score count]] l IH]; intros acc; cbn [foldM flat_map].
    - now rewrite app_nil_r.
    - unfold candidate_of at 1.
      destruct (0 <? count)%nat eqn:E; cbn [bind].
      + rewrite pydiv_ok by (apply not_0_INR; apply Nat.ltb_lt in E; lia).
        cbn [bind]; rewrite IH; now rewrite <- app_assoc.
      + now rewrite IH. }
  apply (G item_scores []).
Qed.

(** Every record of the collaborative recommender comes from an entry of
    the accumulator. *)
Lemma collaborative_output_origin (db : database) (uid : string) (limit : nat)
      (ms : R) (sims : list (string * R)) (out : list recommendation) :
  find_similar_users db uid 3 50 = Ok sims ->
  generate_collaborative_recommendations db uid limit ms = Ok out ->
  forall rec, In rec out ->
    exists i sc n,
      In (i, (sc, n))
         (collaborative_item_scores db (to_set (keys (get_user_ratings_dict db uid))) ms sims)
      /\ ObjectId_of i = Ok (_id (doc rec))
      /\ recommendation_score rec = sc / INR n.
Proof.
  intros Hsims.
  unfold generate_collaborative_recommendations.
  rewrite Hsims; cbn [bind].
  destruct (List.length sims =? 0)%nat; [intros [= <-] rec []|].
  rewrite collaborative_candidates_eq; cbn [bind].
  set (acc := collaborative_item_scores db _ ms sims).
  set (top := firstn limit _).
  intros Hout.
  assert (Hinv : forall rec, In rec out ->
                   exists i score count, In (i, score, count) top /\
                     ObjectId_of i = Ok (_id (doc rec)) /\
                     recommendation_score rec = score).
  { revert Hout.
    apply (foldM_invariant
             (fun res => forall rec, In rec res ->
                exists i score count, In (i, score, count) top /\
                  ObjectId_of i = Ok (_id (doc rec)) /\
                  recommendation_score rec = score)); [intros rec []|].
    intros res [[i score] count] res' Hx Hres.
    destruct (ObjectId_of i) as [oid|] eqn:Hoid; cbn [bind]; [|discriminate].
    destruct (find_one_item db oid) as [it|] eqn:Hit; intros [= <-]; [|assumption].
    intros rec Hrec; apply in_app_iff in Hrec; destruct Hrec as [Hrec|[<-|[]]]; auto.
    exists i, score, count; repeat split; auto.
    apply find_one_item_Some in Hit; destruct Hit as [_ <-]; assumption. }
  intros rec Hrec.
  destruct (Hinv rec Hrec) as (i & score & count & Htop & Hoid & Hscore).
  subst top; apply In_firstn, In_sort_desc, in_flat_map in Htop.
  destruct Htop as ([i' [sc n]] & Hin & Hcand).
  unfold candidate_of in Hcand.
  destruct (0 <? n)%nat; [|contradiction].
  destruct Hcand as [[= -> <- ->]|[]].
  exists i, sc, count; auto.
Qed.

(** ** Sorting *)

Lemma descending_tail {A : Type} (key : A -> R) (x : A) (l : list A) :
  descending key (x :: l) -> descending key l.
Proof. inversion 1; subst; [constructor | assumption]. Qed.

Lemma insert_desc_descending {A : Type} (key : A -> R) (x : A) (l : list A) :
  descending key l -> descending key (insert_desc key x l).
Proof.
  induction 1 as [|y|y z l Hyz Hl IH]; simpl.
  - constructor.
  - destruct (Rltb (key x) (key y)) eqn:E.
    + apply Rltb_spec in E; constructor; [lra | constructor].
    + constructor; [|constructor].
      unfold Rltb in E; destruct (Rlt_dec (key x) (key y)); [discriminate | lra].
  - destruct (Rltb (key x) (key y)) eqn:E.
    + simpl in IH.
      destruct (Rltb (key x) (key z)); constructor; auto.
      apply Rltb_spec in E; lra.
    + constructor; [|now constructor].
      unfold Rltb in E; destruct (Rlt_dec (key x) (key y)); [discriminate | lra].
Qed.

Lemma sort_desc_descending {A : Type} (key : A -> R) (l : list A) :
  descending key (sort_desc key l).
Proof.
  induction l as [|x l IH]; simpl; [constructor|].
  now apply insert_desc_descending.
Qed.

(** The sort is stable, so it leaves a descending list as it is. *)
Lemma sort_desc_fixed {A : Type} (key : A -> R) (l : list A) :
  descending key l -> sort_desc key l = l.
Proof.
  induction 1 as [|x|x y l Hxy Hl IH]; simpl; try reflexivity.
  simpl in IH; rewrite IH; simpl.
  now rewrite Rltb_false.
Qed.

Lemma insert_desc_perm {A : Type} (key : A -> R) (x : A) (l : list A) :
  Permutation (insert_desc key x l) (x :: l).
Proof.
  induction l as [|y l IH]; simpl; [reflexivity|].
  destruct (Rltb (key x) (key y)); [|reflexivity].
  rewrite IH; apply perm_swap.
Qed.

Lemma sort_desc_perm {A : Type} (key : A -> R) (l : list A) :
  Permutation (sort_desc key l) l.
Proof.
  induction l as [|x l IH]; simpl; [reflexivity|].
  rewrite insert_desc_perm; now constructor.
Qed.

Lemma descending_firstn {A : Type} (key : A -> R) (n : nat) (l : list A) :
  descending key l -> descending key (firstn n l).
Proof.
  intros H; revert n; induction H as [|x|x y l Hxy Hl IH]; intros n.
  - rewrite firstn_nil; constructor.
  - destruct n as [|[|n]]; simpl; constructor.
  - destruct n as [|[|n]]; simpl; try constructor; auto.
    apply (IH (S n)).
Qed.

Lemma descending_map {A B : Type} (key : A -> R) (key' : B -> R) (g : A -> B)
      (l : list A) :
  (forall x y, In x l -> In y l -> key y <= key x -> key' (g y) <= key' (g x)) ->
  descending key l -> descending key' (map g l).
Proof.
  intros Hmono H; induction H as [|x|x y l Hxy Hl IH]; simpl; try constructor.
  - apply Hmono; simpl; auto.
  - apply IH; intros; apply Hmono; simpl; auto.
Qed.

Lemma NoDup_firstn {A : Type} (n : nat) (l : list A) : NoDup l -> NoDup (firstn n l).
Proof.
  intros H; revert n; induction H as [|x l Hx Hl IH]; intros [|n]; simpl; try constructor.
  - intros Hin; apply Hx; eapply In_firstn; eauto.
  - apply IH.
Qed.

Lemma fold_left_invariant {A S : Type} (P : S -> Prop) (f : S -> A -> S)
      (l : list A) (s : S) :
  P s -> (forall s x, In x l -> P s -> P (f s x)) -> P (fold_left f l s).
Proof.
  revert s; induction l as [|x l IH]; intros s Hs Hstep; simpl; [assumption|].
  apply IH; [apply Hstep; simpl; auto | intros; apply Hstep; simpl; auto].
Qed.

(** ** Stores whose ratings are well formed *)

Lemma user_ratings_origin (db : database) (v i : string) (r : R) :
  dict_get (get_user_ratings_dict db v) i = Some r ->
  exists rd, In rd (ratings db) /\ item_id rd = i /\ r = IZR (rating rd).
Proof.
  unfold get_user_ratings_dict; revert i r.
  apply (fold_left_invariant
           (fun d => forall i r, dict_get d i = Some r ->
                       exists rd, In rd (ratings db) /\ item_id rd = i /\ r = IZR (rating rd))).
  - intros i r; discriminate.
  - intros d x Hx Hd i r.
    destruct (string_dec i (item_id x)) as [->|Hne].
    + rewrite dict_get_set_same; intros [= <-].
      exists x; repeat split; auto.
      unfold find_ratings_of in Hx; apply filter_In in Hx; tauto.
    + rewrite dict_get_set_other by assumption; apply Hd.
Qed.

Lemma consistent_rating (db : database) (rd : rating_doc) :
  consistent db = true -> In rd (ratings db) ->
  1 <= IZR (rating rd) /\
  item_id rd <> "" /\
  exists it, ObjectId_of (item_id rd) = Ok (_id it) /\
             find_one_item db (_id it) = Some it /\
             str (_id it) = item_id rd.
Proof.
  intros Hc Hin; unfold consistent in Hc.
  rewrite forallb_forall in Hc; specialize (Hc rd Hin).
  unfold rating_ok in Hc.
  apply andb_prop in Hc; destruct Hc as [Hc Hres].
  apply andb_prop in Hc; destruct Hc as [Hlo _].
  apply Z.leb_le in Hlo.
  split; [now apply IZR_le|].
  destruct (ObjectId_of (item_id rd)) as [oid|] eqn:Hoid; [|discriminate].
  destruct (find_one_item db oid) as [it|] eqn:Hit; [|discriminate].
  apply String.eqb_eq in Hres.
  pose proof (find_one_item_Some _ _ _ Hit) as [_ Heq]; subst oid.
  split; [|exists it; auto].
  intros E; rewrite E in Hoid; discriminate.
Qed.

Lemma find_similar_users_total (db : database) (uid : string) (m n : nat) :
  exists sims, find_similar_users db uid m n = Ok sims /\
               forall v s, In (v, s) sims -> 0 < s.
Proof.
  unfold find_similar_users.
  destruct (List.length (get_user_ratings_dict db uid) =? 0)%nat.
  { exists []; split; [reflexivity | intros v s []]. }
  match goal with
  | |- context [foldM ?f ?l []] => set (step := f); set (others := l)
  end.
  destruct (foldM_total step others []) as (sims & Hsims).
  { intros s [v d] _; subst step; cbv beta iota.
    destruct (String.eqb v uid); [eexists; reflexivity|].
    destruct (_ <? m)%nat; [eexists; reflexivity|].
    rewrite pearson_correlation_eq; cbn [bind].
    destruct (Rltb 0 _); eexists; reflexivity. }
  rewrite Hsims; cbn [bind]; eexists; split; [reflexivity|].
  intros v s Hin; apply In_firstn, In_sort_desc in Hin.
  revert v s Hin.
  apply (foldM_invariant (fun sims => forall v s, In (v, s) sims -> 0 < s)
                         step others []); [intros v s [] | | exact Hsims].
  intros acc [v d] acc' _ Hacc; subst step; cbv beta iota.
  destruct (String.eqb v uid); [now intros [= <-]|].
  destruct (_ <? m)%nat; [now intros [= <-]|].
  rewrite pearson_correlation_eq; cbn [bind].
  destruct (Rltb 0 _) eqn:E; intros [= <-]; [|assumption].
  intros v' s' Hin; apply in_app_iff in Hin; destruct Hin as [Hin|[[= <- <-]|[]]]; eauto.
  now apply Rltb_spec in E.
Qed.

Lemma py_sum_positive (cs : list R) :
  cs <> [] -> (forall c, In c cs -> 0 < c) -> 0 < py_sum cs.
Proof.
  destruct cs as [|c cs]; [congruence|]; intros _ H.
  rewrite py_sum_cons.
  assert (0 < c) by (apply H; now left).
  assert (0 <= py_sum cs)
    by (apply py_sum_nonneg; intros x Hx; apply Rlt_le, H; now right).
  lra.
Qed.

Lemma contributions_to_origin (db : database) (rated : list string) (ms : R)
      (sims : list (string * R)) (i : string) (c : R) :
  In c (contributions_to db rated ms sims i) ->
  exists v s r, In (v, s) sims /\
                dict_get (get_user_ratings_dict db v) i = Some r /\ c = s * r.
Proof.
  unfold contributions_to; rewrite in_flat_map.
  intros ([v s] & Hin & Hc).
  destruct (Rltb s ms); [contradiction|].
  unfold contribution in Hc.
  destruct (contains rated i); [contradiction|].
  destruct (dict_get (get_user_ratings_dict db v) i) as [r|] eqn:E; [|contradiction].
  destruct Hc as [<-|[]]; exists v, s, r; auto.
Qed.

(** ** The collaborative recommender on a well-formed store *)

Lemma resolve_one_resolves (db : database) (x : string * R * nat) :
  resolves db x ->
  exists it, resolve_one db x = [annotate it (snd (fst x)) "collaborative"] /\
             str (_id it) = fst (fst x).
Proof.
  intros (it & Hoid & Hit & Hstr); exists it; split; [|assumption].
  unfold resolve_one; now rewrite Hoid, Hit.
Qed.

Lemma final_loop_resolved (db : database) (l : list (string * R * nat)) :
  (forall x, In x l -> resolves db x) ->
  forall res,
    foldM (fun result '(i, score, _) =>
             oid <- ObjectId_of i ;;
             match find_one_item db oid with
             | Some it => Ok (result ++ [annotate it score "collaborative"])
             | None => Ok result
             end)
          l res
    = Ok (res ++ flat_map (resolve_one db) l).
Proof.
  induction l as [|[[i score] n] l IH]; intros H res; cbn [foldM flat_map].
  - now rewrite app_nil_r.
  - destruct (H (i, score, n)) as (it & Hoid & Hit & Hstr); [now left|].
    cbn [fst snd] in *.
    unfold resolve_one; cbn [fst snd]; rewrite Hoid; cbn [bind]; rewrite Hit.
    cbn [bind]; rewrite IH by (intros; apply H; now right).
    now rewrite <- app_assoc.
Qed.

Lemma resolve_all_firstn (db : database) (l : list (string * R * nat)) (n : nat) :
  (forall x, In x l -> resolves db x) ->
  flat_map (resolve_one db) (firstn n l) = firstn n (flat_map (resolve_one db) l).
Proof.
  revert n; induction l as [|x l IH]; intros n H.
  - now rewrite !firstn_nil.
  - destruct n as [|n]; [reflexivity|].
    destruct (resolve_one_resolves db x) as (it & Hx & _); [apply H; now left|].
    cbn [firstn flat_map]; rewrite Hx; cbn [app firstn].
    f_equal; apply IH; intros; apply H; now right.
Qed.

Lemma resolve_all_ids (db : database) (l : list (string * R * nat)) :
  (forall x, In x l -> resolves db x) ->
  map id (flat_map (resolve_one db) l) = map (fun x => fst (fst x)) l.
Proof.
  induction l as [|x l IH]; intros H; [reflexivity|].
  destruct (resolve_one_resolves db x) as (it & Hx & Hstr); [apply H; now left|].
  cbn [flat_map map]; rewrite Hx; cbn [app map].
  f_equal; [exact Hstr | apply IH; intros; apply H; now right].
Qed.

Lemma resolve_all_In (db : database) (l : list (string * R * nat)) (rec : recommendation) :
  In rec (flat_map (resolve_one db) l) ->
  exists x, In x l /\ recommendation_score rec = snd (fst x) /\
            normalized_score rec = None /\
            (resolves db x -> id rec = fst (fst x)).
Proof.
  rewrite in_flat_map; intros (x & Hx & Hrec); exists x; split; [assumption|].
  unfold resolve_one in Hrec.
  destruct (ObjectId_of (fst (fst x))) as [oid|] eqn:Hoid; [|contradiction].
  destruct (find_one_item db oid) as [it|] eqn:Hit; [|contradiction].
  destruct Hrec as [<-|[]]; cbn; repeat split.
  intros (it' & Hoid' & Hit' & Hstr').
  rewrite Hoid in Hoid'; injection Hoid' as ->.
  rewrite Hit in Hit'; now injection Hit' as ->.
Qed.

Lemma resolve_all_descending (db : database) (l : list (string * R * nat)) :
  (forall x, In x l -> resolves db x) ->
  descending (fun x => snd (fst x)) l ->
  descending recommendation_score (flat_map (resolve_one db) l).
Proof.
  intros H Hd; induction Hd as [|x|x y l Hxy Hl IH].
  - constructor.
  - destruct (resolve_one_resolves db x) as (it & Hx & _); [apply H; now left|].
    cbn [flat_map]; rewrite Hx; constructor.
  - destruct (resolve_one_resolves db x) as (it & Hx & _); [apply H; now left|].
    destruct (resolve_one_resolves db y) as (it' & Hy & _); [apply H; simpl; auto|].
    specialize (IH (fun z Hz => H z (or_intror Hz))).
    cbn [flat_map] in *; rewrite Hx; rewrite Hy in *; cbn [app] in *.
    constructor; assumption.
Qed.

Lemma candidate_keys (l : dict (R * nat)) (k : string) :
  In k (map (fun x => fst (fst x)) (flat_map candidate_of l)) -> In k (keys l).
Proof.
  induction l as [|[i [sc n]] l IH]; [auto|].
  cbn [flat_map]; rewrite map_app, in_app_iff; intros [H|H].
  - unfold candidate_of in H; destruct (0 <? n)%nat; [|contradiction].
    destruct H as [<-|[]]; now left.
  - right; auto.
Qed.

Lemma candidate_keys_NoDup (l : dict (R * nat)) :
  NoDup (keys l) -> NoDup (map (fun x => fst (fst x)) (flat_map candidate_of l)).
Proof.
  induction l as [|[i [sc n]] l IH]; intros H; [constructor|].
  inversion H as [|? ? Hi Hl]; subst.
  cbn [flat_map candidate_of].
  destruct (0 <? n)%nat; cbn [app map fst]; auto.
  constructor; auto.
  intros Hin; apply Hi; now apply candidate_keys.
Qed.

(** On a well-formed store the collaborative recommender returns, for every
    [limit], the first [limit] records of one ranked list; the list has no
    repeated identifier, positive scores that never increase, and no
    normalized score yet. *)
Lemma collaborative_ranking (db : database) (uid : string) (min_similarity : R) :
  consistent db = true ->
  exists full,
    (forall limit,
        generate_collaborative_recommendations db uid limit min_similarity
        = Ok (firstn limit full)) /\
    NoDup (map id full) /\
    descending recommendation_score full /\
    forall rec, In rec full ->
                id rec <> "" /\ 0 < recommendation_score rec /\ normalized_score rec = None.
Proof.
  intros Hc.
  destruct (find_similar_users_total db uid 3 50) as (sims & Hsims & Hpos).
  set (rated := to_set (keys (get_user_ratings_dict db uid))).
  destruct (collaborative_item_scores_spec db rated min_similarity sims) as [Hnd Hget].
  set (acc := collaborative_item_scores db rated min_similarity sims) in *.
  set (recs := sort_desc (fun rec : string * R * nat => snd (fst rec))
                         (flat_map candidate_of acc)).
  assert (Hrecs : forall x, In x recs ->
                    resolves db x /\ fst (fst x) <> "" /\ 0 < snd (fst x)).
  { intros x Hx; subst recs; apply In_sort_desc, in_flat_map in Hx.
    destruct Hx as ([i [sc n]] & Hin & Hx).
    unfold candidate_of in Hx; destruct (0 <? n)%nat eqn:Hn; [|contradiction].
    destruct Hx as [<-|[]]; cbn [fst snd].
    apply (dict_get_In _ _ _ Hnd) in Hin; rewrite Hget in Hin.
    unfold summary in Hin.
    destruct (contributions_to db rated min_similarity sims i) as [|c cs] eqn:Hcs;
      [discriminate|].
    injection Hin as <- <-.
    assert (Hall : forall c', In c' (c :: cs) ->
              exists v s r, In (v, s) sims /\
                dict_get (get_user_ratings_dict db v) i = Some r /\ c' = s * r).
    { intros c' Hc'; rewrite <- Hcs in Hc'; eapply contributions_to_origin; eauto. }
    destruct (Hall c (or_introl eq_refl)) as (v & s & r & Hv & Hr & _).
    destruct (user_ratings_origin _ _ _ _ Hr) as (rd & Hrd & Hid & _).
    destruct (consistent_rating db rd Hc Hrd) as (_ & Hne & it & Hres).
    rewrite Hid in *.
    split; [exists it; exact Hres|]; split; [assumption|].
    apply Rdiv_lt_0_compat; [|apply lt_0_INR; simpl; lia].
    apply py_sum_positive; [discriminate|].
    intros c' Hc'; destruct (Hall c' Hc') as (v' & s' & r' & Hv' & Hr' & ->).
    destruct (user_ratings_origin _ _ _ _ Hr') as (rd' & Hrd' & _ & ->).
    destruct (consistent_rating db rd' Hc Hrd') as (Hlo & _).
    pose proof (Hpos v' s' Hv'); nra. }
  exists (flat_map (resolve_one db) recs); repeat split.
  - intros limit; unfold generate_collaborative_recommendations.
    rewrite Hsims; cbn [bind].
    fold rated; fold acc.
    destruct (List.length sims =? 0)%nat eqn:Hlen.
    + apply Nat.eqb_eq, length_zero_iff_nil in Hlen.
      subst recs acc; rewrite Hlen; cbn; now rewrite firstn_nil.
    + rewrite collaborative_candidates_eq; cbn [bind]; fold recs.
      rewrite final_loop_resolved
        by (intros x Hx; apply In_firstn in Hx; now apply Hrecs).
      cbn [app]; f_equal; apply resolve_all_firstn; intros; now apply Hrecs.
  - rewrite resolve_all_ids by (intros; now apply Hrecs).
    subst recs; eapply Permutation_NoDup.
    + apply Permutation_map, Permutation_sym, sort_desc_perm.
    + now apply candidate_keys_NoDup.
  - apply resolve_all_descending; [intros; now apply Hrecs|].
    apply sort_desc_descending.
  - destruct (resolve_all_In _ _ _ H) as (x & Hx & _ & _ & Hid).
    destruct (Hrecs x Hx) as (Hres & Hne & _); now rewrite Hid.
  - destruct (resolve_all_In _ _ _ H) as (x & Hx & -> & _).
    now apply Hrecs.
  - now destruct (resolve_all_In _ _ _ H) as (x & _ & _ & ? & _).
Qed.

Lemma user_ratings_keys (db : database) (uid : string) (r : rating_doc) :
  In r (find_ratings_of db uid) -> In (item_id r) (keys (get_user_ratings_dict db uid)).
Proof.
  unfold get_user_ratings_dict.
  assert (G : forall l (d : dict R),
             In (item_id r) (keys d) \/ In r l ->
             In (item_id r)
                (keys (fold_left (fun d r => dict_set d (item_id r) (IZR (rating r))) l d))).
  { induction l as [|x l IH]; intros d [H|H]; cbn [fold_left]; auto; try contradiction.
    - apply IH; left; rewrite In_keys_dict_set; auto.
    - apply IH; destruct H as [->|H]; [left | now right].
      rewrite In_keys_dict_set; auto. }
  intros H; apply G; now right.
Qed.

(** On a well-formed store the collaborative recommender, too, returns no
    item that a rating of the user refers to. *)
Lemma collaborative_excludes_rated_when_consistent (db : database) (uid : string)
      (limit : nat) (min_similarity : R) (out : list recommendation) :
  consistent db = true ->
  generate_collaborative_recommendations db uid limit min_similarity = Ok out ->
  forall rec r, In rec out -> In r (find_ratings_of db uid) ->
                ObjectId_of (item_id r) <> Ok (_id (doc rec)).
Proof.
  intros Hc Hout rec r Hrec Hr Heq.
  destruct (find_similar_users_total db uid 3 50) as (sims & Hsims & _).
  destruct (collaborative_output_origin db uid limit min_similarity sims out Hsims Hout rec Hrec)
    as (i & sc & n & Hin & Hoid & _).
  set (rated := to_set (keys (get_user_ratings_dict db uid))) in *.
  destruct (collaborative_item_scores_spec db rated min_similarity sims) as [Hnd Hget].
  apply (dict_get_In _ _ _ Hnd) in Hin; rewrite Hget in Hin.
  destruct (contains rated i) eqn:Hrated;
    [rewrite contributions_to_rated in Hin by assumption; discriminate|].
  apply contains_false in Hrated; subst rated; rewrite In_to_set in Hrated.
  apply Hrated.
  unfold summary in Hin.
  destruct (contributions_to db _ min_similarity sims i) as [|c cs] eqn:Hcs; [discriminate|].
  destruct (contributions_to_origin
              db (to_set (keys (get_user_ratings_dict db uid))) min_similarity sims i c)
    as (v & s & x & _ & Hx & _); [rewrite Hcs; now left|].
  destruct (user_ratings_origin _ _ _ _ Hx) as (rd & Hrd & Hid & _).
  destruct (consistent_rating db rd Hc Hrd) as (_ & _ & it' & Hoid' & _ & Hstr').
  assert (Hr' : In r (ratings db))
    by (unfold find_ratings_of in Hr; apply filter_In in Hr; tauto).
  destruct (consistent_rating db r Hc Hr') as (_ & _ & it & Hoidr & _ & Hstr).
  rewrite Hid in *.
  assert (E : _id it = _id it') by congruence.
  replace i with (item_id r) by congruence.
  now apply user_ratings_keys.
Qed.

(** ** The blender when only the collaborative list has records *)

Lemma mapM_pure {A B : Type} (f : A -> result B) (g : A -> B) (l : list A) :
  (forall x, In x l -> f x = Ok (g x)) -> mapM f l = Ok (map g l).
Proof.
  induction l as [|x l IH]; intros H; [reflexivity|].
  cbn [mapM map]; rewrite (H x) by now left.
  cbn [bind]; rewrite IH by (intros; apply H; now right).
  reflexivity.
Qed.

Lemma py_max_ge_first (x : R) (l : list R) : x <= py_max x l.
Proof.
  unfold py_max; revert x; induction l as [|y l IH]; intros x; simpl; [lra|].
  eapply Rle_trans; [apply (Rmax_l x y) | apply IH].
Qed.

Lemma dict_set_fresh {V : Type} (d : dict V) (k : string) (v : V) :
  ~ In k (keys d) -> dict_set d k v = d ++ [(k, v)].
Proof.
  induction d as [|[k' v'] d IH]; simpl; intros H; [reflexivity|].
  destruct (String.eqb k k') eqn:E.
  - apply String.eqb_eq in E; subst; tauto.
  - rewrite IH by tauto; reflexivity.
Qed.

Lemma merge_collaborative_fresh (recs : list recommendation) (acc : dict hybrid_entry) :
  NoDup (map id recs) ->
  (forall rec, In rec recs -> id rec <> "" /\ ~ In (id rec) (keys acc)) ->
  fold_left merge_collaborative recs acc = acc ++ map collaborative_entry recs.
Proof.
  revert acc; induction recs as [|rec recs IH]; intros acc Hnd H.
  - cbn; now rewrite app_nil_r.
  - inversion Hnd as [|? ? Hrec Hrecs]; subst.
    destruct (H rec (or_introl eq_refl)) as [Hne Hfresh].
    cbn [fold_left map]; unfold merge_collaborative at 2.
    apply String.eqb_neq in Hne; rewrite Hne.
    unfold get_or; rewrite (dict_get_notin _ _ Hfresh).
    rewrite dict_set_fresh by assumption.
    rewrite IH; [now rewrite <- app_assoc | assumption|].
    intros r Hr; destruct (H r (or_intror Hr)) as [Hr1 Hr2]; split; [assumption|].
    unfold keys; rewrite map_app, in_app_iff; cbn.
    intros [Hin|[E|[]]]; [now apply Hr2|].
    apply Hrec; rewrite E; now apply in_map.
Qed.

Lemma blend_loop (cw tw : R) (entries : dict hybrid_entry)
      (g : string * hybrid_entry -> recommendation) :
  (forall e, In e entries -> blend cw tw (snd e) = Some (g e)) ->
  forall acc,
    fold_left (fun recommendations '(_, data) =>
                 match blend cw tw data with
                 | Some it => recommendations ++ [it]
                 | None => recommendations
                 end)
              entries acc
    = acc ++ map g entries.
Proof.
  induction entries as [|[k data] entries IH]; intros H acc; cbn [fold_left map].
  - now rewrite app_nil_r.
  - pose proof (H (k, data) (or_introl eq_refl)) as Hk; cbn [snd] in Hk.
    rewrite Hk, IH by (intros; apply H; now right).
    now rewrite <- app_assoc.
Qed.

Lemma normalize_scores_positive (recs : list recommendation) :
  recs <> [] ->
  (forall rec, In rec recs -> 0 < recommendation_score rec) ->
  exists m, 0 < m /\
            normalize_scores recs
            = Ok (map (fun rec => with_normalized_score rec (recommendation_score rec / m))
                      recs).
Proof.
  destruct recs as [|r rs]; [congruence|]; intros _ Hpos.
  exists (py_max (recommendation_score r) (map recommendation_score rs)).
  assert (Hmax : 0 < py_max (recommendation_score r) (map recommendation_score rs)).
  { pose proof (py_max_ge_first (recommendation_score r) (map recommendation_score rs)).
    pose proof (Hpos r (or_introl eq_refl)); lra. }
  split; [assumption|].
  unfold normalize_scores.
  rewrite Reqb_false by lra.
  apply mapM_pure; intros x _.
  rewrite pydiv_ok by lra; reflexivity.
Qed.

Lemma hybrid_of_collaborative_only (db : database) (uid : string) (limit : nat)
      (min_similarity : R) (C2 : list recommendation) :
  generate_collaborative_recommendations db uid (limit * 2) min_similarity = Ok C2 ->
  generate_content_based_recommendations db uid (limit * 2) min_similarity = Ok [] ->
  NoDup (map id C2) ->
  descending recommendation_score C2 ->
  (forall rec, In rec C2 ->
               id rec <> "" /\ 0 < recommendation_score rec /\ normalized_score rec = None) ->
  exists H, generate_hybrid_recommendations db uid limit 1 0 min_similarity = Ok H /\
            map id H = firstn limit (map id C2).
Proof.
  intros Hcollab Hcontent Hnd Hdesc Hprops.
  unfold generate_hybrid_recommendations.
  rewrite Hcollab, Hcontent; cbn [bind].
  destruct C2 as [|r rs].
  { cbn; exists []; now rewrite !firstn_nil. }
  remember (r :: rs) as C2 eqn:EC2.
  destruct (normalize_scores_positive C2) as (max_score & Hmax & Hnorm);
    [rewrite EC2; discriminate | intros; now apply Hprops|].
  set (normalized := map _ C2) in Hnorm.
  rewrite Hnorm; cbn [bind normalize_scores fold_left].
  assert (Hids : map id normalized = map id C2).
  { subst normalized; rewrite map_map; reflexivity. }
  rewrite (merge_collaborative_fresh normalized []).
  2: now rewrite Hids.
  2: { intros rec Hrec; split; [|intros []].
       subst normalized; apply in_map_iff in Hrec; destruct Hrec as (x & <- & Hx).
       cbn; now apply Hprops. }
  cbn [app].
  set (blended := fun e : string * hybrid_entry =>
         match blend 1 0 (snd e) with Some it => it | None => r end).
  rewrite (blend_loop 1 0 _ blended).
  2: { intros e He; apply in_map_iff in He; destruct He as (rec & <- & _).
       reflexivity. }
  cbn [app]; eexists; split; [reflexivity|].
  rewrite sort_desc_fixed.
  - rewrite <- firstn_map, !map_map; cbn.
    now rewrite <- Hids.
  - subst normalized; rewrite !map_map.
    apply (descending_map recommendation_score); [|assumption].
    intros x y _ _ Hxy; cbn.
    unfold normalized_or_zero; cbn.
    apply Rmult_le_compat_r with (r := / max_score) in Hxy;
      [|apply Rlt_le, Rinv_0_lt_compat; assumption].
    unfold Rdiv; lra.
Qed.

(** C5 (as amended). On a store whose ratings are well formed, when the
    content-based recommender has no record for the user, the hybrid
    recommender with weights 1 and 0 returns the items of the collaborative
    recommender, for the same user, limit and minimum similarity, in the
    same order. *)
Theorem hybrid_matches_collaborative_when_content_is_empty :
  forall (db : database) (uid : string) (limit : nat) (min_similarity : R),
    consistent db = true ->
    generate_content_based_recommendations db uid (limit * 2) min_similarity = Ok [] ->
    exists H C,
      generate_hybrid_recommendations db uid limit 1 0 min_similarity = Ok H /\
      generate_collaborative_recommendations db uid limit min_similarity = Ok C /\
      map id H = map id C.
Proof.
  intros db uid limit ms Hc Hcontent.
  destruct (collaborative_ranking db uid ms Hc) as (full & Hfull & Hnd & Hdesc & Hprops).
  destruct (hybrid_of_collaborative_only db uid limit ms (firstn (limit * 2) full))
    as (H & HH & Hids).
  - apply Hfull.
  - assumption.
  - rewrite <- firstn_map; now apply NoDup_firstn.
  - now apply descending_firstn.
  - intros rec Hrec; apply Hprops; eapply In_firstn; eauto.
  - exists H, (firstn limit full); repeat split; [assumption | apply Hfull|].
    rewrite Hids, <- !firstn_map, firstn_firstn.
    f_equal; lia.
Qed.

(** ** A store for the blender *)

Ltac eval_oids :=
  repeat match goal with
    | |- context [ObjectId_of ?s] =>
        let v := eval vm_compute in (ObjectId_of s) in
        change (ObjectId_of s) with v
    end.

Ltac rmax :=
  repeat match goal with
    | |- context [Rmax ?a ?b] =>
        first [rewrite (Rmax_left a b) by lra | rewrite (Rmax_right a b) by lra]
    end.

Ltac crunch :=
  repeat (progress (cbn; eval_oids; try unfold pydiv, math_sqrt; rdecide)).

Lemma boost_store_neighbours :
  find_similar_users boost_store "U" 3 50 = Ok [("V", 1)].
Proof.
  unfold find_similar_users; cbn.
  rewrite pearson_correlation_eq; cbn.
  unfold sq_dev_over, co_dev_over, mean_over; cbn.
  sqrt_is 2; rdecide; cbn.
  do 3 f_equal; lra.
Qed.

Lemma boost_store_scores :
  collaborative_item_scores boost_store
    (to_set (keys (get_user_ratings_dict boost_store "U"))) (3 / 10) [("V", 1)]
  = [(item_bk, (0 + 1 * 5, 1%nat)); (item_mv, (0 + 1 * 5, 1%nat))].
Proof. unfold collaborative_item_scores; cbn; rdecide; reflexivity. Qed.

Lemma boost_store_collaborative (n : nat) :
  generate_collaborative_recommendations boost_store "U" (S (S n)) (3 / 10)
  = Ok [annotate (book item_bk "a book") 5 "collaborative";
        annotate (movie item_mv "a movie") 5 "collaborative"].
Proof.
  unfold generate_collaborative_recommendations.
  rewrite boost_store_neighbours; cbn [bind List.length Nat.eqb].
  rewrite boost_store_scores, collaborative_candidates_eq.
  cbn [bind flat_map candidate_of Nat.ltb Nat.leb app INR].
  unfold sort_desc; cbn [fold_right]; cbn [insert_desc fst snd]; rdecide.
  cbn [firstn]; cbn [foldM]; eval_oids; cbn [bind].
  replace (find_one_item boost_store (Oid item_bk)) with (Some (book item_bk "a book"))
    by (vm_compute; reflexivity).
  cbn [bind app].
  replace (find_one_item boost_store (Oid item_mv)) with (Some (movie item_mv "a movie"))
    by (vm_compute; reflexivity).
  cbn [bind app].
  rewrite firstn_nil; cbn [foldM].
  replace ((0 + 1 * 5) / 1) with 5 by lra; reflexivity.
Qed.

Lemma boost_store_profile :
  get_user_preferred_features boost_store "U" 3 = Ok [("type:movie", 1)].
Proof.
  unfold get_user_preferred_features; crunch.
  do 3 f_equal; lra.
Qed.

Lemma boost_store_content (n : nat) :
  generate_content_based_recommendations boost_store "U" (S n) (3 / 10)
  = Ok [annotate (movie item_mv "a movie") 1 "content_based"].
Proof.
  unfold generate_content_based_recommendations.
  rewrite boost_store_profile; crunch.
  rewrite !cosine_similarity_features_eq; cbn.
  unfold norm_over; cbn.
  repeat sqrt_is 1; crunch.
  rewrite firstn_nil; cbn [map].
  replace ((0 + 1 * 1) / (1 * 1)) with 1 by lra; reflexivity.
Qed.

(** ** Sets as lists *)

Lemma In_set_union (s1 s2 : list string) (k : string) :
  In k (set_union s1 s2) <-> In k s1 \/ In k s2.
Proof.
  unfold set_union; rewrite in_app_iff, filter_In, negb_true_iff, contains_false.
  destruct (in_dec string_dec k s1); tauto.
Qed.

Lemma NoDup_set_union (s1 s2 : list string) :
  NoDup s1 -> NoDup s2 -> NoDup (set_union s1 s2).
Proof.
  intros H1 H2; unfold set_union.
  apply NoDup_app; [assumption | now apply NoDup_filter|].
  intros k Hk Hk'; apply filter_In in Hk'; destruct Hk' as [_ Hk'].
  apply negb_true_iff, contains_false in Hk'; contradiction.
Qed.

Lemma In_set_inter (s1 s2 : list string) (k : string) :
  In k (set_inter s1 s2) <-> In k s1 /\ In k s2.
Proof. unfold set_inter; rewrite filter_In, contains_In; tauto. Qed.

Lemma py_sum_positive_element (l : list R) (y : R) :
  (forall x, In x l -> 0 <= x) -> In y l -> 0 < y -> 0 < py_sum l.
Proof.
  intros Hpos Hin Hy.
  pose proof (py_sum_nonneg l Hpos) as Hs.
  destruct (Req_dec_T (py_sum l) 0) as [Hz|Hnz]; [|lra].
  pose proof (py_sum_zero l Hpos Hz y Hin); lra.
Qed.

(** ** Jaccard similarity *)

Lemma set_inter_self (s : list string) : set_inter s s = s.
Proof.
  unfold set_inter.
  assert (G : forall l, (forall k, In k l -> In k s) -> filter (contains s) l = l).
  { induction l as [|x l IH]; intros H; [reflexivity|].
    cbn [filter]; rewrite (proj2 (contains_In s x)) by (apply H; now left).
    f_equal; apply IH; intros; apply H; now right. }
  now apply G.
Qed.

Lemma set_union_self (s : list string) : set_union s s = s.
Proof.
  unfold set_union.
  rewrite filter_all_false; [apply app_nil_r|].
  intros k Hk; apply negb_false_iff, contains_In, Hk.
Qed.

Lemma set_inter_le_union (s1 s2 : list string) :
  (List.length (set_inter s1 s2) <= List.length (set_union s1 s2))%nat.
Proof.
  unfold set_inter, set_union; rewrite length_app.
  pose proof (filter_length_le (contains s2) s1); lia.
Qed.

(** X7. Jaccard similarity never raises and lies between 0 and 1; it is 1
    between a non-empty set and itself; it is symmetric on sets (lists
    without repetition). *)
Theorem jaccard_similarity_contract :
  forall s1 s2 : list string,
    (exists j, jaccard_similarity s1 s2 = Ok j /\ 0 <= j <= 1) /\
    (s1 <> [] -> jaccard_similarity s1 s1 = Ok 1) /\
    (NoDup s1 -> NoDup s2 -> jaccard_similarity s1 s2 = jaccard_similarity s2 s1).
Proof.
  intros s1 s2; unfold jaccard_similarity; cbv zeta; repeat split.
  - destruct (List.length (set_union s1 s2) =? 0)%nat eqn:E.
    + exists 0; split; [reflexivity | lra].
    + apply Nat.eqb_neq in E.
      assert (Hu : 0 < INR (List.length (set_union s1 s2))) by (apply lt_0_INR; lia).
      rewrite pydiv_ok by lra.
      eexists; split; [reflexivity|].
      pose proof (set_inter_le_union s1 s2) as Hle; apply le_INR in Hle.
      pose proof (pos_INR (List.length (set_inter s1 s2))) as Hi.
      split.
      * apply Rmult_le_pos; [assumption | apply Rlt_le, Rinv_0_lt_compat, Hu].
      * apply Rmult_le_reg_r with (INR (List.length (set_union s1 s2))); [assumption|].
        unfold Rdiv; rewrite Rmult_assoc, Rinv_l by lra; lra.
  - intros Hne; rewrite set_inter_self, set_union_self.
    destruct s1 as [|x s]; [congruence|].
    assert (Hn : INR (List.length (x :: s)) <> 0) by (apply not_0_INR; simpl; lia).
    replace (List.length (x :: s) =? 0)%nat with false by reflexivity.
    rewrite pydiv_ok by assumption; f_equal; now field.
  - intros N1 N2.
    assert (Hi : List.length (set_inter s1 s2) = List.length (set_inter s2 s1)).
    { apply Permutation_length, NoDup_Permutation; try now apply NoDup_filter.
      intros k; rewrite !In_set_inter; tauto. }
    assert (Hu : List.length (set_union s1 s2) = List.length (set_union s2 s1)).
    { apply Permutation_length, NoDup_Permutation; try now apply NoDup_set_union.
      intros k; rewrite !In_set_union; tauto. }
    now rewrite Hi, Hu.
Qed.

(** ** The feature extractor *)

Lemma append_inv_head (p x y : string) : (p ++ x)%string = (p ++ y)%string -> x = y.
Proof. induction p as [|c p IH]; simpl; [auto | intros [= H]; auto]. Qed.

Lemma dict_get_fold_set_prefix {V : Type} (p : string) (w : V) (l : list string)
      (d : dict V) (y : string) :
  dict_get (fold_left (fun f x => dict_set f (p ++ x)%string w) l d) (p ++ y)%string
  = if contains l y then Some w else dict_get d (p ++ y)%string.
Proof.
  revert d; induction l as [|x l IH]; intros d; cbn [fold_left]; [reflexivity|].
  rewrite IH; unfold contains; cbn [existsb]; fold (contains l y).
  destruct (contains l y); [now rewrite orb_true_r|]; rewrite orb_false_r.
  destruct (String.eqb y x) eqn:E.
  - apply String.eqb_eq in E; subst; apply dict_get_set_same.
  - apply String.eqb_neq in E; apply dict_get_set_other.
    intros H; apply E; now apply append_inv_head in H.
Qed.

Lemma In_dict_set {V : Type} (d : dict V) (k k' : string) (v v' : V) :
  In (k, v) (dict_set d k' v') -> (k = k' /\ v = v') \/ In (k, v) d.
Proof.
  induction d as [|[k0 v0] d IH]; simpl.
  - intros [[= <- <-]|[]]; auto.
  - destruct (String.eqb k' k0) eqn:E; simpl.
    + apply String.eqb_eq in E; subst; intros [[= <- <-]|H]; auto.
    + intros [H|H]; auto. destruct (IH H); auto.
Qed.

Lemma unit_or_half_set (d : dict R) (k : string) (w : R) :
  w = 1 \/ w = 1 / 2 -> unit_or_half d -> unit_or_half (dict_set d k w).
Proof.
  intros Hw Hd k' w' Hin.
  destruct (In_dict_set _ _ _ _ _ Hin) as [[_ ->]|H]; [assumption | eauto].
Qed.

Lemma unit_or_half_fold (f : string -> string) (w : R) (l : list string) (d : dict R) :
  w = 1 \/ w = 1 / 2 -> unit_or_half d ->
  unit_or_half (fold_left (fun acc x => dict_set acc (f x) w) l d).
Proof.
  intros Hw; revert d; induction l as [|x l IH]; intros d Hd; cbn [fold_left]; auto.
  now apply IH, unit_or_half_set.
Qed.

Ltac features_cases :=
  unfold extract_item_features; cbv zeta;
  repeat match goal with
    | |- context [if String.eqb ?a ?b then _ else _] => destruct (String.eqb a b)
    end;
  repeat match goal with
    | |- context [match truthy ?o with _ => _ end] => destruct (truthy o)
    end;
  repeat match goal with
    | |- context [match cast ?m with _ => _ end] => destruct (cast m) as [[|? ?]|]
    end.

Ltac skip_other_keys :=
  repeat first
    [ rewrite dict_get_set_other by (simpl; discriminate)
    | rewrite (dict_get_fold_set_other (fun x => "actor:" ++ x)%string)
        by (intros ?; simpl; discriminate)
    | rewrite (dict_get_fold_set_other (fun x => "tag:" ++ x)%string)
        by (intros ?; simpl; discriminate)
    | rewrite (dict_get_fold_set_other (fun x => "genre:" ++ x)%string)
        by (intros ?; simpl; discriminate) ].

Lemma extract_item_features_weights (it : item) : unit_or_half (extract_item_features it).
Proof.
  features_cases;
    repeat first [ apply unit_or_half_set; [auto|]
                 | apply unit_or_half_fold; [auto|] ];
    intros k w [].
Qed.

Lemma extract_item_features_keys (it : item) : NoDup (keys (extract_item_features it)).
Proof.
  features_cases;
    repeat first [ apply NoDup_keys_dict_set
                 | apply (NoDup_keys_fold_set (fun x => ("actor:" ++ x)%string) (fun _ => 1 / 2))
                 | apply (NoDup_keys_fold_set (fun x => ("tag:" ++ x)%string) (fun _ => 1))
                 | apply (NoDup_keys_fold_set (fun x => ("genre:" ++ x)%string) (fun _ => 1)) ];
    constructor.
Qed.

Lemma extract_item_features_type (it : item) :
  dict_get (extract_item_features it) ("type:" ++ item_type it)%string = Some 1.
Proof. features_cases; skip_other_keys; apply dict_get_set_same. Qed.

(** X8. The feature vector of every item is a dictionary without repeated
    key whose weights are all 1 or 0.5, and it holds [type:<item_type>] with
    weight 1: it is never empty and never of norm zero. *)
Theorem extract_item_features_shape :
  forall it : item,
    NoDup (keys (extract_item_features it)) /\
    (forall k w, In (k, w) (extract_item_features it) -> w = 1 \/ w = 1 / 2) /\
    dict_get (extract_item_features it) ("type:" ++ item_type it)%string = Some 1 /\
    0 < norm_over (keys (extract_item_features it)) (extract_item_features it).
Proof.
  intros it; split; [apply extract_item_features_keys|].
  split; [apply extract_item_features_weights|].
  split; [apply extract_item_features_type|].
  pose proof (extract_item_features_type it) as Ht.
  unfold norm_over; apply sqrt_lt_R0.
  apply (py_sum_positive_element _ (1 ^ 2)); [apply squares_nonneg | | simpl; lra].
  apply in_map_iff; exists ("type:" ++ item_type it)%string; split.
  - unfold get_or; now rewrite Ht.
  - apply dict_get_Some_In in Ht; unfold keys.
    apply in_map_iff; now exists ("type:" ++ item_type it, 1)%string.
Qed.

(** X9. Whatever the type of the item, its feature vector holds
    [genre:<g>] with weight 1 exactly for the genres [g] of the item, and
    [tag:<t>] with weight 1 exactly for its tags [t]. *)
Theorem extract_item_features_genres_tags :
  forall (it : item) (x : string),
    (dict_get (extract_item_features it) ("genre:" ++ x)%string = Some 1
     <-> In x (genres it)) /\
    (dict_get (extract_item_features it) ("tag:" ++ x)%string = Some 1
     <-> In x (tags it)).
Proof.
  intros it x; split.
  - rewrite <- contains_In.
    features_cases; skip_other_keys;
      rewrite dict_get_fold_set_prefix; cbn [dict_get];
      (destruct (contains (genres it) x); split; congruence).
  - rewrite <- contains_In.
    features_cases; skip_other_keys;
      rewrite dict_get_fold_set_prefix;
      rewrite (dict_get_fold_set_other (fun x => "genre:" ++ x)%string)
        by (intros ?; simpl; discriminate);
      cbn [dict_get];
      (destruct (contains (tags it) x); split; congruence).
Qed.

Lemma String_eqb_false (a b : string) : a <> b -> String.eqb a b = false.
Proof. apply String.eqb_neq. Qed.

Ltac other_type_branches :=
  repeat match goal with
    | |- context [if String.eqb ?a ?b then _ else _] => destruct (String.eqb a b)
    end;
  repeat match goal with
    | |- context [match truthy ?o with _ => _ end] => destruct (truthy o)
    end;
  repeat match goal with
    | |- context [match cast ?m with _ => _ end] => destruct (cast m) as [[|? ?]|]
    end.

(** The case of a key that no branch of the item's own type writes. *)
Ltac absent_key :=
  other_type_branches; skip_other_keys; cbn [dict_get];
  split; try discriminate; tauto.

(** The case of the key [p ++ x] written with weight [w] when [o] is true. *)
Ltac written_key o x :=
  destruct (truthy o) as [x0|];
  [ destruct (string_dec x0 x) as [->|Hne];
    [ rewrite dict_get_set_same; tauto
    | rewrite dict_get_set_other
        by (intros H; apply append_inv_head in H; congruence) ]
  | ];
  skip_other_keys; cbn [dict_get]; split; try discriminate;
  intros (_ & H); congruence.

Lemma movie_director_feature (it : item) (d : string) :
  dict_get (extract_item_features it) ("director:" ++ d)%string = Some 1
  <-> item_type it = "movie" /\ director (metadata it) = Some d /\ d <> "".
Proof.
  rewrite <- truthy_Some.
  unfold extract_item_features; cbv zeta.
  destruct (string_dec (item_type it) "movie") as [E|E].
  - rewrite E; cbn [String.eqb Ascii.eqb Bool.eqb].
    destruct (cast (metadata it)) as [[|? ?]|]; skip_other_keys;
      written_key (director (metadata it)) d.
  - rewrite (String_eqb_false _ _ E); absent_key.
Qed.

Lemma movie_actor_feature (it : item) (a : string) :
  dict_get (extract_item_features it) ("actor:" ++ a)%string = Some (1 / 2)
  <-> item_type it = "movie" /\
      exists l, cast (metadata it) = Some l /\ In a (firstn 5 l).
Proof.
  unfold extract_item_features; cbv zeta.
  destruct (string_dec (item_type it) "movie") as [E|E].
  - rewrite E; cbn [String.eqb Ascii.eqb Bool.eqb].
    destruct (cast (metadata it)) as [[|a0 l0]|] eqn:Ec.
    + destruct (truthy (director (metadata it))); skip_other_keys; cbn [dict_get];
        (split; [discriminate | intros (_ & l & [= <-] & Hin); now rewrite firstn_nil in Hin]).
    + rewrite dict_get_fold_set_prefix.
      destruct (contains (firstn 5 (a0 :: l0)) a) eqn:Hc.
      * apply contains_In in Hc; split; [|reflexivity].
        intros _; split; [reflexivity | now exists (a0 :: l0)].
      * apply contains_false in Hc.
        destruct (truthy (director (metadata it))); skip_other_keys; cbn [dict_get];
          (split; [discriminate | intros (_ & l & [= <-] & Hin); contradiction]).
    + destruct (truthy (director (metadata it))); skip_other_keys; cbn [dict_get];
        (split; [discriminate | intros (_ & l & H & _); discriminate]).
  - rewrite (String_eqb_false _ _ E); absent_key.
Qed.

Lemma product_brand_feature (it : item) (b : string) :
  dict_get (extract_item_features it) ("brand:" ++ b)%string = Some 1
  <-> item_type it = "product" /\ brand (metadata it) = Some b /\ b <> "".
Proof.
  rewrite <- truthy_Some.
  unfold extract_item_features; cbv zeta.
  destruct (string_dec (item_type it) "product") as [E|E].
  - rewrite E; cbn [String.eqb Ascii.eqb Bool.eqb].
    destruct (truthy (category it)); skip_other_keys;
      written_key (brand (metadata it)) b.
  - rewrite (String_eqb_false _ _ E); absent_key.
Qed.

Lemma book_author_feature (it : item) (a : string) :
  dict_get (extract_item_features it) ("author:" ++ a)%string = Some 1
  <-> item_type it = "book" /\ author (metadata it) = Some a /\ a <> "".
Proof.
  rewrite <- truthy_Some.
  unfold extract_item_features; cbv zeta.
  destruct (string_dec (item_type it) "book") as [E|E].
  - rewrite E; cbn [String.eqb Ascii.eqb Bool.eqb].
    destruct (truthy (publisher (metadata it))); skip_other_keys;
      written_key (author (metadata it)) a.
  - rewrite (String_eqb_false _ _ E); absent_key.
Qed.

Lemma book_publisher_feature (it : item) (p : string) :
  dict_get (extract_item_features it) ("publisher:" ++ p)%string = Some (1 / 2)
  <-> item_type it = "book" /\ publisher (metadata it) = Some p /\ p <> "".
Proof.
  rewrite <- truthy_Some.
  unfold extract_item_features; cbv zeta.
  destruct (string_dec (item_type it) "book") as [E|E].
  - rewrite E; cbn [String.eqb Ascii.eqb Bool.eqb].
    destruct (truthy (publisher (metadata it))) as [x0|];
      [ destruct (string_dec x0 p) as [->|Hne];
        [ rewrite dict_get_set_same; tauto
        | rewrite dict_get_set_other
            by (intros H; apply append_inv_head in H; congruence) ]
      | ];
      (destruct (truthy (author (metadata it))); skip_other_keys; cbn [dict_get];
       split; try discriminate; intros (_ & H); congruence).
  - rewrite (String_eqb_false _ _ E); absent_key.
Qed.

(** X10. The features taken from the metadata map depend on the type of the
    item: [director:<d>] (weight 1) and [actor:<a>] (weight 0.5, for the
    first five members of the cast only) for movies, [brand:<b>] (weight 1)
    for products, [author:<a>] (weight 1) and [publisher:<p>] (weight 0.5)
    for books; each is present exactly when the item has that type and the
    field holds that non-empty value. *)
Theorem extract_item_features_metadata :
  forall (it : item) (x : string),
    (dict_get (extract_item_features it) ("director:" ++ x)%string = Some 1
     <-> item_type it = "movie" /\ director (metadata it) = Some x /\ x <> "") /\
    (dict_get (extract_item_features it) ("actor:" ++ x)%string = Some (1 / 2)
     <-> item_type it = "movie" /\
         exists l, cast (metadata it) = Some l /\ In x (firstn 5 l)) /\
    (dict_get (extract_item_features it) ("brand:" ++ x)%string = Some 1
     <-> item_type it = "product" /\ brand (metadata it) = Some x /\ x <> "") /\
    (dict_get (extract_item_features it) ("author:" ++ x)%string = Some 1
     <-> item_type it = "book" /\ author (metadata it) = Some x /\ x <> "") /\
    (dict_get (extract_item_features it) ("publisher:" ++ x)%string = Some (1 / 2)
     <-> item_type it = "book" /\ publisher (metadata it) = Some x /\ x <> "").
Proof.
  intros it x.
  split; [apply movie_director_feature|].
  split; [apply movie_actor_feature|].
  split; [apply product_brand_feature|].
  split; [apply book_author_feature | apply book_publisher_feature].
Qed.

(** ** The rating maps of all users *)

Lemma all_users_fold (l : list rating_doc) :
  let all :=
    fold_left
      (fun user_ratings r =>
         dict_set user_ratings (user_id r)
                  (dict_set (get_or user_ratings (user_id r) []) (item_id r)
                            (IZR (rating r))))
      l [] in
  NoDup (keys all) /\
  forall u,
    dict_get all u
    = match filter (fun r => String.eqb (user_id r) u) l with
      | [] => None
      | _ => Some (fold_left (fun d r => dict_set d (item_id r) (IZR (rating r)))
                             (filter (fun r => String.eqb (user_id r) u) l) [])
      end.
Proof.
  induction l as [|r l IH] using rev_ind.
  - split; [constructor | reflexivity].
  - cbv zeta in *; destruct IH as [IHnd IHget].
    rewrite fold_left_app; cbn [fold_left].
    match type of IHnd with NoDup (keys ?x) => set (all := x) in * end.
    split; [now apply NoDup_keys_dict_set|].
    intros u; rewrite filter_app; cbn [filter].
    destruct (String.eqb (user_id r) u) eqn:E.
    + apply String.eqb_eq in E; subst u.
      rewrite dict_get_set_same, fold_left_app; cbn [fold_left].
      unfold get_or; rewrite IHget.
      destruct (filter _ l) eqn:El; [reflexivity|].
      now rewrite <- El; destruct (filter _ l ++ [r]) eqn:El'; [destruct (filter _ l)|].
    + apply String.eqb_neq in E.
      rewrite dict_get_set_other by congruence.
      rewrite app_nil_r; apply IHget.
Qed.

Lemma get_all_users_ratings_get (db : database) (u : string) :
  dict_get (get_all_users_ratings db) u
  = match find_ratings_of db u with
    | [] => None
    | _ => Some (get_user_ratings_dict db u)
    end
  /\ NoDup (keys (get_all_users_ratings db)).
Proof.
  destruct (all_users_fold (ratings db)) as [Hnd Hget].
  split; [apply Hget | apply Hnd].
Qed.

(** X11. The map of all users' ratings has one entry per user who has
    rated something, and the entry of a user is the rating map that
    [get_user_ratings_dict] returns for that user. *)
Theorem get_all_users_ratings_agrees :
  forall (db : database) (u : string),
    NoDup (keys (get_all_users_ratings db)) /\
    (find_ratings_of db u = [] -> dict_get (get_all_users_ratings db) u = None) /\
    (find_ratings_of db u <> [] ->
     dict_get (get_all_users_ratings db) u = Some (get_user_ratings_dict db u)).
Proof.
  intros db u.
  destruct (get_all_users_ratings_get db u) as [Hget Hnd].
  split; [assumption|]; rewrite Hget.
  destruct (find_ratings_of db u); split; congruence.
Qed.

(** ** The neighbours of a user *)

Lemma foldM_append_keys {A B : Type} (f : list B -> A -> result (list B))
      (key : A -> string) (kb : B -> string) (l : list A) :
  (forall acc x res, f acc x = Ok res ->
                     res = acc \/ exists b, res = acc ++ [b] /\ kb b = key x) ->
  forall acc res, foldM f l acc = Ok res ->
    exists r, res = acc ++ r /\
              (forall k, In k (map kb r) -> In k (map key l)) /\
              (NoDup (map key l) -> NoDup (map kb r)).
Proof.
  intros Hf; induction l as [|x l IH]; intros acc res Hrun; cbn [foldM] in Hrun.
  - injection Hrun as <-; exists []; rewrite app_nil_r; repeat split; auto; constructor.
  - destruct (f acc x) as [acc'|] eqn:E; [|discriminate]; cbn [bind] in Hrun.
    destruct (IH _ _ Hrun) as (r & -> & Hsub & Hnd).
    destruct (Hf _ _ _ E) as [->|(b & -> & Hb)].
    + exists r; repeat split; auto.
      * intros k Hk; right; auto.
      * intros H; inversion H; auto.
    + exists (b :: r); rewrite <- app_assoc; repeat split; auto.
      * intros k [<-|Hk]; [left; auto | right; auto].
      * intros H; inversion H as [|? ? Hx Hl]; subst; cbn [map].
        constructor; [|auto]. rewrite Hb; intros Hin; apply Hx; auto.
Qed.

(** X12. [find_similar_users] never raises. It returns at most [top_n]
    neighbours, each once, by decreasing similarity; none is the user; each
    shares at least [min_common_items] item texts with the user, and its
    similarity is what [pearson_correlation] returns for the two rating
    maps, a positive number. A user without rating has no neighbour. *)
Theorem find_similar_users_contract :
  forall (db : database) (uid : string) (min_common_items top_n : nat),
  exists sims,
    find_similar_users db uid min_common_items top_n = Ok sims /\
    (List.length sims <= top_n)%nat /\
    descending snd sims /\
    NoDup (map fst sims) /\
    (find_ratings_of db uid = [] -> sims = []) /\
    forall v s, In (v, s) sims ->
      v <> uid /\ 0 < s /\
      pearson_correlation (get_user_ratings_dict db uid) (get_user_ratings_dict db v) = Ok s /\
      (min_common_items
       <= List.length (common_keys (get_user_ratings_dict db uid)
                                   (get_user_ratings_dict db v)))%nat.
Proof.
  intros db uid m n.
  unfold find_similar_users.
  destruct (List.length (get_user_ratings_dict db uid) =? 0)%nat eqn:Hlen.
  { exists []; split; [reflexivity|]; split; [simpl; lia|].
    split; [constructor|]; split; [constructor|]; split; [reflexivity|].
    intros v s []. }
  match goal with
  | |- context [foldM ?f ?l []] => set (step := f); set (others := l)
  end.
  destruct (foldM_total step others []) as (raw & Hraw).
  { intros s [v d] _; subst step; cbv beta iota.
    destruct (String.eqb v uid); [eexists; reflexivity|].
    destruct (_ <? m)%nat; [eexists; reflexivity|].
    rewrite pearson_correlation_eq; cbn [bind].
    destruct (Rltb 0 _); eexists; reflexivity. }
  rewrite Hraw; cbn [bind]; eexists; split; [reflexivity|].
  split; [apply firstn_le_length|].
  split; [apply descending_firstn, sort_desc_descending|].
  split.
  { rewrite <- firstn_map; apply NoDup_firstn.
    apply (Permutation_NoDup (l := map fst raw));
      [apply Permutation_map, Permutation_sym, sort_desc_perm|].
    destruct (foldM_append_keys step fst fst others) with (acc := @nil (string * R)) (res := raw)
      as (r & Hr & _ & Hnd); [|assumption|].
    - intros acc [v d] res; subst step; cbv beta iota.
      destruct (String.eqb v uid); [intros [= <-]; now left|].
      destruct (_ <? m)%nat; [intros [= <-]; now left|].
      destruct (pearson_correlation _ _) as [s|]; cbn [bind]; [|discriminate].
      destruct (Rltb 0 s); intros [= <-]; [right | now left].
      eexists; split; reflexivity.
    - cbn [app] in Hr; subst r; apply Hnd.
      subst others; apply (proj2 (get_all_users_ratings_get db uid)). }
  split.
  { intros Hnone; exfalso.
    unfold get_user_ratings_dict in Hlen; rewrite Hnone in Hlen; discriminate. }
  intros v s Hin; apply In_firstn, In_sort_desc in Hin.
  revert v s Hin.
  apply (foldM_invariant
           (fun sims => forall v s, In (v, s) sims ->
              v <> uid /\ 0 < s /\
              pearson_correlation (get_user_ratings_dict db uid) (get_user_ratings_dict db v) = Ok s /\
              (m <= List.length (common_keys (get_user_ratings_dict db uid)
                                             (get_user_ratings_dict db v)))%nat)
           step others []); [intros v s [] | | exact Hraw].
  intros acc [v d] acc' Hx Hacc; subst step; cbv beta iota.
  destruct (String.eqb v uid) eqn:Ev; [now intros [= <-]|].
  destruct (_ <? m)%nat eqn:Em; [now intros [= <-]|].
  destruct (pearson_correlation _ d) as [s|] eqn:Ep; cbn [bind]; [|discriminate].
  destruct (Rltb 0 s) eqn:Es; intros [= <-]; [|assumption].
  intros v' s' Hin; apply in_app_iff in Hin; destruct Hin as [Hin|[[= <- <-]|[]]]; eauto.
  assert (Hd : d = get_user_ratings_dict db v).
  { destruct (get_all_users_ratings_get db v) as [Hget Hnd].
    subst others; apply (dict_get_In _ _ _ Hnd) in Hx.
    rewrite Hget in Hx; destruct (find_ratings_of db v); congruence. }
  subst d.
  apply String.eqb_neq in Ev; apply Nat.ltb_ge in Em; apply Rltb_spec in Es.
  repeat split; auto.
Qed.

(** ** The profile of a user *)

Lemma py_max_spec (x : R) (l : list R) :
  In (py_max x l) (x :: l) /\ forall y, In y (x :: l) -> y <= py_max x l.
Proof.
  unfold py_max; revert x; induction l as [|z l IH]; intros x; cbn [fold_left].
  - split; [now left | intros y [<-|[]]; lra].
  - destruct (IH (Rmax x z)) as [Hin Hle]; split.
    + destruct Hin as [Hin|Hin]; [|right; now right].
      rewrite <- Hin; unfold Rmax; destruct (Rle_dec x z); simpl; auto.
    + intros y [Hy|[Hy|Hy]].
      * subst y; eapply Rle_trans; [apply (Rmax_l x z) | apply Hle; now left].
      * subst y; eapply Rle_trans; [apply (Rmax_r x z) | apply Hle; now left].
      * apply Hle; now right.
Qed.

Lemma positive_weights_get_or (d : dict R) (k : string) :
  positive_weights d -> 0 <= get_or d k 0.
Proof.
  intros [_ H]; unfold get_or.
  destruct (dict_get d k) as [w|] eqn:E; [|lra].
  apply Rlt_le, (H k), dict_get_Some_In, E.
Qed.

Lemma positive_weights_add (it : item) (rw : R) (fw : dict R) :
  0 < rw -> positive_weights fw ->
  positive_weights
    (fold_left (fun fw '(feature, value) =>
                  dict_set fw feature (get_or fw feature 0 + value * rw))
               (extract_item_features it) fw).
Proof.
  intros Hrw Hfw.
  apply fold_left_invariant; [assumption|].
  intros d [f v] Hin [Hnd Hpos]; split; [now apply NoDup_keys_dict_set|].
  intros f' w' Hin'.
  destruct (In_dict_set _ _ _ _ _ Hin') as [[_ ->]|H]; [|eauto].
  pose proof (positive_weights_get_or d f (conj Hnd Hpos)).
  destruct (extract_item_features_weights it f v Hin) as [-> | ->]; nra.
Qed.

(** X13. When [get_user_preferred_features] returns a profile (for a
    positive [min_rating]), the profile is a dictionary without repeated
    key, every weight lies in (0, 1], and unless the profile is empty some
    feature has weight exactly 1. *)
Theorem get_user_preferred_features_normalized :
  forall (db : database) (uid : string) (min_rating : R) (profile : dict R),
    0 < min_rating ->
    get_user_preferred_features db uid min_rating = Ok profile ->
    NoDup (keys profile) /\
    (forall f w, In (f, w) profile -> 0 < w <= 1) /\
    (profile <> [] -> exists f, In (f, 1) profile).
Proof.
  intros db uid min_rating profile Hmin.
  unfold get_user_preferred_features.
  assert (Hempty : @Ok (dict R) [] = Ok profile ->
            NoDup (keys profile) /\
            (forall f w, In (f, w) profile -> 0 < w <= 1) /\
            (profile <> [] -> exists f, In (f, 1) profile)).
  { intros [= <-]; split; [constructor|]; split; [intros f w [] | congruence]. }
  destruct (List.length (find_ratings_of db uid) =? 0)%nat; [exact Hempty|].
  destruct (mapM _ _) as [item_ids|]; cbn [bind]; [|discriminate].
  destruct (List.length item_ids =? 0)%nat; [exact Hempty|].
  match goal with
  | |- context [foldM ?f ?l []] => set (step := f)
  end.
  destruct (foldM step (find_ratings_of db uid) []) as [fw|] eqn:Hfw;
    cbn [bind]; [|discriminate].
  assert (Hinv : positive_weights fw).
  { apply (foldM_invariant positive_weights step (find_ratings_of db uid) []);
      [split; [constructor | intros f w []] | | exact Hfw].
    intros s r s' _ Hs; subst step; cbv beta.
    destruct (Rltb (IZR (rating r)) min_rating) eqn:Er; [now intros [= <-]|].
    destruct (ObjectId_of (item_id r)) as [oid|]; cbn [bind]; [|discriminate].
    destruct (find _ _) as [it|]; [|now intros [= <-]].
    assert (Hr : 0 < IZR (rating r)).
    { unfold Rltb in Er; destruct (Rlt_dec (IZR (rating r)) min_rating); [discriminate|lra]. }
    rewrite pydiv_ok by lra; cbn [bind]; intros [= <-].
    apply positive_weights_add; [|assumption].
    apply Rdiv_lt_0_compat; lra. }
  destruct Hinv as [Hnd Hpos].
  destruct (values fw) as [|w ws] eqn:Hvals; [exact Hempty|].
  destruct (py_max_spec w ws) as [Hmaxin Hmaxle].
  set (max_weight := py_max w ws) in *.
  rewrite <- Hvals in Hmaxin, Hmaxle.
  assert (Hmax : 0 < max_weight).
  { unfold values in Hmaxin; apply in_map_iff in Hmaxin.
    destruct Hmaxin as ([f x] & E & Hin); cbn in E; subst x; eauto. }
  rewrite Rltb_true by assumption.
  rewrite (mapM_pure _ (fun p => (fst p, snd p / max_weight))).
  2: { intros [f x] _; rewrite pydiv_ok by lra; reflexivity. }
  intros [= <-]; split; [|split].
  - unfold keys; rewrite map_map; exact Hnd.
  - intros f x Hin; apply in_map_iff in Hin; destruct Hin as ([f' x'] & [= <- <-] & Hin).
    cbn [snd].
    pose proof (Hpos _ _ Hin).
    assert (x' <= max_weight)
      by (apply Hmaxle; unfold values; apply in_map_iff; now exists (f', x')).
    split; [apply Rdiv_lt_0_compat; lra|].
    apply Rmult_le_reg_r with max_weight; [assumption|].
    unfold Rdiv; rewrite Rmult_assoc, Rinv_l by lra; lra.
  - intros _; unfold values in Hmaxin; apply in_map_iff in Hmaxin.
    destruct Hmaxin as ([f x] & E & Hin); cbn in E; subst x.
    exists f; apply in_map_iff; exists (f, max_weight); split; [|assumption].
    cbn; f_equal; field; lra.
Qed.

Lemma get_user_preferred_features_normalized_witness :
  NoDup (keys [("type:movie", 1)]) /\
  (forall f w, In (f, w) [("type:movie", 1)] -> 0 < w <= 1) /\
  ([("type:movie", 1)] <> [] -> exists f, In (f, 1) [("type:movie", 1)]).
Proof.
  apply (get_user_preferred_features_normalized boost_store "U" 3 [("type:movie", 1)]).
  - lra.
  - exact boost_store_profile.
Defined.

(** ** What the recommenders return *)

Lemma descending_head {A : Type} (key : A -> R) (x : A) (l : list A) :
  descending key (x :: l) -> forall y, In y l -> key y <= key x.
Proof.
  revert x; induction l as [|z l IH]; intros x H y Hy; [contradiction|].
  inversion H as [| |? ? ? Hzx Hl]; subst.
  destruct Hy as [<-|Hy]; [assumption|].
  eapply Rle_trans; [apply (IH z Hl y Hy) | assumption].
Qed.

Lemma descending_push {A : Type} (key : A -> R) (x : A) (l : list A) :
  descending key l -> (forall y, In y l -> key y <= key x) -> descending key (x :: l).
Proof.
  intros Hl Hx; destruct l as [|z l]; constructor; [apply Hx; now left | assumption].
Qed.

Lemma descending_flat_map {A B : Type} (key : A -> R) (key' : B -> R)
      (g : A -> list B) (l : list A) :
  (forall x, In x l -> g x = [] \/ exists y, g x = [y] /\ key' y = key x) ->
  descending key l -> descending key' (flat_map g l).
Proof.
  induction l as [|x l IH]; intros Hg Hd; cbn [flat_map]; [constructor|].
  assert (Hrest : descending key' (flat_map g l)).
  { apply IH; [intros; apply Hg; now right | eapply descending_tail; eauto]. }
  destruct (Hg x (or_introl eq_refl)) as [-> | (y & -> & Hy)]; [assumption|].
  cbn [app]; apply descending_push; [assumption|].
  intros z Hz; apply in_flat_map in Hz; destruct Hz as (x' & Hx' & Hz).
  destruct (Hg x' (or_intror Hx')) as [E | (y' & E & Hy')]; rewrite E in Hz;
    [contradiction|].
  destruct Hz as [<-|[]]; rewrite Hy, Hy'.
  eapply descending_head; eauto.
Qed.

Lemma flat_map_length_le {A B : Type} (g : A -> list B) (l : list A) :
  (forall x, In x l -> (List.length (g x) <= 1)%nat) ->
  (List.length (flat_map g l) <= List.length l)%nat.
Proof.
  induction l as [|x l IH]; intros H; cbn [flat_map List.length]; [lia|].
  rewrite length_app.
  pose proof (H x (or_introl eq_refl)).
  pose proof (IH (fun y Hy => H y (or_intror Hy))); lia.
Qed.

Lemma final_loop_flat_map (db : database) (l : list (string * R * nat))
      (res out : list recommendation) :
  foldM (fun result '(i, score, _) =>
           oid <- ObjectId_of i ;;
           match find_one_item db oid with
           | Some it => Ok (result ++ [annotate it score "collaborative"])
           | None => Ok result
           end)
        l res = Ok out ->
  out = res ++ flat_map (resolve_one db) l.
Proof.
  revert res; induction l as [|[[i score] n] l IH]; intros res; cbn [foldM flat_map].
  - intros [= <-]; now rewrite app_nil_r.
  - unfold resolve_one; cbn [fst snd].
    destruct (ObjectId_of i) as [oid|]; cbn [bind]; [|discriminate].
    destruct (find_one_item db oid) as [it|]; cbn [bind]; intros H; apply IH in H.
    + now rewrite <- app_assoc in H.
    + exact H.
Qed.

Lemma resolve_one_shape (db : database) (x : string * R * nat) :
  resolve_one db x = [] \/
  exists it, resolve_one db x = [annotate it (snd (fst x)) "collaborative"] /\
             In it (items db).
Proof.
  unfold resolve_one.
  destruct (ObjectId_of (fst (fst x))) as [oid|]; [|now left].
  destruct (find_one_item db oid) as [it|] eqn:E; [|now left].
  right; exists it; split; [reflexivity|].
  now apply find_one_item_Some in E.
Qed.

(** The records of the collaborative recommender are stored items. *)
Lemma collaborative_records_stored (db : database) (uid : string) (limit : nat)
      (ms : R) (out : list recommendation) :
  generate_collaborative_recommendations db uid limit ms = Ok out ->
  exists top : list (string * R * nat),
    out = flat_map (resolve_one db) top /\
    (List.length top <= limit)%nat /\
    descending (fun x => snd (fst x)) top.
Proof.
  unfold generate_collaborative_recommendations.
  destruct (find_similar_users db uid 3 50) as [sims|]; cbn [bind]; [|discriminate].
  destruct (List.length sims =? 0)%nat.
  { intros [= <-]; exists []; repeat split; [simpl; lia | constructor]. }
  rewrite collaborative_candidates_eq; cbn [bind].
  intros H; apply final_loop_flat_map in H; cbn [app] in H.
  eexists; split; [exact H|]; split.
  - apply firstn_le_length.
  - apply descending_firstn, sort_desc_descending.
Qed.

(** X14. When the collaborative recommender returns a list, the list has at
    most [limit] records, by decreasing score; each record is an item of
    the store, carries the text of its identifier and is tagged
    "collaborative". *)
Theorem generate_collaborative_recommendations_contract :
  forall (db : database) (uid : string) (limit : nat) (min_similarity : R)
         (out : list recommendation),
    generate_collaborative_recommendations db uid limit min_similarity = Ok out ->
    (List.length out <= limit)%nat /\
    descending recommendation_score out /\
    forall rec, In rec out ->
      In (doc rec) (items db) /\
      id rec = str (_id (doc rec)) /\
      recommendation_type rec = "collaborative".
Proof.
  intros db uid limit ms out H.
  destruct (collaborative_records_stored _ _ _ _ _ H) as (top & -> & Hlen & Hdesc).
  split; [|split].
  - eapply Nat.le_trans; [|exact Hlen].
    apply flat_map_length_le; intros x _.
    destruct (resolve_one_shape db x) as [-> | (it & -> & _)]; simpl; lia.
  - apply (descending_flat_map (fun x => snd (fst x))); [|assumption].
    intros x _; destruct (resolve_one_shape db x) as [-> | (it & -> & _)]; [now left|].
    right; eexists; split; reflexivity.
  - intros rec Hrec; apply in_flat_map in Hrec; destruct Hrec as (x & _ & Hrec).
    destruct (resolve_one_shape db x) as [E | (it & E & Hit)]; rewrite E in Hrec;
      [contradiction|].
    destruct Hrec as [<-|[]]; cbn; auto.
Qed.

Lemma generate_collaborative_recommendations_contract_witness :
  (List.length [annotate (movie item_x "x") 5 "collaborative"] <= 10)%nat /\
  descending recommendation_score [annotate (movie item_x "x") 5 "collaborative"] /\
  forall rec, In rec [annotate (movie item_x "x") 5 "collaborative"] ->
    In (doc rec) (items mixed_case_store) /\
    id rec = str (_id (doc rec)) /\
    recommendation_type rec = "collaborative".
Proof.
  apply (generate_collaborative_recommendations_contract
           mixed_case_store "U" 10 (3 / 10)).
  exact mixed_case_collaborative.
Defined.

Lemma cosine_similarity_features_total (v1 v2 : dict R) :
  exists s, cosine_similarity_features v1 v2 = Ok s.
Proof. rewrite cosine_similarity_features_eq; eauto. Qed.

Lemma content_records (db : database) (uid : string) (limit : nat)
      (ms : R) (out : list recommendation) :
  generate_content_based_recommendations db uid limit ms = Ok out ->
  exists sims : list (recommendation * R),
    out = map fst (firstn limit (sort_desc snd sims)) /\
    forall p, In p sims ->
      ms <= snd p /\
      exists it, In it (items db) /\ fst p = annotate it (snd p) "content_based".
Proof.
  unfold generate_content_based_recommendations.
  destruct (get_user_preferred_features db uid 3) as [uf|]; cbn [bind]; [|discriminate].
  destruct (List.length uf =? 0)%nat.
  { intros [= <-]; exists []; split; [now rewrite firstn_nil | intros p []]. }
  destruct (mapM _ _) as [rated|]; cbn [bind]; [|discriminate].
  match goal with
  | |- context [foldM ?f ?l []] => set (step := f)
  end.
  destruct (foldM step (items db) []) as [sims|] eqn:Hsims; cbn [bind]; [|discriminate].
  intros [= <-]; exists sims; split; [reflexivity|].
  pattern sims; eapply foldM_invariant; [ | |exact Hsims]; cbv beta; [intros p [] |].
  intros s it s' Hit Hs; subst step; cbv beta.
  destruct (existsb _ rated); [now intros [= <-]|].
  cbv zeta; destruct (cosine_similarity_features uf _) as [c|]; cbn [bind]; [|discriminate].
  destruct (Rleb ms c) eqn:E; intros [= <-]; [|assumption].
  intros p Hp; apply in_app_or in Hp; destruct Hp as [Hp|[<-|[]]]; [now apply Hs|].
  cbn [fst snd]; split; [|now exists it].
  unfold Rleb in E; destruct (Rle_dec ms c); [assumption|discriminate].
Qed.

Lemma content_records_stored (db : database) (uid : string) (limit : nat)
      (ms : R) (out : list recommendation) :
  generate_content_based_recommendations db uid limit ms = Ok out ->
  forall rec, In rec out ->
    In (doc rec) (items db) /\ id rec = str (_id (doc rec)).
Proof.
  intros H rec Hrec.
  destruct (content_records _ _ _ _ _ H) as (sims & -> & Hs).
  apply in_map_iff in Hrec; destruct Hrec as (p & <- & Hp).
  apply In_firstn, In_sort_desc, Hs in Hp.
  destruct Hp as (_ & it & Hit & ->); cbn; auto.
Qed.

(** X15. When the content-based recommender returns a list, the list has at
    most [limit] records, by decreasing score; each record is an item of
    the store tagged "content_based", carries the text of its identifier,
    has no [similarity_score] field, and its score is at least
    [min_similarity]. *)
Theorem generate_content_based_recommendations_contract :
  forall (db : database) (uid : string) (limit : nat) (min_similarity : R)
         (out : list recommendation),
    generate_content_based_recommendations db uid limit min_similarity = Ok out ->
    (List.length out <= limit)%nat /\
    descending recommendation_score out /\
    forall rec, In rec out ->
      In (doc rec) (items db) /\
      id rec = str (_id (doc rec)) /\
      recommendation_type rec = "content_based" /\
      similarity_score rec = None /\
      min_similarity <= recommendation_score rec.
Proof.
  intros db uid limit ms out H.
  destruct (content_records _ _ _ _ _ H) as (sims & -> & Hs).
  assert (Hin : forall p, In p (firstn limit (sort_desc snd sims)) -> In p sims)
    by (intros p Hp; now apply In_firstn, In_sort_desc in Hp).
  split; [|split].
  - rewrite length_map; apply firstn_le_length.
  - apply (descending_map snd); [|apply descending_firstn, sort_desc_descending].
    intros x y Hx Hy Hxy.
    destruct (Hs _ (Hin _ Hx)) as (_ & ? & _ & ->).
    destruct (Hs _ (Hin _ Hy)) as (_ & ? & _ & ->).
    exact Hxy.
  - intros rec Hrec; apply in_map_iff in Hrec; destruct Hrec as (p & <- & Hp).
    destruct (Hs _ (Hin _ Hp)) as (Hb & it & Hit & ->); cbn; auto.
Qed.

Lemma generate_content_based_recommendations_contract_witness :
  (List.length [annotate (movie item_mv "a movie") 1 "content_based"] <= 10)%nat /\
  descending recommendation_score [annotate (movie item_mv "a movie") 1 "content_based"] /\
  forall rec, In rec [annotate (movie item_mv "a movie") 1 "content_based"] ->
    In (doc rec) (items boost_store) /\
    id rec = str (_id (doc rec)) /\
    recommendation_type rec = "content_based" /\
    similarity_score rec = None /\
    3 / 10 <= recommendation_score rec.
Proof.
  apply (generate_content_based_recommendations_contract boost_store "U" 10 (3 / 10)).
  exact (boost_store_content 9).
Defined.

Lemma similar_items_records (it : item) (ms : R) (l : list item) :
  exists sims : list (item * R),
    foldM (fun similarities other_item =>
             similarity <- cosine_similarity_features
                             (extract_item_features it)
                             (extract_item_features other_item) ;;
             if Rleb ms similarity
             then Ok (similarities ++ [(other_item, similarity)])
             else Ok similarities)
          l [] = Ok sims /\
    forall p, In p sims ->
      In (fst p) l /\
      cosine_similarity_features (extract_item_features it)
                                 (extract_item_features (fst p)) = Ok (snd p) /\
      ms <= snd p.
Proof.
  match goal with
  | |- context [foldM ?f l []] => set (step := f)
  end.
  destruct (foldM_total step l []) as [sims Hsims].
  { intros s x _; subst step; cbv beta zeta.
    destruct (cosine_similarity_features_total (extract_item_features it)
                                               (extract_item_features x)) as (c & ->).
    cbn [bind]; destruct (Rleb ms c); eauto. }
  exists sims; split; [assumption|].
  pattern sims; eapply foldM_invariant; [ | |exact Hsims]; cbv beta; [intros p []|].
  intros s x s' Hx Hs; subst step; cbv beta zeta.
  destruct (cosine_similarity_features _ _) as [c|] eqn:Ec; cbn [bind]; [|discriminate].
  destruct (Rleb ms c) eqn:E; intros [= <-]; [|assumption].
  intros p Hp; apply in_app_or in Hp; destruct Hp as [Hp|[<-|[]]]; [now apply Hs|].
  cbn [fst snd]; split; [assumption|]; split; [assumption|].
  unfold Rleb in E; destruct (Rle_dec ms c); [assumption|discriminate].
Qed.

(** X16. When [find_similar_items] returns a list, the list has at most
    [limit] records, by decreasing score; each record is a stored item
    tagged "content_based" whose score is what
    [cosine_similarity_features] returns for the features of the item
    asked for and its own, is repeated in [similarity_score], and is at
    least [min_similarity]. *)
Theorem find_similar_items_scores :
  forall (db : database) (iid : string) (limit : nat) (min_similarity : R)
         (out : list recommendation),
    find_similar_items db iid limit min_similarity = Ok out ->
    (List.length out <= limit)%nat /\
    descending recommendation_score out /\
    forall rec, In rec out ->
      In (doc rec) (items db) /\
      id rec = str (_id (doc rec)) /\
      recommendation_type rec = "content_based" /\
      similarity_score rec = Some (recommendation_score rec) /\
      min_similarity <= recommendation_score rec /\
      exists it, (exists oid, ObjectId_of iid = Ok oid /\ find_one_item db oid = Some it) /\
        cosine_similarity_features (extract_item_features it)
                                   (extract_item_features (doc rec))
        = Ok (recommendation_score rec).
Proof.
  intros db iid limit ms out.
  assert (Hnil : forall P : recommendation -> Prop,
             @Ok (list recommendation) [] = Ok out ->
             (List.length out <= limit)%nat /\
             descending recommendation_score out /\
             forall rec, In rec out -> P rec).
  { intros P [= <-]; split; [simpl; lia|].
    split; [constructor | intros rec []]. }
  unfold find_similar_items.
  destruct (is_valid iid) eqn:Hv; cbn [negb]; [|apply (Hnil (fun rec => _))].
  assert (Hoid : ObjectId_of iid = Ok (Oid (string_map lower iid)))
    by (unfold ObjectId_of; now rewrite Hv).
  rewrite Hoid; cbn [bind].
  destruct (find_one_item db (Oid (string_map lower iid))) as [it|] eqn:Hit;
    [|apply (Hnil (fun rec => _))].
  cbv zeta.
  match goal with
  | |- context [foldM _ ?l []] =>
      destruct (similar_items_records it ms l) as (sims & -> & Hs)
  end.
  cbn [bind]; intros [= <-].
  assert (Hin : forall p, In p (firstn limit (sort_desc snd sims)) -> In p sims)
    by (intros p Hp; now apply In_firstn, In_sort_desc in Hp).
  split; [|split].
  - rewrite length_map; apply firstn_le_length.
  - apply (descending_map snd); [|apply descending_firstn, sort_desc_descending].
    intros [x sx] [y sy] _ _ Hxy; exact Hxy.
  - intros rec Hrec; apply in_map_iff in Hrec; destruct Hrec as ([o s] & <- & Hp).
    destruct (Hs _ (Hin _ Hp)) as (Ho & Hcos & Hms); cbn [fst snd] in *.
    apply filter_In in Ho; destruct Ho as [Ho _].
    cbn; repeat split; auto.
    exists it; split; [now exists (Oid (string_map lower iid))|assumption].
Qed.

Lemma collaborative_only_store_similar_items :
  find_similar_items collaborative_only_store item1 2 (3 / 10)
  = Ok [with_similarity_score (annotate (movie item2 "two") 1 "content_based") 1;
        with_similarity_score (annotate (movie item3 "three") 1 "content_based") 1].
Proof.
  unfold find_similar_items.
  replace (is_valid item1) with true by (vm_compute; reflexivity).
  cbn [negb]; eval_oids; cbn [bind].
  match goal with
  | |- context [find_one_item ?d ?o] =>
      replace (find_one_item d o) with (Some (movie item1 "one"))
        by (vm_compute; reflexivity)
  end.
  cbv zeta.
  match goal with
  | |- context [filter ?f ?l] =>
      replace (filter f l) with [movie item2 "two"; movie item3 "three"]
        by (vm_compute; reflexivity)
  end.
  cbn [foldM].
  rewrite !cosine_similarity_features_eq; cbn.
  unfold norm_over; cbn.
  repeat sqrt_is 1; crunch.
  replace ((0 + 1 * 1) / (1 * 1)) with 1 by lra; reflexivity.
Qed.

Lemma find_similar_items_scores_witness :
  let out :=
    [with_similarity_score (annotate (movie item2 "two") 1 "content_based") 1;
     with_similarity_score (annotate (movie item3 "three") 1 "content_based") 1] in
  (List.length out <= 2)%nat /\
  descending recommendation_score out /\
  forall rec, In rec out ->
    In (doc rec) (items collaborative_only_store) /\
    id rec = str (_id (doc rec)) /\
    recommendation_type rec = "content_based" /\
    similarity_score rec = Some (recommendation_score rec) /\
    3 / 10 <= recommendation_score rec /\
    exists it,
      (exists oid, ObjectId_of item1 = Ok oid /\
                   find_one_item collaborative_only_store oid = Some it) /\
      cosine_similarity_features (extract_item_features it)
                                 (extract_item_features (doc rec))
      = Ok (recommendation_score rec).
Proof.
  apply (find_similar_items_scores collaborative_only_store item1 2 (3 / 10)).
  exact collaborative_only_store_similar_items.
Defined.

(** ** The blender *)

Lemma normalize_scores_total (recs : list recommendation) :
  exists out,
    normalize_scores recs = Ok out /\
    forall rec', In rec' out ->
      exists rec, In rec recs /\ doc rec' = doc rec /\ id rec' = id rec.
Proof.
  destruct recs as [|r rs]; [exists []; split; [reflexivity | intros ? []]|].
  unfold normalize_scores.
  set (max_score := py_max _ _).
  destruct (Reqb max_score 0) eqn:E.
  - eexists; split; [reflexivity|]; intros rec' H; now exists rec'.
  - assert (Hm : max_score <> 0) by (intros H; apply Reqb_true in H; congruence).
    rewrite (mapM_pure _ (fun rec => with_normalized_score
                                       rec (recommendation_score rec / max_score))).
    2: { intros x _; now rewrite pydiv_ok. }
    eexists; split; [reflexivity|].
    intros rec' H; apply in_map_iff in H; destruct H as (rec & <- & H).
    now exists rec.
Qed.

Lemma merge_collaborative_filed (Q : recommendation -> Prop)
      (item_scores : dict hybrid_entry) (rec : recommendation) :
  Q rec -> filed Q item_scores -> filed Q (merge_collaborative item_scores rec).
Proof.
  intros HQ [Hnd H]; unfold merge_collaborative.
  destruct (String.eqb (id rec) "") eqn:E; [now split|].
  apply String.eqb_neq in E.
  split; [now apply NoDup_keys_dict_set|].
  intros k e Hin; destruct (In_dict_set _ _ _ _ _ Hin) as [[-> ->]|Hin']; [|eauto].
  split; [assumption|]; now exists rec.
Qed.

Lemma merge_content_filed (Q : recommendation -> Prop)
      (item_scores : dict hybrid_entry) (rec : recommendation) :
  Q rec -> filed Q item_scores -> filed Q (merge_content item_scores rec).
Proof.
  intros HQ [Hnd H]; unfold merge_content.
  destruct (String.eqb (id rec) "") eqn:E; [now split|].
  apply String.eqb_neq in E.
  split; [now apply NoDup_keys_dict_set|].
  intros k e Hin; destruct (In_dict_set _ _ _ _ _ Hin) as [[-> ->]|Hin']; [|eauto].
  split; [assumption|]; cbn [entry_item].
  unfold get_or; destruct (dict_get item_scores (id rec)) as [e'|] eqn:Hget.
  - apply dict_get_Some_In, H in Hget; destruct Hget as (_ & r & -> & Hid & Hr).
    now exists r.
  - now exists rec.
Qed.

Lemma blend_filed (Q : recommendation -> Prop) (cw tw : R)
      (item_scores : dict hybrid_entry) :
  (forall k e, In (k, e) item_scores ->
     k <> "" /\ exists rec, entry_item e = Some rec /\ id rec = k /\ Q rec) ->
  forall init,
  exists recs,
    fold_left (fun recommendations '(_, data) =>
                 match blend cw tw data with
                 | Some it => recommendations ++ [it]
                 | None => recommendations
                 end)
              item_scores init = init ++ recs /\
    map id recs = keys item_scores /\
    forall rec, In rec recs ->
      exists e it, blend cw tw e = Some rec /\ entry_item e = Some it /\
                   id it <> "" /\ Q it.
Proof.
  induction item_scores as [|[k e] l IH]; intros H init; cbn [fold_left].
  - exists []; split; [now rewrite app_nil_r|]; split; [reflexivity | intros ? []].
  - destruct (H k e (or_introl eq_refl)) as (Hk & it & Hit & Hid & HQ).
    destruct (blend cw tw e) as [rec|] eqn:Hb;
      [|unfold blend in Hb; rewrite Hit in Hb; discriminate].
    destruct (IH (fun k' e' Hin => H k' e' (or_intror Hin)) (init ++ [rec]))
      as (recs & -> & Hids & Hrecs).
    exists (rec :: recs); split; [now rewrite <- app_assoc|]; split.
    + cbn [map keys fst]; f_equal; [|exact Hids].
      unfold blend in Hb; rewrite Hit in Hb; injection Hb as <-; exact Hid.
    + intros rec' [<-|Hin]; [|now apply Hrecs].
      exists e, it; repeat split; auto; congruence.
Qed.

(** X17. When the blender returns a list, the list has at most [limit]
    records, by decreasing score and with pairwise different identifiers;
    each record is a stored item tagged "hybrid" with a non-empty
    identifier, carries both component scores, and its score is their
    weighted sum, or 1.2 times that sum. *)
Theorem generate_hybrid_recommendations_contract :
  forall (db : database) (uid : string) (limit : nat)
         (collaborative_weight content_weight min_similarity : R)
         (out : list recommendation),
    generate_hybrid_recommendations db uid limit collaborative_weight content_weight
                                    min_similarity = Ok out ->
    (List.length out <= limit)%nat /\
    descending recommendation_score out /\
    NoDup (map id out) /\
    forall rec, In rec out ->
      recommendation_type rec = "hybrid" /\
      In (doc rec) (items db) /\
      id rec = str (_id (doc rec)) /\
      id rec <> "" /\
      exists c t,
        collaborative_score rec = Some c /\ content_score rec = Some t /\
        (recommendation_score rec = collaborative_weight * c + content_weight * t \/
         recommendation_score rec
         = (collaborative_weight * c + content_weight * t) * (12 / 10)).
Proof.
  intros db uid limit cw tw ms out.
  unfold generate_hybrid_recommendations.
  destruct (generate_collaborative_recommendations db uid (limit * 2) ms)
    as [C|] eqn:HC; cbn [bind]; [|discriminate].
  destruct (generate_content_based_recommendations db uid (limit * 2) ms)
    as [B|] eqn:HB; cbn [bind]; [|discriminate].
  destruct (normalize_scores_total C) as (C' & -> & HC').
  destruct (normalize_scores_total B) as (B' & -> & HB').
  cbn [bind].
  set (Q := fun rec : recommendation =>
              In (doc rec) (items db) /\ id rec = str (_id (doc rec))).
  assert (HQC : forall rec, In rec C' -> Q rec).
  { intros rec' H; destruct (HC' _ H) as (rec & Hrec & Hd & Hi).
    unfold Q; rewrite Hd, Hi.
    destruct (collaborative_records_stored _ _ _ _ _ HC) as (top & -> & _).
    apply in_flat_map in Hrec; destruct Hrec as (x & _ & Hrec).
    destruct (resolve_one_shape db x) as [E | (it & E & Hit)]; rewrite E in Hrec;
      [contradiction|].
    destruct Hrec as [<-|[]]; split; [assumption | reflexivity]. }
  assert (HQB : forall rec, In rec B' -> Q rec).
  { intros rec' H; destruct (HB' _ H) as (rec & Hrec & Hd & Hi).
    unfold Q; rewrite Hd, Hi.
    exact (content_records_stored _ _ _ _ _ HB rec Hrec). }
  assert (Hfiled : filed Q (fold_left merge_content B'
                                      (fold_left merge_collaborative C' []))).
  { apply fold_left_invariant.
    - apply fold_left_invariant; [split; [constructor | intros ? ? []]|].
      intros s x Hx Hs; apply merge_collaborative_filed; auto.
    - intros s x Hx Hs; apply merge_content_filed; auto. }
  destruct Hfiled as [Hnd Hfiled].
  destruct (blend_filed Q cw tw _ Hfiled []) as (recs & -> & Hids & Hrecs).
  cbn [app]; intros [= <-].
  assert (Hin : forall rec, In rec (firstn limit (sort_desc recommendation_score recs)) ->
                            In rec recs)
    by (intros rec H; now apply In_firstn, In_sort_desc in H).
  split; [apply firstn_le_length|].
  split; [apply descending_firstn, sort_desc_descending|].
  split.
  - rewrite <- firstn_map; apply NoDup_firstn.
    apply (Permutation_NoDup (l := map id recs));
      [apply Permutation_map, Permutation_sym, sort_desc_perm | now rewrite Hids].
  - intros rec Hrec; destruct (Hrecs _ (Hin _ Hrec)) as (e & it & Hb & Hit & Hne & HQ1 & HQ2).
    unfold blend in Hb; rewrite Hit in Hb.
    destruct (1 <? entry_count e)%nat; injection Hb as <-; cbn;
      (repeat split; auto);
      exists (entry_collaborative_score e), (entry_content_score e);
      (split; [reflexivity|]; split; [reflexivity|]);
      [right | left]; reflexivity.
Qed.

Lemma boost_store_hybrid_value :
  generate_hybrid_recommendations boost_store "U" 10 1 0 (3 / 10) = Ok boost_store_blend.
Proof.
  unfold generate_hybrid_recommendations.
  change (10 * 2)%nat with (S (S 18)).
  rewrite boost_store_collaborative, boost_store_content.
  cbn [bind].
  unfold normalize_scores; cbn; rmax; crunch.
  reflexivity.
Qed.

Lemma generate_hybrid_recommendations_contract_witness :
  (List.length boost_store_blend <= 10)%nat /\
  descending recommendation_score boost_store_blend /\
  NoDup (map id boost_store_blend) /\
  forall rec, In rec boost_store_blend ->
    recommendation_type rec = "hybrid" /\
    In (doc rec) (items boost_store) /\
    id rec = str (_id (doc rec)) /\
    id rec <> "" /\
    exists c t,
      collaborative_score rec = Some c /\ content_score rec = Some t /\
      (recommendation_score rec = 1 * c + 0 * t \/
       recommendation_score rec = (1 * c + 0 * t) * (12 / 10)).
Proof.
  apply (generate_hybrid_recommendations_contract boost_store "U" 10 1 0 (3 / 10)).
  exact boost_store_hybrid_value.
Defined.

(** ** The routes *)

Lemma limit_ok_positive (limit : nat) : limit_ok limit = true -> (1 <= limit)%nat.
Proof.
  unfold limit_ok; intros H; apply andb_prop in H; destruct H as [H _].
  now apply Nat.leb_le in H.
Qed.







(** ** What the collaborative recommender raises *)

Lemma valid_item_ids_In (db : database) (r : rating_doc) :
  valid_item_ids db = true -> In r (ratings db) ->
  exists oid, ObjectId_of (item_id r) = Ok oid.
Proof.
  unfold valid_item_ids; intros H Hr.
  rewrite forallb_forall in H; specialize (H r Hr).
  unfold ObjectId_of; rewrite H; eauto.
Qed.

Lemma generate_collaborative_recommendations_total
      (db : database) (uid : string) (limit : nat) (ms : R) :
  valid_item_ids db = true ->
  exists out, generate_collaborative_recommendations db uid limit ms = Ok out.
Proof.
  intros Hc; unfold generate_collaborative_recommendations.
  destruct (find_similar_users_total db uid 3 50) as (sims & -> & _); cbn [bind].
  destruct (List.length sims =? 0)%nat; [eauto|].
  rewrite collaborative_candidates_eq; cbn [bind].
  apply foldM_total; intros s [[i sc] n] Hx.
  apply In_firstn, In_sort_desc, in_flat_map in Hx.
  destruct Hx as ([i' [sc' n']] & Hin & Hx).
  unfold candidate_of in Hx; destruct (0 <? n')%nat; [|contradiction].
  destruct Hx as [[= -> _ _]|[]].
  match type of Hin with
  | In _ (collaborative_item_scores ?d ?r ?m ?l) =>
      destruct (collaborative_item_scores_spec d r m l) as [Hnd Hget]
  end.
  apply (dict_get_In _ _ _ Hnd) in Hin; rewrite Hget in Hin.
  unfold summary in Hin.
  match type of Hin with
  | match ?cs with _ => _ end = _ => destruct cs as [|c cs'] eqn:Hcs; [discriminate|]
  end.
  assert (Hcin : In c (c :: cs')) by now left.
  rewrite <- Hcs in Hcin.
  destruct (contributions_to_origin _ _ _ _ _ _ Hcin) as (v & s' & r & _ & Hr & _).
  destruct (user_ratings_origin _ _ _ _ Hr) as (rd & Hrd & <- & _).
  destruct (valid_item_ids_In db rd Hc Hrd) as (oid & ->); cbn [bind].
  destruct (find_one_item db oid); eauto.
Qed.

Lemma foldM_raises {A S : Type} (e0 : exn) (f : S -> A -> result S) (l : list A) :
  (forall s x e, f s x = Raise e -> e = e0) ->
  forall s e, foldM f l s = Raise e -> e = e0.
Proof.
  intros Hf; induction l as [|x l IH]; intros s e; cbn [foldM]; [discriminate|].
  destruct (f s x) as [s'|e'] eqn:E; cbn [bind].
  - apply IH.
  - intros [= <-]; eapply Hf; eauto.
Qed.

Lemma forallb_false_witness {A : Type} (f : A -> bool) (l : list A) :
  forallb f l = false -> exists x, In x l /\ f x = false.
Proof.
  induction l as [|x l IH]; cbn [forallb]; [discriminate|].
  destruct (f x) eqn:E; cbn [andb]; intros H.
  - destruct (IH H) as (y & Hy & Hfy); exists y; split; [now right | assumption].
  - exists x; split; [now left | assumption].
Qed.

(** X19. The collaborative recommender raises nothing but [InvalidId], and
    only on a store in which some rating names its item by a text that
    [ObjectId] rejects: when every rating has an item text that [ObjectId]
    accepts, it returns a list. *)
Theorem generate_collaborative_recommendations_raises_only_invalid_id :
  forall (db : database) (uid : string) (limit : nat) (min_similarity : R),
    (valid_item_ids db = true ->
     exists out,
       generate_collaborative_recommendations db uid limit min_similarity = Ok out) /\
    (forall e,
        generate_collaborative_recommendations db uid limit min_similarity = Raise e ->
        e = InvalidId /\
        exists r, In r (ratings db) /\ is_valid (item_id r) = false).
Proof.
  intros db uid limit ms; split.
  - now apply generate_collaborative_recommendations_total.
  - intros e He; split.
    + revert He; unfold generate_collaborative_recommendations.
      destruct (find_similar_users_total db uid 3 50) as (sims & -> & _); cbn [bind].
      destruct (List.length sims =? 0)%nat; [discriminate|].
      rewrite collaborative_candidates_eq; cbn [bind].
      apply foldM_raises.
      intros s [[i sc] n] e'.
      unfold ObjectId_of; destruct (is_valid i); cbn [bind].
      * destruct (find_one_item db _); discriminate.
      * now intros [= <-].
    + destruct (valid_item_ids db) eqn:Hv.
      * destruct (generate_collaborative_recommendations_total db uid limit ms Hv)
          as (out & Hout); congruence.
      * now apply forallb_false_witness in Hv.
Qed.

(** ** Trending items *)

Lemma minus_timedelta_in_route (utcnow days : Z) :
  days_ok days = true -> (0 <= utcnow <= datetime_max)%Z ->
  minus_timedelta utcnow days = Ok (utcnow - days * 86400)%Z.
Proof.
  unfold days_ok, minus_timedelta, datetime_min, datetime_max.
  intros Hd Hu; apply andb_prop in Hd; destruct Hd as [Hlo Hhi].
  apply Z.leb_le in Hlo, Hhi.
  replace (999999999 <? Z.abs days)%Z with false by (symmetry; apply Z.ltb_ge; lia).
  cbv zeta.
  replace (utcnow - days * 86400 <? -62135596800)%Z with false
    by (symmetry; apply Z.ltb_ge; lia).
  replace (253402300799 <? utcnow - days * 86400)%Z with false
    by (symmetry; apply Z.ltb_ge; lia).
  reflexivity.
Qed.

Lemma mongo_sort_desc_In {A : Type} (key : A -> option R) (l : list A) (x : A) :
  In x (mongo_sort_desc key l) <-> In x l.
Proof.
  unfold mongo_sort_desc; rewrite in_app_iff, In_sort_desc, !filter_In.
  destruct (key x); intuition congruence.
Qed.

Lemma mongo_sort_desc_all_some {A : Type} (key : A -> option R) (l : list A) :
  (forall x, In x l -> key x <> None) ->
  mongo_sort_desc key l
  = sort_desc (fun x => match key x with Some v => v | None => 0 end) l.
Proof.
  intros H; unfold mongo_sort_desc.
  rewrite (filter_all_false (fun x => match key x with Some _ => false | None => true end)).
  2: { intros x Hx; specialize (H x Hx); now destruct (key x). }
  rewrite app_nil_r; f_equal.
  apply forallb_filter_id, forallb_forall.
  intros x Hx; specialize (H x Hx); now destruct (key x).
Qed.

(** The rows of the pipeline of [get_trending_items], before [$sort]. *)
Lemma trending_rows (db : database) (cutoff_date : Z) (item_type_ : option ItemType)
      (p : item * option R) :
  In p (map (fun '(it, rs) =>
               (it, option_map (fun a => INR (List.length rs) * a)
                               (mongo_avg (map (fun r => IZR (rating r)) rs))))
            (filter (fun '(it, rs) => (0 <? List.length rs)%nat)
                    (map (fun it => (it, lookup_recent_ratings db cutoff_date it))
                         (filter (match_filter item_type_ None None) (items db)))))
  <-> In (fst p) (items db) /\
      match_filter item_type_ None None (fst p) = true /\
      lookup_recent_ratings db cutoff_date (fst p) <> [] /\
      snd p = option_map
                (fun a => INR (List.length (lookup_recent_ratings db cutoff_date (fst p))) * a)
                (mongo_avg (map (fun r => IZR (rating r))
                                (lookup_recent_ratings db cutoff_date (fst p)))).
Proof.
  rewrite in_map_iff; split.
  - intros ([it rs] & <- & Hp).
    apply filter_In in Hp; destruct Hp as [Hp Hlen].
    apply in_map_iff in Hp; destruct Hp as (it' & [= -> <-] & Hp).
    apply filter_In in Hp; destruct Hp as [Hit Hmf].
    cbn [fst snd]; repeat split; auto.
    intros E; rewrite E in Hlen; discriminate.
  - destruct p as [it score]; cbn [fst snd]; intros (Hit & Hmf & Hne & ->).
    exists (it, lookup_recent_ratings db cutoff_date it); split; [reflexivity|].
    apply filter_In; split.
    + apply in_map_iff; exists it; split; [reflexivity|].
      apply filter_In; auto.
    + destruct (lookup_recent_ratings db cutoff_date it); [congruence | reflexivity].
Qed.

Lemma trending_rows_scored (db : database) (cutoff_date : Z) (it : item) :
  lookup_recent_ratings db cutoff_date it <> [] ->
  option_map (fun a => INR (List.length (lookup_recent_ratings db cutoff_date it)) * a)
             (mongo_avg (map (fun r => IZR (rating r))
                             (lookup_recent_ratings db cutoff_date it)))
  <> None.
Proof.
  destruct (lookup_recent_ratings db cutoff_date it); [congruence|]; discriminate.
Qed.

Lemma get_trending_items_empty (db : database) (utcnow : Z)
      (item_type_ : option ItemType) (days : Z) (limit : nat) (cutoff_date : Z) :
  (1 <= limit)%nat ->
  minus_timedelta utcnow days = Ok cutoff_date ->
  exists out,
    get_trending_items db utcnow item_type_ days limit = Ok out /\
    (out = [] <->
     forall it, In it (items db) -> match_filter item_type_ None None it = true ->
                lookup_recent_ratings db cutoff_date it = []).
Proof.
  intros Hl Hcut.
  unfold get_trending_items; rewrite Hcut; cbn [bind].
  destruct limit as [|n]; [lia|]; cbn [Nat.eqb]; cbv zeta.
  match goal with
  | |- context [mongo_sort_desc snd ?l] => set (rows := l)
  end.
  eexists; split; [reflexivity|]; split.
  - intros Hnil it Hit Hmf.
    destruct (lookup_recent_ratings db cutoff_date it) as [|r rs] eqn:E; [reflexivity|].
    exfalso.
    assert (Hp : In (it, option_map
                            (fun a => INR (List.length (r :: rs)) * a)
                            (mongo_avg (map (fun r => IZR (rating r)) (r :: rs))))
                    rows).
    { apply trending_rows; cbn [fst snd]; rewrite E; repeat split; auto; discriminate. }
    apply (mongo_sort_desc_In snd) in Hp.
    destruct (mongo_sort_desc snd rows) as [|q qs]; [contradiction|].
    cbn [firstn map] in Hnil; discriminate.
  - intros Hnone.
    destruct rows as [|p ps] eqn:Erows; [reflexivity|].
    exfalso.
    assert (Hp : In p rows) by (rewrite Erows; now left).
    apply trending_rows in Hp; destruct Hp as (Hit & Hmf & Hne & _).
    apply Hne; auto.
Qed.

(** X20. When the cutoff date can be computed and [limit] is at least 1,
    [get_trending_items] returns a list of at most [limit] records, by
    decreasing score; each record is tagged "trending", repeats its score
    in [trending_score], and is the projection of a stored item that
    passes the type filter and has at least one rating inside the window.
    The list is empty exactly when there is no such item. *)
Theorem get_trending_items_contract :
  forall (db : database) (utcnow : Z) (item_type_ : option ItemType) (days : Z)
         (limit : nat) (cutoff_date : Z),
    (1 <= limit)%nat ->
    minus_timedelta utcnow days = Ok cutoff_date ->
    exists out,
      get_trending_items db utcnow item_type_ days limit = Ok out /\
      (List.length out <= limit)%nat /\
      descending recommendation_score out /\
      (forall rec, In rec out ->
         recommendation_type rec = "trending" /\
         trending_score rec = Some (recommendation_score rec) /\
         exists it,
           In it (items db) /\
           match_filter item_type_ None None it = true /\
           doc rec = project_item it /\
           id rec = str (_id it) /\
           lookup_recent_ratings db cutoff_date it <> []) /\
      (out = [] <->
       forall it, In it (items db) -> match_filter item_type_ None None it = true ->
                  lookup_recent_ratings db cutoff_date it = []).
Proof.
  intros db utcnow t days limit cutoff Hl Hcut.
  unfold get_trending_items; rewrite Hcut; cbn [bind].
  destruct limit as [|n]; [lia|]; cbn [Nat.eqb]; cbv zeta.
  match goal with
  | |- context [mongo_sort_desc snd ?l] => set (rows := l)
  end.
  assert (Hrows : forall p, In p rows ->
            In (fst p) (items db) /\
            match_filter t None None (fst p) = true /\
            lookup_recent_ratings db cutoff (fst p) <> [] /\
            snd p <> None).
  { intros p Hp; apply trending_rows in Hp.
    destruct Hp as (? & ? & Hne & ->); repeat split; auto.
    now apply trending_rows_scored. }
  rewrite mongo_sort_desc_all_some by (intros p Hp; now apply Hrows).
  set (key := fun x : item * option R => match snd x with Some v => v | None => 0 end).
  eexists; split; [reflexivity|].
  split; [rewrite length_map; apply firstn_le_length|].
  split; [|split].
  - apply (descending_map key); [|apply descending_firstn, sort_desc_descending].
    intros [x sx] [y sy] _ _ H; exact H.
  - intros rec Hrec; apply in_map_iff in Hrec; destruct Hrec as ([it score] & <- & Hp).
    apply In_firstn, In_sort_desc, Hrows in Hp; cbn [fst snd] in Hp.
    destruct Hp as (Hit & Hmf & Hne & Hs); cbn.
    destruct score as [s|]; [|congruence].
    repeat split; auto.
    exists it; repeat split; auto.
  - destruct (get_trending_items_empty db utcnow t days (S n) cutoff Hl Hcut)
      as (out' & Hout' & Hempty).
    unfold get_trending_items in Hout'; rewrite Hcut in Hout'; cbn [bind Nat.eqb] in Hout'.
    cbv zeta in Hout'; fold rows in Hout'.
    rewrite mongo_sort_desc_all_some in Hout' by (intros p Hp; now apply Hrows).
    injection Hout' as <-; exact Hempty.
Qed.

Lemma get_trending_items_contract_witness :
  exists out,
    get_trending_items one_rated_item 0 (Some MOVIE) 7 10 = Ok out /\
    (List.length out <= 10)%nat /\
    descending recommendation_score out /\
    (forall rec, In rec out ->
       recommendation_type rec = "trending" /\
       trending_score rec = Some (recommendation_score rec) /\
       exists it,
         In it (items one_rated_item) /\
         match_filter (Some MOVIE) None None it = true /\
         doc rec = project_item it /\
         id rec = str (_id it) /\
         lookup_recent_ratings one_rated_item (-604800) it <> []) /\
    (out = [] <->
     forall it, In it (items one_rated_item) ->
                match_filter (Some MOVIE) None None it = true ->
                lookup_recent_ratings one_rated_item (-604800) it = []).
Proof.
  apply (get_trending_items_contract one_rated_item 0 (Some MOVIE) 7 10 (-604800)%Z).
  - lia.
  - reflexivity.
Defined.

(** X21. The route of the popular items answers 422 or the empty list. The
    route of the trending items, for parameters that pass its validation
    and a clock after the epoch, answers the empty list when no stored
    item that passes the type filter has a rating inside the window, and
    500 as soon as there is one: the records it would send cannot be
    encoded. *)
Theorem popular_and_trending_routes_answers :
  forall (db : database) (utcnow : Z) (item_type_ : option ItemType)
         (category_ genre : option string) (days : Z) (limit min_ratings : nat),
    (get_popular_recommendations db item_type_ category_ genre limit min_ratings
     = HTTP_422_UNPROCESSABLE \/
     get_popular_recommendations db item_type_ category_ genre limit min_ratings
     = HTTP_200 []) /\
    (days_ok days = true -> limit_ok limit = true ->
     (0 <= utcnow <= datetime_max)%Z ->
     get_trending_recommendations db utcnow item_type_ days limit
     = if existsb (fun it =>
                     match_filter item_type_ None None it
                     && (0 <? List.length
                                (lookup_recent_ratings db (utcnow - days * 86400) it))%nat)
                  (items db)
       then HTTP_500_INTERNAL_SERVER_ERROR
       else HTTP_200 []).
Proof.
  intros db utcnow t c g days limit k; split.
  - unfold get_popular_recommendations.
    destruct (limit_ok limit) eqn:Hl; cbn [negb]; [|now left].
    destruct (k <? 1)%nat eqn:Hk; [now left|]; right.
    apply Nat.ltb_ge in Hk.
    rewrite get_popular_items_no_join; [reflexivity | now apply limit_ok_positive | lia].
  - intros Hd Hl Hu.
    unfold get_trending_recommendations; rewrite Hd, Hl; cbn [negb].
    pose proof (minus_timedelta_in_route utcnow days Hd Hu) as Hcut.
    destruct (get_trending_items_empty db utcnow t days limit _
                (limit_ok_positive limit Hl) Hcut)
      as (out & -> & Hempty).
    cbn [try_except].
    match goal with
    | |- context [existsb ?f ?l] => destruct (existsb f l) eqn:Hex
    end.
    + apply existsb_exists in Hex; destruct Hex as (it & Hit & Hex).
      apply andb_prop in Hex; destruct Hex as [Hmf Hlen].
      destruct out as [|rec out']; [|reflexivity].
      rewrite (proj1 Hempty eq_refl it Hit Hmf) in Hlen; discriminate.
    + replace out with (@nil recommendation); [reflexivity|].
      symmetry; apply Hempty; intros it Hit Hmf.
      destruct (lookup_recent_ratings db (utcnow - days * 86400) it) as [|r rs] eqn:E;
        [reflexivity|].
      assert (existsb (fun it =>
                         match_filter t None None it
                         && (0 <? List.length
                                    (lookup_recent_ratings db (utcnow - days * 86400) it))%nat)
                      (items db) = true).
      { apply existsb_exists; exists it; split; [assumption|].
        rewrite Hmf, E; reflexivity. }
      congruence.
Qed.

(** ** Rating an item *)

Lemma user_ratings_fold_get (i : string) (l : list rating_doc) :
  forall (d : dict R) (acc : option R),
    dict_get d i = acc ->
    dict_get (fold_left (fun d r => dict_set d (item_id r) (IZR (rating r))) l d) i
    = fold_left (fun acc r => if String.eqb (item_id r) i
                              then Some (IZR (rating r)) else acc) l acc.
Proof.
  induction l as [|r l IH]; intros d acc Hd; cbn [fold_left]; [assumption|].
  apply IH.
  destruct (String.eqb (item_id r) i) eqn:E.
  - apply String.eqb_eq in E; subst i; apply dict_get_set_same.
  - apply String.eqb_neq in E; rewrite dict_get_set_other by congruence; assumption.
Qed.

Lemma user_ratings_last (db : database) (uid i : string) :
  dict_get (get_user_ratings_dict db uid) i = last_rating (find_ratings_of db uid) i.
Proof. unfold get_user_ratings_dict, last_rating; now apply user_ratings_fold_get. Qed.

Lemma same_user_and_item_spec (uid iid : string) (r : rating_doc) :
  same_user_and_item uid iid r = true <-> user_id r = uid /\ item_id r = iid.
Proof.
  unfold same_user_and_item; rewrite andb_true_iff, !String.eqb_eq; tauto.
Qed.

Lemma update_one_other_user (uid iid v : string) (value : Z) (l : list rating_doc) :
  v <> uid ->
  filter (fun r => String.eqb (user_id r) v)
         (update_one (same_user_and_item uid iid) (set_rating value) l)
  = filter (fun r => String.eqb (user_id r) v) l.
Proof.
  intros Hv; induction l as [|r l IH]; cbn [update_one filter]; [reflexivity|].
  destruct (same_user_and_item uid iid r) eqn:E; cbn [filter set_rating user_id].
  - apply same_user_and_item_spec in E; destruct E as [E _].
    assert (String.eqb (user_id r) v = false) by (apply String.eqb_neq; congruence).
    now rewrite H.
  - now rewrite IH.
Qed.

Lemma update_one_same_user (uid iid : string) (value : Z) (l : list rating_doc) :
  filter (fun r => String.eqb (user_id r) uid)
         (update_one (same_user_and_item uid iid) (set_rating value) l)
  = update_one (same_user_and_item uid iid) (set_rating value)
               (filter (fun r => String.eqb (user_id r) uid) l).
Proof.
  induction l as [|r l IH]; cbn [update_one filter]; [reflexivity|].
  destruct (same_user_and_item uid iid r) eqn:E; cbn [filter set_rating user_id].
  - pose proof E as E'; apply same_user_and_item_spec in E'; destruct E' as [E' _].
    rewrite E', String.eqb_refl; cbn [update_one]; rewrite <- E' at 2; now rewrite E.
  - destruct (String.eqb (user_id r) uid); cbn [update_one]; rewrite ?E, IH; reflexivity.
Qed.

Lemma update_one_pairs (uid iid : string) (value : Z) (l : list rating_doc) :
  map (fun r => (user_id r, item_id r))
      (update_one (same_user_and_item uid iid) (set_rating value) l)
  = map (fun r => (user_id r, item_id r)) l.
Proof.
  induction l as [|r l IH]; cbn [update_one map]; [reflexivity|].
  destruct (same_user_and_item uid iid r); cbn [map]; [reflexivity | now rewrite IH].
Qed.

Lemma last_rating_update_other (uid iid j : string) (value : Z) (l : list rating_doc) :
  j <> iid ->
  forall acc,
    fold_left (fun acc r => if String.eqb (item_id r) j
                            then Some (IZR (rating r)) else acc)
              (update_one (same_user_and_item uid iid) (set_rating value) l) acc
    = fold_left (fun acc r => if String.eqb (item_id r) j
                              then Some (IZR (rating r)) else acc) l acc.
Proof.
  intros Hj; induction l as [|r l IH]; intros acc; cbn [update_one]; [reflexivity|].
  destruct (same_user_and_item uid iid r) eqn:E; cbn [fold_left]; [|apply IH].
  apply same_user_and_item_spec in E; destruct E as [_ E].
  cbn [set_rating item_id].
  assert (String.eqb (item_id r) j = false) by (apply String.eqb_neq; congruence).
  now rewrite H.
Qed.

Lemma last_rating_absent (i : string) (l : list rating_doc) (acc : option R) :
  ~ In i (map item_id l) ->
  fold_left (fun acc r => if String.eqb (item_id r) i
                          then Some (IZR (rating r)) else acc) l acc = acc.
Proof.
  revert acc; induction l as [|r l IH]; intros acc H; cbn [fold_left]; [reflexivity|].
  cbn [map] in H.
  assert (String.eqb (item_id r) i = false) by (apply String.eqb_neq; intros E; apply H; now left).
  rewrite H0; apply IH; intros Hin; apply H; now right.
Qed.

Lemma last_rating_updated (uid iid : string) (value : Z) (l : list rating_doc) :
  (forall r, In r l -> user_id r = uid) ->
  NoDup (map item_id l) ->
  (exists r, In r l /\ same_user_and_item uid iid r = true) ->
  forall acc,
    fold_left (fun acc r => if String.eqb (item_id r) iid
                            then Some (IZR (rating r)) else acc)
              (update_one (same_user_and_item uid iid) (set_rating value) l) acc
    = Some (IZR value).
Proof.
  induction l as [|r l IH]; intros Hu Hnd (x & Hx & Hfx) acc; [contradiction|].
  cbn [map] in Hnd; inversion Hnd as [|? ? Hnotin Hnd']; subst.
  cbn [update_one].
  destruct (same_user_and_item uid iid r) eqn:E; cbn [fold_left].
  - apply same_user_and_item_spec in E; destruct E as [_ E].
    cbn [set_rating item_id rating]; rewrite E, String.eqb_refl.
    apply last_rating_absent; now rewrite <- E.
  - destruct Hx as [->|Hx]; [congruence|].
    assert (String.eqb (item_id r) iid = false).
    { apply String.eqb_neq; intros Er.
      assert (same_user_and_item uid iid r = true)
        by (apply same_user_and_item_spec; split; [apply Hu; now left | assumption]).
      congruence. }
    rewrite H; apply IH; eauto.
    intros y Hy; apply Hu; now right.
Qed.

Lemma one_rating_per_pair_user (db : database) (uid : string) :
  one_rating_per_pair db -> NoDup (map item_id (find_ratings_of db uid)).
Proof.
  unfold one_rating_per_pair, find_ratings_of.
  induction (ratings db) as [|r l IH]; cbn [map filter]; intros H; [constructor|].
  inversion H as [|? ? Hnotin Hnd]; subst.
  destruct (String.eqb (user_id r) uid) eqn:E; [|auto].
  apply String.eqb_eq in E; cbn [map]; constructor; [|auto].
  intros Hin; apply Hnotin.
  apply in_map_iff in Hin; destruct Hin as (x & Hx & Hin).
  apply filter_In in Hin; destruct Hin as [Hin Hux]; apply String.eqb_eq in Hux.
  apply in_map_iff; exists x; split; [congruence | assumption].
Qed.

(** X22. On a store with at most one rating per user and item text, a call
    of [create_rating] that answers 201 keeps that property, and afterwards
    the rating map of the caller gives the new value for the item text; the
    other entries of that map, the maps of the other users and the items
    are as before. *)
Theorem create_rating_round_trip :
  forall (db : database) (utcnow : Z) (uid iid : string) (value : Z)
         (db' : database) (stored : rating_doc),
    one_rating_per_pair db ->
    create_rating db utcnow uid iid value = (db', HTTP_201_CREATED stored) ->
    one_rating_per_pair db' /\
    dict_get (get_user_ratings_dict db' uid) iid = Some (IZR value) /\
    (forall j, j <> iid ->
               dict_get (get_user_ratings_dict db' uid) j
               = dict_get (get_user_ratings_dict db uid) j) /\
    (forall v, v <> uid -> get_user_ratings_dict db' v = get_user_ratings_dict db v) /\
    items db' = items db.
Proof.
  intros db utcnow uid iid value db' stored Huniq.
  unfold create_rating.
  destruct (negb (rating_value_ok value)); [discriminate|].
  destruct (negb (is_valid iid)); [discriminate|].
  destruct (ObjectId_of iid) as [oid|]; [|discriminate].
  destruct (find_one_item db oid); [|discriminate].
  destruct (find (same_user_and_item uid iid) (ratings db)) as [existing|] eqn:Hfind;
    cbv zeta; intros [= <- _].
  - (* the rating exists and is updated *)
    apply find_some in Hfind; destruct Hfind as [Hin Hf].
    split; [|split; [|split; [|split]]].
    + unfold one_rating_per_pair; cbn [ratings]; now rewrite update_one_pairs.
    + rewrite user_ratings_last; unfold last_rating, find_ratings_of; cbn [ratings].
      rewrite update_one_same_user.
      apply last_rating_updated.
      * intros r Hr; apply filter_In in Hr; destruct Hr as [_ Hr].
        now apply String.eqb_eq in Hr.
      * now apply one_rating_per_pair_user.
      * exists existing; split; [|assumption].
        apply filter_In; split; [assumption|].
        apply same_user_and_item_spec in Hf; destruct Hf as [-> _].
        apply String.eqb_refl.
    + intros j Hj; rewrite !user_ratings_last; unfold last_rating, find_ratings_of.
      cbn [ratings]; rewrite update_one_same_user.
      now apply last_rating_update_other.
    + intros v Hv; unfold get_user_ratings_dict, find_ratings_of; cbn [ratings].
      now rewrite update_one_other_user.
    + reflexivity.
  - (* a new rating is inserted *)
    assert (Hnone : forall r, In r (ratings db) -> same_user_and_item uid iid r = false)
      by (intros r Hr; eapply find_none; eauto).
    split; [|split; [|split; [|split]]].
    + unfold one_rating_per_pair; cbn [ratings]; rewrite map_app; cbn [map user_id item_id].
      apply NoDup_app; [exact Huniq | constructor; [intros []|constructor] |].
      intros p Hp [<-|[]].
      apply in_map_iff in Hp; destruct Hp as (r & [= Hu Hi] & Hr).
      specialize (Hnone r Hr).
      assert (same_user_and_item uid iid r = true)
        by (now apply same_user_and_item_spec).
      congruence.
    + rewrite user_ratings_last; unfold last_rating, find_ratings_of; cbn [ratings].
      rewrite filter_app; cbn [filter user_id]; rewrite String.eqb_refl.
      rewrite fold_left_app; cbn [fold_left item_id rating].
      now rewrite String.eqb_refl.
    + intros j Hj; rewrite !user_ratings_last; unfold last_rating, find_ratings_of.
      cbn [ratings]; rewrite filter_app; cbn [filter user_id]; rewrite String.eqb_refl.
      rewrite fold_left_app; cbn [fold_left item_id].
      assert (String.eqb iid j = false) by (apply String.eqb_neq; congruence).
      now rewrite H.
    + intros v Hv; unfold get_user_ratings_dict, find_ratings_of; cbn [ratings].
      rewrite filter_app; cbn [filter user_id].
      assert (String.eqb uid v = false) by (apply String.eqb_neq; congruence).
      now rewrite H, app_nil_r.
    + reflexivity.
Qed.

Lemma create_rating_round_trip_witness :
  let db' := {| items := [movie item1 "one"]; ratings := [rate "B" item1 2] |} in
  one_rating_per_pair db' /\
  dict_get (get_user_ratings_dict db' "B") item1 = Some (IZR 2) /\
  (forall j, j <> item1 ->
             dict_get (get_user_ratings_dict db' "B") j
             = dict_get (get_user_ratings_dict new_user_store "B") j) /\
  (forall v, v <> "B" ->
             get_user_ratings_dict db' v = get_user_ratings_dict new_user_store v) /\
  items db' = items new_user_store.
Proof.
  apply (create_rating_round_trip new_user_store 7 "B" item1 2 _ (rate "B" item1 2)).
  - repeat constructor; intros [].
  - vm_compute; reflexivity.
Defined.

Lemma update_one_In (f : rating_doc -> bool) (g : rating_doc -> rating_doc)
      (l : list rating_doc) (x : rating_doc) :
  In x (update_one f g l) ->
  In x l \/ exists y, In y l /\ f y = true /\ x = g y.
Proof.
  induction l as [|r l IH]; cbn [update_one]; [contradiction|].
  destruct (f r) eqn:E; intros [<-|H].
  - right; exists r; repeat split; [now left | assumption].
  - left; now right.
  - left; now left.
  - destruct (IH H) as [H'|(y & Hy & Hfy & ->)]; [left; now right|].
    right; exists y; repeat split; [now right | assumption].
Qed.

Lemma update_one_keeps (f : rating_doc -> bool) (g : rating_doc -> rating_doc)
      (l : list rating_doc) (x : rating_doc) :
  In x l -> f x = false -> In x (update_one f g l).
Proof.
  induction l as [|r l IH]; cbn [update_one]; [contradiction|].
  intros [->|H] Hx; [rewrite Hx; now left|].
  destruct (f r); [now right | right; auto].
Qed.

Lemma update_one_first (f : rating_doc -> bool) (g : rating_doc -> rating_doc)
      (l : list rating_doc) (x : rating_doc) :
  find f l = Some x -> In (g x) (update_one f g l).
Proof.
  induction l as [|r l IH]; cbn [find update_one]; [discriminate|].
  destruct (f r); [intros [= ->]; now left | right; auto].
Qed.

Lemma update_one_length (f : rating_doc -> bool) (g : rating_doc -> rating_doc)
      (l : list rating_doc) :
  List.length (update_one f g l) = List.length l.
Proof.
  induction l as [|r l IH]; cbn [update_one]; [reflexivity|].
  destruct (f r); cbn [List.length]; congruence.
Qed.

(** What a call of [create_rating] that answers 201 has done. *)
Lemma create_rating_created (db : database) (utcnow : Z) (uid iid : string) (value : Z)
      (db' : database) (stored : rating_doc) :
  create_rating db utcnow uid iid value = (db', HTTP_201_CREATED stored) ->
  rating_value_ok value = true /\ is_valid iid = true /\
  items db' = items db /\
  user_id stored = uid /\ item_id stored = iid /\ rating stored = value /\
  In stored (ratings db') /\
  (forall x, In x (ratings db') ->
             In x (ratings db) \/ (user_id x = uid /\ item_id x = iid /\ rating x = value)) /\
  (forall x, In x (ratings db) -> same_user_and_item uid iid x = false ->
             In x (ratings db')) /\
  (List.length (ratings db) <= List.length (ratings db') <= S (List.length (ratings db)))%nat.
Proof.
  unfold create_rating.
  destruct (rating_value_ok value); cbn [negb]; [|discriminate].
  destruct (is_valid iid); cbn [negb]; [|discriminate].
  destruct (ObjectId_of iid) as [oid|]; [|discriminate].
  destruct (find_one_item db oid); [|discriminate].
  destruct (find (same_user_and_item uid iid) (ratings db)) as [existing|] eqn:Hfind;
    cbv zeta; intros [= <- <-]; cbn [items ratings user_id item_id rating set_rating].
  - pose proof (find_some _ _ Hfind) as [Hin Hf].
    apply same_user_and_item_spec in Hf; destruct Hf as [Hu Hi].
    repeat split; auto.
    + now apply (update_one_first _ (set_rating value)).
    + intros x Hx; apply update_one_In in Hx.
      destruct Hx as [Hx | (y & Hy & Hfy & ->)]; [now left | right].
      apply same_user_and_item_spec in Hfy; cbn; tauto.
    + intros x Hx Hfx; now apply update_one_keeps.
    + rewrite update_one_length; lia.
    + rewrite update_one_length; lia.
  - repeat split; auto.
    + apply in_or_app; right; now left.
    + intros x Hx; apply in_app_or in Hx; destruct Hx as [Hx|[<-|[]]]; [now left | right].
      cbn; tauto.
    + intros x Hx _; apply in_or_app; now left.
    + rewrite length_app; cbn; lia.
    + rewrite length_app; cbn; lia.
Qed.

(** A call of [create_rating] that does not answer 201 changes nothing. *)
Lemma create_rating_rejected (db : database) (utcnow : Z) (uid iid : string) (value : Z) :
  (forall stored, snd (create_rating db utcnow uid iid value) <> HTTP_201_CREATED stored) ->
  fst (create_rating db utcnow uid iid value) = db.
Proof.
  unfold create_rating.
  destruct (negb (rating_value_ok value)); [reflexivity|].
  destruct (negb (is_valid iid)); [reflexivity|].
  destruct (ObjectId_of iid) as [oid|]; [|reflexivity].
  destruct (find_one_item db oid); [|reflexivity].
  destruct (find _ _) as [existing|]; cbv zeta; cbn [fst snd]; intros H.
  - exfalso; now apply (H (set_rating value existing)).
  - exfalso; eapply H; reflexivity.
Qed.

(** X23. [create_rating] never fails with an unhandled exception. A call
    that does not answer 201 leaves the store as it was. A call that
    answers 201 was given a value from 1 to 5 and a text that [ObjectId]
    accepts; it leaves the items as they were, the stored rating is in the
    store and carries the caller, the item text and the value; every
    rating of another user or item text is kept, no other rating appears,
    and the number of ratings grows by at most one. *)
Theorem create_rating_contract :
  forall (db : database) (utcnow : Z) (uid iid : string) (value : Z),
    snd (create_rating db utcnow uid iid value) <> HTTP_500_UNHANDLED /\
    ((forall stored, snd (create_rating db utcnow uid iid value)
                     <> HTTP_201_CREATED stored) ->
     fst (create_rating db utcnow uid iid value) = db) /\
    forall db' stored,
      create_rating db utcnow uid iid value = (db', HTTP_201_CREATED stored) ->
      rating_value_ok value = true /\ is_valid iid = true /\
      items db' = items db /\
      user_id stored = uid /\ item_id stored = iid /\ rating stored = value /\
      In stored (ratings db') /\
      (forall x, In x (ratings db') ->
                 In x (ratings db) \/
                 (user_id x = uid /\ item_id x = iid /\ rating x = value)) /\
      (forall x, In x (ratings db) -> same_user_and_item uid iid x = false ->
                 In x (ratings db')) /\
      (List.length (ratings db) <= List.length (ratings db')
       <= S (List.length (ratings db)))%nat.
Proof.
  intros db utcnow uid iid value; split; [|split].
  - unfold create_rating.
    destruct (negb (rating_value_ok value)); [discriminate|].
    destruct (is_valid iid) eqn:Hv; cbn [negb]; [|discriminate].
    unfold ObjectId_of; rewrite Hv.
    destruct (find_one_item db _); [|discriminate].
    destruct (find _ _); discriminate.
  - apply create_rating_rejected.
  - intros db' stored; apply create_rating_created.
Qed.

Lemma create_rating_valid_item_ids (db : database) (utcnow : Z) (uid iid : string)
      (value : Z) :
  valid_item_ids db = true ->
  valid_item_ids (fst (create_rating db utcnow uid iid value)) = true.
Proof.
  intros H.
  destruct (create_rating db utcnow uid iid value) as [db' resp] eqn:E; cbn [fst].
  destruct resp as [stored| | | |].
  2-5: replace db' with (fst (create_rating db utcnow uid iid value))
         by (now rewrite E);
       rewrite create_rating_rejected; [exact H | rewrite E; discriminate].
  destruct (create_rating_created _ _ _ _ _ _ _ E)
    as (_ & Hv & _ & _ & _ & _ & _ & Hall & _).
  unfold valid_item_ids in *; rewrite forallb_forall in *.
  intros x Hx; destruct (Hall x Hx) as [Hx'|(_ & -> & _)]; auto.
Qed.

Lemma create_rating_in_range (db : database) (utcnow : Z) (uid iid : string)
      (value : Z) :
  ratings_in_range db = true ->
  ratings_in_range (fst (create_rating db utcnow uid iid value)) = true.
Proof.
  intros H.
  destruct (create_rating db utcnow uid iid value) as [db' resp] eqn:E; cbn [fst].
  destruct resp as [stored| | | |].
  2-5: replace db' with (fst (create_rating db utcnow uid iid value))
         by (now rewrite E);
       rewrite create_rating_rejected; [exact H | rewrite E; discriminate].
  destruct (create_rating_created _ _ _ _ _ _ _ E)
    as (Hv & _ & _ & _ & _ & _ & _ & Hall & _).
  unfold ratings_in_range in *; rewrite forallb_forall in *.
  intros x Hx; destruct (Hall x Hx) as [Hx'|(_ & _ & ->)]; auto.
Qed.

(** X24. [create_rating] keeps two properties of the store: every rating
    has a value from 1 to 5, and every rating names its item by a text
    that [ObjectId] accepts. So after any call on a store with the second
    property the collaborative recommender still returns a list, for every
    user. *)
Theorem create_rating_keeps_item_ids_valid :
  forall (db : database) (utcnow : Z) (uid iid : string) (value : Z),
    valid_item_ids db = true ->
    let db' := fst (create_rating db utcnow uid iid value) in
    valid_item_ids db' = true /\
    (ratings_in_range db = true -> ratings_in_range db' = true) /\
    forall (caller : string) (limit : nat) (min_similarity : R),
    exists out,
      generate_collaborative_recommendations db' caller limit min_similarity = Ok out.
Proof.
  intros db utcnow uid iid value Hv db'.
  assert (Hv' : valid_item_ids db' = true) by now apply create_rating_valid_item_ids.
  split; [assumption|]; split; [apply create_rating_in_range|].
  intros caller limit ms; now apply generate_collaborative_recommendations_total.
Qed.

Lemma create_rating_keeps_item_ids_valid_witness :
  let db' := fst (create_rating mixed_case_store 7 "U" ITEM_X 1) in
  valid_item_ids db' = true /\
  (ratings_in_range mixed_case_store = true -> ratings_in_range db' = true) /\
  forall (caller : string) (limit : nat) (min_similarity : R),
  exists out,
    generate_collaborative_recommendations db' caller limit min_similarity = Ok out.
Proof.
  apply (create_rating_keeps_item_ids_valid mixed_case_store 7 "U" ITEM_X 1).
  vm_compute; reflexivity.
Defined.

(** ** More stores for the blender *)

Ltac neighbours_V :=
  unfold find_similar_users; cbn;
  rewrite pearson_correlation_eq; cbn;
  unfold sq_dev_over, co_dev_over, mean_over; cbn;
  sqrt_is 2; rdecide; cbn;
  do 3 f_equal; lra.

Ltac found db i it :=
  replace (find_one_item db (Oid i)) with it by (vm_compute; reflexivity);
  cbn [bind app].

Ltac profile_of_movies :=
  unfold get_user_preferred_features; crunch;
  do 3 f_equal; lra.

Lemma two_books_store_neighbours :
  find_similar_users two_books_store "U" 3 50 = Ok [("V", 1)].
Proof. neighbours_V. Qed.

Lemma two_books_store_scores :
  collaborative_item_scores two_books_store
    (to_set (keys (get_user_ratings_dict two_books_store "U"))) (3 / 10) [("V", 1)]
  = [(item_bk2, (0 + 1 * 4, 1%nat)); (item_bk, (0 + 1 * 5, 1%nat))].
Proof. unfold collaborative_item_scores; cbn; rdecide; reflexivity. Qed.

(** The collaborative recommender ranks the second book of V first. *)
Lemma two_books_store_collaborative (n : nat) :
  generate_collaborative_recommendations two_books_store "U" (S (S n)) (3 / 10)
  = Ok [annotate (book item_bk "a book") 5 "collaborative";
        annotate (book item_bk2 "another book") 4 "collaborative"].
Proof.
  unfold generate_collaborative_recommendations.
  rewrite two_books_store_neighbours; cbn [bind List.length Nat.eqb].
  rewrite two_books_store_scores, collaborative_candidates_eq.
  cbn [bind flat_map candidate_of Nat.ltb Nat.leb app INR].
  unfold sort_desc; cbn [fold_right]; cbn [insert_desc fst snd]; rdecide.
  cbn [firstn]; cbn [foldM]; eval_oids; cbn [bind].
  found two_books_store item_bk (Some (book item_bk "a book")).
  found two_books_store item_bk2 (Some (book item_bk2 "another book")).
  rewrite firstn_nil; cbn [foldM].
  replace ((0 + 1 * 5) / 1) with 5 by lra.
  replace ((0 + 1 * 4) / 1) with 4 by lra; reflexivity.
Qed.

Lemma two_books_store_profile :
  get_user_preferred_features two_books_store "U" 3 = Ok [("type:movie", 1)].
Proof. profile_of_movies. Qed.

Lemma two_books_store_content (n : nat) :
  generate_content_based_recommendations two_books_store "U" n (3 / 10) = Ok [].
Proof.
  unfold generate_content_based_recommendations.
  rewrite two_books_store_profile; crunch.
  rewrite !cosine_similarity_features_eq; cbn.
  unfold norm_over; cbn.
  repeat sqrt_is 1; crunch.
  now rewrite firstn_nil.
Qed.

Lemma content_only_store_neighbours :
  find_similar_users content_only_store "U" 3 50 = Ok [("V", 1)].
Proof. neighbours_V. Qed.

Lemma content_only_store_scores :
  collaborative_item_scores content_only_store
    (to_set (keys (get_user_ratings_dict content_only_store "U"))) (3 / 10) [("V", 1)]
  = [(item_bk, (0 + 1 * 5, 1%nat))].
Proof. unfold collaborative_item_scores; cbn; rdecide; reflexivity. Qed.

Lemma content_only_store_collaborative (n : nat) :
  generate_collaborative_recommendations content_only_store "U" (S n) (3 / 10)
  = Ok [annotate (book item_bk "a book") 5 "collaborative"].
Proof.
  unfold generate_collaborative_recommendations.
  rewrite content_only_store_neighbours; cbn [bind List.length Nat.eqb].
  rewrite content_only_store_scores, collaborative_candidates_eq.
  cbn [bind flat_map candidate_of Nat.ltb Nat.leb app INR].
  unfold sort_desc; cbn [fold_right]; cbn [insert_desc fst snd].
  cbn [firstn]; cbn [foldM]; eval_oids; cbn [bind].
  found content_only_store item_bk (Some (book item_bk "a book")).
  rewrite firstn_nil; cbn [foldM].
  replace ((0 + 1 * 5) / 1) with 5 by lra; reflexivity.
Qed.

Lemma content_only_store_profile :
  get_user_preferred_features content_only_store "U" 3 = Ok [("type:movie", 1)].
Proof. profile_of_movies. Qed.

Lemma content_only_store_content (n : nat) :
  generate_content_based_recommendations content_only_store "U" (S n) (3 / 10)
  = Ok [annotate (movie item_mv "a movie") 1 "content_based"].
Proof.
  unfold generate_content_based_recommendations.
  rewrite content_only_store_profile; crunch.
  rewrite !cosine_similarity_features_eq; cbn.
  unfold norm_over; cbn.
  repeat sqrt_is 1; crunch.
  rewrite firstn_nil; cbn [map].
  replace ((0 + 1 * 1) / (1 * 1)) with 1 by lra; reflexivity.
Qed.

(** The movie that only the content-based list holds is appended, with
    score 0: no record is boosted, and the list is longer than the
    collaborative one. *)
Lemma content_only_store_hybrid :
  exists H, generate_hybrid_recommendations content_only_store "U" 10 1 0 (3 / 10) = Ok H
            /\ map recommendation_score H = [1 * (5 / 5) + 0 * 0; 1 * 0 + 0 * (1 / 1)]
            /\ map id H = [item_bk; item_mv].
Proof.
  unfold generate_hybrid_recommendations.
  change (10 * 2)%nat with (S 19).
  rewrite content_only_store_collaborative, content_only_store_content.
  cbn [bind].
  unfold normalize_scores; cbn; rmax; crunch.
  eexists; split; [reflexivity|]; split; reflexivity.
Qed.

Lemma deleted_item_store_neighbours :
  find_similar_users deleted_item_store "U" 3 50 = Ok [("V", 1)].
Proof. neighbours_V. Qed.

Lemma deleted_item_store_scores :
  collaborative_item_scores deleted_item_store
    (to_set (keys (get_user_ratings_dict deleted_item_store "U"))) (3 / 10) [("V", 1)]
  = [(item_mv, (0 + 1 * 5, 1%nat)); (item_bk, (0 + 1 * 4, 1%nat))].
Proof. unfold collaborative_item_scores; cbn; rdecide; reflexivity. Qed.

(** With [limit = 1] the deleted movie takes the only place and is then
    dropped. *)
Lemma deleted_item_store_collaborative_1 :
  generate_collaborative_recommendations deleted_item_store "U" 1 (3 / 10) = Ok [].
Proof.
  unfold generate_collaborative_recommendations.
  rewrite deleted_item_store_neighbours; cbn [bind List.length Nat.eqb].
  rewrite deleted_item_store_scores, collaborative_candidates_eq.
  cbn [bind flat_map candidate_of Nat.ltb Nat.leb app INR].
  unfold sort_desc; cbn [fold_right]; cbn [insert_desc fst snd]; rdecide.
  cbn [firstn]; cbn [foldM]; eval_oids; cbn [bind].
  found deleted_item_store item_mv (@None item).
  reflexivity.
Qed.

Lemma deleted_item_store_collaborative_2 :
  generate_collaborative_recommendations deleted_item_store "U" 2 (3 / 10)
  = Ok [annotate (book item_bk "a book") 4 "collaborative"].
Proof.
  unfold generate_collaborative_recommendations.
  rewrite deleted_item_store_neighbours; cbn [bind List.length Nat.eqb].
  rewrite deleted_item_store_scores, collaborative_candidates_eq.
  cbn [bind flat_map candidate_of Nat.ltb Nat.leb app INR].
  unfold sort_desc; cbn [fold_right]; cbn [insert_desc fst snd]; rdecide.
  cbn [firstn]; cbn [foldM]; eval_oids; cbn [bind].
  found deleted_item_store item_mv (@None item).
  found deleted_item_store item_bk (Some (book item_bk "a book")).
  replace ((0 + 1 * 4) / 1) with 4 by lra; reflexivity.
Qed.

Lemma deleted_item_store_profile :
  get_user_preferred_features deleted_item_store "U" 3 = Ok [("type:movie", 1)].
Proof. profile_of_movies. Qed.

Lemma deleted_item_store_content (n : nat) :
  generate_content_based_recommendations deleted_item_store "U" n (3 / 10) = Ok [].
Proof.
  unfold generate_content_based_recommendations.
  rewrite deleted_item_store_profile; crunch.
  rewrite !cosine_similarity_features_eq; cbn.
  unfold norm_over; cbn.
  repeat sqrt_is 1; crunch.
  now rewrite firstn_nil.
Qed.

(** The blender asks for [2 * limit] records and so still sees the book. *)
Lemma deleted_item_store_hybrid :
  exists H, generate_hybrid_recommendations deleted_item_store "U" 1 1 0 (3 / 10) = Ok H
            /\ map id H = [item_bk].
Proof.
  unfold generate_hybrid_recommendations.
  change (1 * 2)%nat with 2%nat.
  rewrite deleted_item_store_collaborative_2, deleted_item_store_content.
  cbn [bind].
  unfold normalize_scores; cbn; rmax; crunch.
  eexists; split; reflexivity.
Qed.

(** C5 (as stated) fails, also where no record gets the boost of 1.2.
    In [content_only_store], whose ratings are well formed, the two lists
    share no item, yet the blender appends the movie of the content-based
    list: a weight of 0 does not empty that list. In [deleted_item_store]
    the content-based list is empty, yet with [limit = 1] the collaborative
    recommender returns nothing (the deleted movie takes the only place)
    while the blender, which asks for two records, returns the book. *)
Lemma hybrid_collaborative_order_counterexample :
  ~ (forall (db : database) (uid : string) (limit : nat) (min_similarity : R)
            (H C : list recommendation),
        consistent db = true ->
        (forall C2 B2,
            generate_collaborative_recommendations db uid (limit * 2) min_similarity
            = Ok C2 ->
            generate_content_based_recommendations db uid (limit * 2) min_similarity
            = Ok B2 ->
            forall x, In x (map id C2) -> ~ In x (map id B2)) ->
        generate_hybrid_recommendations db uid limit 1 0 min_similarity = Ok H ->
        generate_collaborative_recommendations db uid limit min_similarity = Ok C ->
        map id H = map id C)
  /\
  ~ (forall (db : database) (uid : string) (limit : nat) (min_similarity : R)
            (H C : list recommendation),
        generate_content_based_recommendations db uid (limit * 2) min_similarity
        = Ok [] ->
        generate_hybrid_recommendations db uid limit 1 0 min_similarity = Ok H ->
        generate_collaborative_recommendations db uid limit min_similarity = Ok C ->
        map id H = map id C).
Proof.
  split; intros Hall.
  - destruct content_only_store_hybrid as (H & HH & _ & Hids).
    assert (E : map id H
                = map id [annotate (book item_bk "a book") 5 "collaborative"]).
    { apply (Hall content_only_store "U" 10%nat (3 / 10));
        [vm_compute; reflexivity | | exact HH
        | exact (content_only_store_collaborative 9)].
      intros C2 B2; change (10 * 2)%nat with (S 19).
      rewrite content_only_store_collaborative, content_only_store_content.
      intros [= <-] [= <-] x [<-|[]] [E|[]]; vm_compute in E; discriminate. }
    rewrite Hids in E; vm_compute in E; discriminate.
  - destruct deleted_item_store_hybrid as (H & HH & Hids).
    specialize (Hall deleted_item_store "U" 1%nat (3 / 10) H []
                     (deleted_item_store_content _) HH
                     deleted_item_store_collaborative_1).
    rewrite Hids in Hall; discriminate.
Qed.

Lemma hybrid_matches_collaborative_when_content_is_empty_witness :
  exists H C,
    generate_hybrid_recommendations two_books_store "U" 10 1 0 (3 / 10) = Ok H /\
    generate_collaborative_recommendations two_books_store "U" 10 (3 / 10) = Ok C /\
    map id H = map id C.
Proof.
  apply (hybrid_matches_collaborative_when_content_is_empty
           two_books_store "U" 10 (3 / 10)).
  - vm_compute; reflexivity.
  - apply two_books_store_content.
Defined.

(** ** Scores per item *)



















